(** * Product reconcilers of the integreatly operator: Grafana and 3scale

    A shallow embedding of [pkg/products/grafana/reconciler.go], of the
    3scale reconciler and of [version.VerifyProductAndOperatorVersion].

    The reconcilers are sequences of calls into collaborators (the cluster API
    client, the cloud-resource operator, the 3scale HTTP client, the
    configuration manager ...).  The collaborators are an interface [Env] over
    an abstract world; every call threads the world and is appended, with its
    response, to a log.  The Go code is embedded as functions in a state monad
    whose result is either a value or a Go panic (nil dereference, write to a
    nil map).  Logging through logrus has no effect a caller can observe and is
    left out. *)

From stdpp Require Import base strings list gmap.
From Stdlib Require Import Ascii String ZArith.

Local Open Scope string_scope.
Local Open Scope Z_scope.
Local Open Scope list_scope.

(** ** Phases and errors *)

(** Modelled from the spec: the declaration of [StatusPhase]
    (pkg/apis/integreatly/v1alpha1) is not among the sources; the spec gives
    the enumeration Initial, InProgress, AwaitingComponents, Completed,
    Failed. *)
Inductive StatusPhase :=
| PhaseInitial
| PhaseInProgress
| PhaseAwaitingComponents
| PhaseCompleted
| PhaseFailed.

#[global] Instance StatusPhase_eq_dec : EqDecision StatusPhase.
Proof. solve_decision. Defined.

(** Go errors.  [ErrWrap] is [fmt.Errorf("...: %w", err)]. *)
Inductive Err :=
| ErrNotFound (what : string)
| ErrConflict (what : string)
| ErrOther (msg : string)
| ErrWrap (context : string) (cause : Err).

#[global] Instance Err_eq_dec : EqDecision Err.
Proof. solve_decision. Defined.

(** A Go [error] value; [None] is [nil]. *)
Definition error := option Err.

(** What every step returns: [(StatusPhase, error)]. *)
Definition Result := (StatusPhase * error)%type.

(** [k8serr.IsNotFound] and [k8serr.IsConflict] look at the status reason of
    the error they are given. *)
Definition IsNotFound (e : error) : bool :=
  match e with Some (ErrNotFound _) => true | _ => false end.

Definition IsConflict (e : error) : bool :=
  match e with Some (ErrConflict _) => true | _ => false end.

(** [err != nil] *)
Definition isErr (err : error) : bool :=
  match err with Some _ => true | None => false end.

(** The test [err != nil || phase != PhaseCompleted] that follows every step. *)
Definition halts (phase : StatusPhase) (err : error) : bool :=
  isErr err || bool_decide (phase ≠ PhaseCompleted).

(** ** Strings *)

(** [strings.ToLower] and [strings.EqualFold] on ASCII letters; a byte outside
    ['A'..'Z'] is kept as it is, so text that is not ASCII is compared byte by
    byte. *)
Definition lowerByte (c : ascii) : ascii :=
  let n := nat_of_ascii c in
  if (Nat.leb 65 n && Nat.leb n 90)%bool then ascii_of_nat (n + 32) else c.

Fixpoint ToLower (s : string) : string :=
  match s with
  | EmptyString => EmptyString
  | String c s' => String (lowerByte c) (ToLower s')
  end.

Fixpoint EqualFold (s t : string) : bool :=
  match s, t with
  | EmptyString, EmptyString => true
  | String a s', String b t' =>
      if (Ascii.eqb a b || Ascii.eqb (lowerByte a) (lowerByte b))%bool
      then EqualFold s' t'
      else false
  | _, _ => false
  end.

(** [strings.HasPrefix(s, prefix)] *)
Definition HasPrefix (s prefix : string) : bool := String.prefix prefix s.

(** ** Cluster objects *)

Record ObjectKey := { key_Name : string; key_Namespace : string }.

#[global] Instance ObjectKey_eq_dec : EqDecision ObjectKey.
Proof. solve_decision. Defined.

Record ObjectMeta := {
  Name : string;
  Namespace : string;
  Annotations : gmap string string;
  Labels : gmap string string;
}.

#[global] Instance ObjectMeta_eq_dec : EqDecision ObjectMeta.
Proof. solve_decision. Defined.

(** [metav1.ObjectMeta{Name: n, Namespace: ns}] *)
Definition mkMeta (n ns : string) : ObjectMeta :=
  {| Name := n; Namespace := ns; Annotations := ∅; Labels := ∅ |}.

Definition keyOfMeta (m : ObjectMeta) : ObjectKey :=
  {| key_Name := Name m; key_Namespace := Namespace m |}.

(** A Go map that may be nil: [None] is the nil map.  Reading a nil map gives
    the zero value, writing to it panics.  Byte slices are kept as strings; a
    nil slice and an empty one are both the empty string. *)
Definition GoMap := option (gmap string string).

Definition mapGet (m : GoMap) (k : string) : string :=
  match m with
  | Some d => default "" (d !! k)
  | None => ""
  end.

Definition mapEntries (m : GoMap) : gmap string string := default ∅ m.

Record Secret := { secret_meta : ObjectMeta; secret_Data : GoMap }.
Record ConfigMap := { cm_meta : ObjectMeta; cm_Data : GoMap }.
Record Route := { route_meta : ObjectMeta; route_Host : string }.
Record Pod := { pod_meta : ObjectMeta; pod_Phase : string }.
Record Group := { group_meta : ObjectMeta; group_Users : list string }.

(** [Status.SecretRef] of a cloud-resource custom resource. *)
Record SecretRef := { ref_Name : string; ref_Namespace : string }.

(** The cloud-resource operator's custom resources; [Status.Phase] is a string
    type whose value [types.PhaseComplete] is ["complete"]. *)
Record BlobStorage := {
  blob_meta : ObjectMeta; blob_Phase : string; blob_SecretRef : SecretRef }.
Record Redis := {
  redis_meta : ObjectMeta; redis_Phase : string; redis_SecretRef : SecretRef }.
Record Postgres := {
  pg_meta : ObjectMeta; pg_Phase : string; pg_SecretRef : SecretRef }.

Definition PhaseComplete : string := "complete".

(** The Grafana custom resource.  Its specification is only ever the zero
    value, the literal of [reconcileComponents], or whatever the server holds. *)
Inductive GrafanaSpec :=
| GrafanaSpecZero
| GrafanaSpecProxied
| GrafanaSpecStored (manifest : string).

Record Grafana := { grafana_meta : ObjectMeta; grafana_Spec : GrafanaSpec }.

(** [threescalev1.APIManager].  A replica count is [None] when one of the
    pointers on the way to it is nil. *)
Record APIManagerSpec := {
  am_HighAvailability : bool;
  am_PodDisruptionBudget : bool;
  am_ResourceRequirementsEnabled : bool;
  am_WildcardDomain : string;
  am_FileStorageSecret : option string;
  am_SystemApp : option Z;
  am_SystemSidekiq : option Z;
  am_ApicastProduction : option Z;
  am_ApicastStaging : option Z;
  am_BackendListener : option Z;
  am_BackendWorker : option Z;
  am_BackendCron : option Z;
  am_ZyncApp : option Z;
  am_ZyncQue : option Z;
}.

Record DeploymentsStatus := {
  dep_Starting : list string; dep_Stopped : list string; dep_Ready : list string }.

Record APIManager := {
  apim_meta : ObjectMeta; apim_Spec : APIManagerSpec; apim_Deployments : DeploymentsStatus }.

(** [keycloak.KeycloakAPIUser]; [kcu_Attributes] is a map that may be nil. *)
Record KeycloakAPIUser := {
  UserName : string;
  Email : string;
  Attributes : option (gmap string (list string));
}.

Record KeycloakUser := { kcuser_meta : ObjectMeta; kcuser_User : option KeycloakAPIUser }.

(** The parts of [keycloak.KeycloakClientSpec] that [getKeycloakClientSpec]
    computes; the protocol mappers are a constant of the source. *)
Record KeycloakClientSpec := {
  kcs_RealmSelector : gmap string string;
  kcs_ClientID : string;
  kcs_Secret : string;
  kcs_RedirectUris : list string;
  kcs_RootURL : string;
}.

Record KeycloakClient := { kcclient_meta : ObjectMeta; kcclient_Spec : option KeycloakClientSpec }.

Record PolicyRule := {
  rule_APIGroups : list string; rule_Resources : list string; rule_Verbs : list string }.

Record Role := { role_meta : ObjectMeta; role_Rules : list PolicyRule }.

Record Subject := { subject_Name : string; subject_Kind : string }.

Record RoleBinding := {
  rb_meta : ObjectMeta; rb_RoleRefName : string; rb_RoleRefKind : string;
  rb_Subjects : list Subject }.

Record ConsoleLinkSpec := {
  cl_ImageURL : string; cl_Section : string; cl_Href : string; cl_Text : string }.

Record ConsoleLink := { cl_meta : ObjectMeta; cl_Spec : option ConsoleLinkSpec }.

Record OAuthClient := {
  oauth_Name : string; oauth_Secret : string; oauth_RedirectURIs : list string }.

#[global] Instance Secret_eq_dec : EqDecision Secret.
Proof. solve_decision. Defined.
#[global] Instance ConfigMap_eq_dec : EqDecision ConfigMap.
Proof. solve_decision. Defined.
#[global] Instance Route_eq_dec : EqDecision Route.
Proof. solve_decision. Defined.
#[global] Instance Pod_eq_dec : EqDecision Pod.
Proof. solve_decision. Defined.
#[global] Instance Group_eq_dec : EqDecision Group.
Proof. solve_decision. Defined.
#[global] Instance SecretRef_eq_dec : EqDecision SecretRef.
Proof. solve_decision. Defined.
#[global] Instance BlobStorage_eq_dec : EqDecision BlobStorage.
Proof. solve_decision. Defined.
#[global] Instance Redis_eq_dec : EqDecision Redis.
Proof. solve_decision. Defined.
#[global] Instance Postgres_eq_dec : EqDecision Postgres.
Proof. solve_decision. Defined.
#[global] Instance GrafanaSpec_eq_dec : EqDecision GrafanaSpec.
Proof. solve_decision. Defined.
#[global] Instance Grafana_eq_dec : EqDecision Grafana.
Proof. solve_decision. Defined.
#[global] Instance APIManagerSpec_eq_dec : EqDecision APIManagerSpec.
Proof. solve_decision. Defined.
#[global] Instance DeploymentsStatus_eq_dec : EqDecision DeploymentsStatus.
Proof. solve_decision. Defined.
#[global] Instance APIManager_eq_dec : EqDecision APIManager.
Proof. solve_decision. Defined.
#[global] Instance KeycloakAPIUser_eq_dec : EqDecision KeycloakAPIUser.
Proof. solve_decision. Defined.
#[global] Instance KeycloakUser_eq_dec : EqDecision KeycloakUser.
Proof. solve_decision. Defined.
#[global] Instance KeycloakClientSpec_eq_dec : EqDecision KeycloakClientSpec.
Proof. solve_decision. Defined.
#[global] Instance KeycloakClient_eq_dec : EqDecision KeycloakClient.
Proof. solve_decision. Defined.
#[global] Instance PolicyRule_eq_dec : EqDecision PolicyRule.
Proof. solve_decision. Defined.
#[global] Instance Role_eq_dec : EqDecision Role.
Proof. solve_decision. Defined.
#[global] Instance Subject_eq_dec : EqDecision Subject.
Proof. solve_decision. Defined.
#[global] Instance RoleBinding_eq_dec : EqDecision RoleBinding.
Proof. solve_decision. Defined.
#[global] Instance ConsoleLinkSpec_eq_dec : EqDecision ConsoleLinkSpec.
Proof. solve_decision. Defined.
#[global] Instance ConsoleLink_eq_dec : EqDecision ConsoleLink.
Proof. solve_decision. Defined.
#[global] Instance OAuthClient_eq_dec : EqDecision OAuthClient.
Proof. solve_decision. Defined.

(** Any object the API client carries ([runtime.Object]). *)
Inductive AnyObject :=
| ASecret (o : Secret)
| AConfigMap (o : ConfigMap)
| ARoute (o : Route)
| APod (o : Pod)
| AGroup (o : Group)
| ABlobStorage (o : BlobStorage)
| AGrafana (o : Grafana)
| AAPIManager (o : APIManager)
| AKeycloakUser (o : KeycloakUser)
| AKeycloakClient (o : KeycloakClient)
| ARole (o : Role)
| ARoleBinding (o : RoleBinding)
| AConsoleLink (o : ConsoleLink).

#[global] Instance AnyObject_eq_dec : EqDecision AnyObject.
Proof. solve_decision. Defined.

Inductive Kind :=
| KSecret | KConfigMap | KRoute | KPod | KGroup | KBlobStorage | KGrafana
| KAPIManager | KKeycloakUser | KKeycloakClient | KRole | KRoleBinding
| KConsoleLink.

#[global] Instance Kind_eq_dec : EqDecision Kind.
Proof. solve_decision. Defined.

(** The typed view of an object: its kind, its metadata, and
    [equality.Semantic.DeepEqual], for which a nil map and an empty map are the
    same. *)
Class K8sObject (T : Type) := {
  kindOf : Kind;
  metaOf : T -> ObjectMeta;
  setMeta : ObjectMeta -> T -> T;
  toAny : T -> AnyObject;
  fromAny : AnyObject -> option T;
  deepEqual : T -> T -> bool;
}.
Arguments kindOf T {_}.

#[global] Instance Secret_object : K8sObject Secret := {|
  kindOf := KSecret;
  metaOf := secret_meta;
  setMeta m o := {| secret_meta := m; secret_Data := secret_Data o |};
  toAny := ASecret;
  fromAny a := match a with ASecret o => Some o | _ => None end;
  deepEqual a b :=
    bool_decide (secret_meta a = secret_meta b)
    && bool_decide (mapEntries (secret_Data a) = mapEntries (secret_Data b));
|}.

#[global] Instance ConfigMap_object : K8sObject ConfigMap := {|
  kindOf := KConfigMap;
  metaOf := cm_meta;
  setMeta m o := {| cm_meta := m; cm_Data := cm_Data o |};
  toAny := AConfigMap;
  fromAny a := match a with AConfigMap o => Some o | _ => None end;
  deepEqual a b :=
    bool_decide (cm_meta a = cm_meta b)
    && bool_decide (mapEntries (cm_Data a) = mapEntries (cm_Data b));
|}.

#[global] Instance Route_object : K8sObject Route := {|
  kindOf := KRoute;
  metaOf := route_meta;
  setMeta m o := {| route_meta := m; route_Host := route_Host o |};
  toAny := ARoute;
  fromAny a := match a with ARoute o => Some o | _ => None end;
  deepEqual a b := bool_decide (a = b);
|}.

#[global] Instance Pod_object : K8sObject Pod := {|
  kindOf := KPod;
  metaOf := pod_meta;
  setMeta m o := {| pod_meta := m; pod_Phase := pod_Phase o |};
  toAny := APod;
  fromAny a := match a with APod o => Some o | _ => None end;
  deepEqual a b := bool_decide (a = b);
|}.

#[global] Instance Group_object : K8sObject Group := {|
  kindOf := KGroup;
  metaOf := group_meta;
  setMeta m o := {| group_meta := m; group_Users := group_Users o |};
  toAny := AGroup;
  fromAny a := match a with AGroup o => Some o | _ => None end;
  deepEqual a b := bool_decide (a = b);
|}.

#[global] Instance BlobStorage_object : K8sObject BlobStorage := {|
  kindOf := KBlobStorage;
  metaOf := blob_meta;
  setMeta m o :=
    {| blob_meta := m; blob_Phase := blob_Phase o; blob_SecretRef := blob_SecretRef o |};
  toAny := ABlobStorage;
  fromAny a := match a with ABlobStorage o => Some o | _ => None end;
  deepEqual a b := bool_decide (a = b);
|}.

#[global] Instance Grafana_object : K8sObject Grafana := {|
  kindOf := KGrafana;
  metaOf := grafana_meta;
  setMeta m o := {| grafana_meta := m; grafana_Spec := grafana_Spec o |};
  toAny := AGrafana;
  fromAny a := match a with AGrafana o => Some o | _ => None end;
  deepEqual a b := bool_decide (a = b);
|}.

#[global] Instance APIManager_object : K8sObject APIManager := {|
  kindOf := KAPIManager;
  metaOf := apim_meta;
  setMeta m o :=
    {| apim_meta := m; apim_Spec := apim_Spec o; apim_Deployments := apim_Deployments o |};
  toAny := AAPIManager;
  fromAny a := match a with AAPIManager o => Some o | _ => None end;
  deepEqual a b := bool_decide (a = b);
|}.

#[global] Instance KeycloakUser_object : K8sObject KeycloakUser := {|
  kindOf := KKeycloakUser;
  metaOf := kcuser_meta;
  setMeta m o := {| kcuser_meta := m; kcuser_User := kcuser_User o |};
  toAny := AKeycloakUser;
  fromAny a := match a with AKeycloakUser o => Some o | _ => None end;
  deepEqual a b := bool_decide (a = b);
|}.

#[global] Instance KeycloakClient_object : K8sObject KeycloakClient := {|
  kindOf := KKeycloakClient;
  metaOf := kcclient_meta;
  setMeta m o := {| kcclient_meta := m; kcclient_Spec := kcclient_Spec o |};
  toAny := AKeycloakClient;
  fromAny a := match a with AKeycloakClient o => Some o | _ => None end;
  deepEqual a b := bool_decide (a = b);
|}.

#[global] Instance Role_object : K8sObject Role := {|
  kindOf := KRole;
  metaOf := role_meta;
  setMeta m o := {| role_meta := m; role_Rules := role_Rules o |};
  toAny := ARole;
  fromAny a := match a with ARole o => Some o | _ => None end;
  deepEqual a b := bool_decide (a = b);
|}.

#[global] Instance RoleBinding_object : K8sObject RoleBinding := {|
  kindOf := KRoleBinding;
  metaOf := rb_meta;
  setMeta m o :=
    {| rb_meta := m; rb_RoleRefName := rb_RoleRefName o;
       rb_RoleRefKind := rb_RoleRefKind o; rb_Subjects := rb_Subjects o |};
  toAny := ARoleBinding;
  fromAny a := match a with ARoleBinding o => Some o | _ => None end;
  deepEqual a b := bool_decide (a = b);
|}.

#[global] Instance ConsoleLink_object : K8sObject ConsoleLink := {|
  kindOf := KConsoleLink;
  metaOf := cl_meta;
  setMeta m o := {| cl_meta := m; cl_Spec := cl_Spec o |};
  toAny := AConsoleLink;
  fromAny a := match a with AConsoleLink o => Some o | _ => None end;
  deepEqual a b := bool_decide (a = b);
|}.

(** ** The installation, product status and product configuration *)

(** [integreatlyv1alpha1.RHMIProductStatus], the per-product status record. *)
Record RHMIProductStatus := {
  ps_Name : string;
  ps_Host : string;
  ps_Version : string;
  ps_OperatorVersion : string;
}.

#[global] Instance RHMIProductStatus_eq_dec : EqDecision RHMIProductStatus.
Proof. solve_decision. Defined.

(** [integreatlyv1alpha1.RHMI], the owning installation.  The deletion marker
    is [GetDeletionTimestamp()]: [None] is a nil timestamp. *)
Record RHMI := {
  inst_Name : string;
  inst_Namespace : string;
  inst_DeletionTimestamp : option Z;
  inst_NamespacePrefix : string;
  inst_OperatorsInProductNamespace : bool;
  inst_Type : string;
  inst_RoutingSubdomain : string;
  inst_SMTPSecret : string;
  inst_UseClusterStorage : string;
  inst_PullSecretSpec : ObjectKey;
  inst_Products : gmap string RHMIProductStatus;
}.

(** [config.Grafana] and [config.ThreeScale]: a product configuration held in
    memory by the reconciler, read with [Get...] and changed with [Set...];
    [ConfigManager.WriteConfig] is what stores it. *)
Record Config := {
  cfg_ProductName : string;
  cfg_Namespace : string;
  cfg_OperatorNamespace : string;
  cfg_Host : string;
  cfg_ProductVersion : string;
  cfg_OperatorVersion : string;
  cfg_BlackboxTargetPathForAdminUI : string;
}.

#[global] Instance Config_eq_dec : EqDecision Config.
Proof. solve_decision. Defined.

Definition SetHost (h : string) (c : Config) : Config :=
  {| cfg_ProductName := cfg_ProductName c; cfg_Namespace := cfg_Namespace c;
     cfg_OperatorNamespace := cfg_OperatorNamespace c; cfg_Host := h;
     cfg_ProductVersion := cfg_ProductVersion c;
     cfg_OperatorVersion := cfg_OperatorVersion c;
     cfg_BlackboxTargetPathForAdminUI := cfg_BlackboxTargetPathForAdminUI c |}.

Definition SetProductVersion (v : string) (c : Config) : Config :=
  {| cfg_ProductName := cfg_ProductName c; cfg_Namespace := cfg_Namespace c;
     cfg_OperatorNamespace := cfg_OperatorNamespace c; cfg_Host := cfg_Host c;
     cfg_ProductVersion := v;
     cfg_OperatorVersion := cfg_OperatorVersion c;
     cfg_BlackboxTargetPathForAdminUI := cfg_BlackboxTargetPathForAdminUI c |}.

Definition SetOperatorVersion (v : string) (c : Config) : Config :=
  {| cfg_ProductName := cfg_ProductName c; cfg_Namespace := cfg_Namespace c;
     cfg_OperatorNamespace := cfg_OperatorNamespace c; cfg_Host := cfg_Host c;
     cfg_ProductVersion := cfg_ProductVersion c;
     cfg_OperatorVersion := v;
     cfg_BlackboxTargetPathForAdminUI := cfg_BlackboxTargetPathForAdminUI c |}.

(** The RHSSO and monitoring configurations read through the manager. *)
Record RHSSOConfig := { rhsso_Namespace : string; rhsso_Realm : string; rhsso_Host : string }.
Record MonitoringConfig := { monitoring_Namespace : string }.

(** ** Collaborator data *)

(** A 3scale account user ([User.UserDetails]). *)
Record User := { Id : Z; Username : string; UserRole : string }.

#[global] Instance User_eq_dec : EqDecision User.
Proof. solve_decision. Defined.

Record Target := { target_Pkg : string; target_Namespace : string; target_Channel : string }.

Record CatalogSourceReconciler := {
  cs_ManifestsProductDirectory : string; cs_Namespace : string; cs_CSName : string }.

Record AWSBackupExecutor := {
  backup_Namespace : string; backup_ResourceName : string; backup_SnapshotType : string }.

Inductive BackupExecutor :=
| NoopBackupExecutor
| ConcurrentBackupExecutor (executors : list AWSBackupExecutor).

(** [k8sclient.ListOptions]: a namespace, a parsed label selector
    ([LabelSelector]) and labels to match ([MatchingLabels]). *)
Record ListOptions := {
  list_Namespace : string;
  list_LabelSelector : option string;
  list_MatchingLabels : gmap string string;
}.

Inductive OperationResult :=
| OperationResultNone
| OperationResultCreated
| OperationResultUpdated.

#[global] Instance OperationResult_eq_dec : EqDecision OperationResult.
Proof. solve_decision. Defined.

(** ** The log of calls *)

(** One entry per call into a collaborator, with its arguments and what it
    answered.  [Err + T] is a call that returns [(T, error)]: [inl e] when the
    error is not nil. *)
Inductive Event :=
| EvGet (kind : Kind) (key : ObjectKey) (resp : Err + AnyObject)
| EvList (kind : Kind) (opts : ListOptions) (resp : Err + list AnyObject)
| EvCreate (obj : AnyObject) (resp : Err + AnyObject)
| EvUpdate (obj : AnyObject) (resp : Err + AnyObject)
| EvDelete (obj : AnyObject) (resp : error)
| EvRemoveNamespace (ns : string) (resp : Result)
| EvReconcileNamespace (ns : string) (resp : Result)
| EvRemoveOauthClient (name : string) (resp : error)
| EvCopyPullSecretToNameSpace (src : ObjectKey) (ns name : string) (resp : error)
| EvCopySecret (srcName srcNs dstName dstNs : string) (resp : error)
| EvReconcileSubscription (target : Target) (namespaces : list string)
    (backup : BackupExecutor) (catalog : CatalogSourceReconciler) (resp : Result)
| EvReconcileOauthClient (client : OAuthClient) (resp : Result)
| EvReconcileRedisAlerts (cr : Redis) (resp : Result)
| EvCreateRedisCpuUsageAlerts (cr : Redis) (resp : error)
| EvReconcilePostgresAlerts (cr : Postgres) (resp : Result)
| EvExecuteRemoteCommand (ns pod cmd : string) (resp : string * string * error)
| EvHandleError (phase : StatusPhase) (msg : string) (err : error)
| EvHandleProductComplete (productName : string)
| EvReconcileBlobStorage (name ns : string) (resp : Err + BlobStorage)
| EvReconcileRedis (name ns : string) (resp : Err + Redis)
| EvReconcilePostgres (name ns : string) (resp : Err + Postgres)
| EvReadRHSSO (resp : Err + RHSSOConfig)
| EvReadMonitoring (resp : Err + MonitoringConfig)
| EvWriteConfig (cfg : Config) (resp : error)
| EvGetAuthenticationProviderByName (name token : string) (resp : error)
| EvAddAuthenticationProvider (params : gmap string string) (token : string) (resp : Err + Z)
| EvGetUsers (token : string) (resp : Err + list User)
| EvAddUser (username email password token : string) (resp : Err + Z)
| EvDeleteUser (id : Z) (token : string) (resp : Err + Z)
| EvSetUserAsAdmin (id : Z) (token : string) (resp : Err + Z)
| EvGetKeycloakUsers (ns : string) (resp : Err + list KeycloakAPIUser)
| EvCreateBlackboxTarget (name url service : string) (resp : error)
| EvReconcileAlerts (resp : Result)
| EvInstantiate (ns name : string) (resp : error)
| EvRandRead (n : Z) (resp : Err + string).

(** ** The collaborators *)

(** Everything the reconcilers call that is not in the sources: the cluster
    API client, the helpers of [pkg/resources], the cloud-resource operator
    client, the configuration manager, the 3scale client, and the constants of
    other packages.  A call takes the world and gives back its answer and the
    next world. *)
Record Env (World : Type) := {
  (* k8sclient.Client *)
  clientGet : forall T `{K8sObject T}, ObjectKey -> World -> (Err + T) * World;
  clientList : forall T `{K8sObject T}, ListOptions -> World -> (Err + list T) * World;
  clientCreate : forall T `{K8sObject T}, T -> World -> (Err + T) * World;
  clientUpdate : forall T `{K8sObject T}, T -> World -> (Err + T) * World;
  clientDelete : forall T `{K8sObject T}, T -> World -> error * World;
  (* pkg/resources *)
  RemoveNamespace : RHMI -> string -> World -> Result * World;
  ReconcileNamespace : string -> RHMI -> World -> Result * World;
  RemoveOauthClient : string -> World -> error * World;
  CopyPullSecretToNameSpace : ObjectKey -> string -> string -> World -> error * World;
  CopySecret : string -> string -> string -> string -> World -> error * World;
  ReconcileSubscription :
    Target -> list string -> BackupExecutor -> CatalogSourceReconciler ->
    World -> Result * World;
  ReconcileOauthClient : RHMI -> OAuthClient -> World -> Result * World;
  ReconcileRedisAlerts : RHMI -> Redis -> World -> Result * World;
  CreateRedisCpuUsageAlerts : RHMI -> Redis -> World -> error * World;
  ReconcilePostgresAlerts : RHMI -> Postgres -> World -> Result * World;
  ExecuteRemoteCommand : string -> string -> string -> World -> (string * string * error) * World;
  addOwnerAnnotations : gmap string string -> RHMI -> gmap string string;
  (* cloud-resource-operator client; the last argument is the modify callback *)
  ReconcileBlobStorage :
    string -> string -> string -> string -> string -> string -> string ->
    (ObjectMeta -> ObjectMeta) -> World -> (Err + BlobStorage) * World;
  ReconcileRedis :
    string -> string -> string -> string -> string -> string -> string ->
    (ObjectMeta -> ObjectMeta) -> World -> (Err + Redis) * World;
  ReconcilePostgres :
    string -> string -> string -> string -> string -> string -> string ->
    (ObjectMeta -> ObjectMeta) -> World -> (Err + Postgres) * World;
  (* config.ConfigReadWriter *)
  ReadRHSSO : World -> (Err + RHSSOConfig) * World;
  ReadMonitoring : World -> (Err + MonitoringConfig) * World;
  WriteConfig : Config -> World -> error * World;
  GetOauthClientsSecretName : string;
  GetOperatorNamespace : string;
  (* ThreeScaleInterface *)
  GetAuthenticationProviderByName : string -> string -> World -> error * World;
  AddAuthenticationProvider : gmap string string -> string -> World -> (Err + Z) * World;
  GetUsers : string -> World -> (Err + list User) * World;
  AddUser : string -> string -> string -> string -> World -> (Err + Z) * World;
  DeleteUser : Z -> string -> World -> (Err + Z) * World;
  SetUserAsAdmin : Z -> string -> World -> (Err + Z) * World;
  tsIsNotFoundError : error -> bool;
  adminRole : string;
  (* rhsso, user helper, monitoring, alerts, deployment configs, crypto/rand *)
  GetKeycloakUsers : string -> World -> (Err + list KeycloakAPIUser) * World;
  GetValidGeneratedUserName : KeycloakAPIUser -> string;
  CreateBlackboxTarget : string -> string -> string -> MonitoringConfig -> RHMI -> World -> error * World;
  ReconcileAlerts : World -> Result * World;
  Instantiate : string -> string -> World -> error * World;
  randRead : Z -> World -> (Err + string) * World;
  base64Encode : string -> string;
  labels_Parse : string -> Err + string;
  GetInstanceLabels : gmap string string;
  (* constants of other packages *)
  VersionGrafana : string;
  Version3Scale : string;
  OperatorVersion3Scale : string;
  InstallationTypeWorkshop : string;
  GrafanaSubscriptionName : string;
  ThreeScaleSubscriptionName : string;
  IntegreatlyChannel : string;
  CatalogSourceName : string;
  TierProduction : string;
  ThreeScaleBlobStoragePrefix : string;
  ThreeScaleBackendRedisPrefix : string;
  ThreeScaleSystemRedisPrefix : string;
  ThreeScalePostgresPrefix : string;
  PostgresSnapshotType : string;
  RedisSnapshotType : string;
}.

Arguments clientGet {World} _ T {_}.
Arguments clientList {World} _ T {_}.
Arguments clientCreate {World} _ T {_}.
Arguments clientUpdate {World} _ T {_}.
Arguments clientDelete {World} _ T {_}.
Arguments RemoveNamespace {World}.
Arguments ReconcileNamespace {World}.
Arguments RemoveOauthClient {World}.
Arguments CopyPullSecretToNameSpace {World}.
Arguments CopySecret {World}.
Arguments ReconcileSubscription {World}.
Arguments ReconcileOauthClient {World}.
Arguments ReconcileRedisAlerts {World}.
Arguments CreateRedisCpuUsageAlerts {World}.
Arguments ReconcilePostgresAlerts {World}.
Arguments ExecuteRemoteCommand {World}.
Arguments addOwnerAnnotations {World}.
Arguments ReconcileBlobStorage {World}.
Arguments ReconcileRedis {World}.
Arguments ReconcilePostgres {World}.
Arguments ReadRHSSO {World}.
Arguments ReadMonitoring {World}.
Arguments WriteConfig {World}.
Arguments GetOauthClientsSecretName {World}.
Arguments GetOperatorNamespace {World}.
Arguments GetAuthenticationProviderByName {World}.
Arguments AddAuthenticationProvider {World}.
Arguments GetUsers {World}.
Arguments AddUser {World}.
Arguments DeleteUser {World}.
Arguments SetUserAsAdmin {World}.
Arguments tsIsNotFoundError {World}.
Arguments adminRole {World}.
Arguments GetKeycloakUsers {World}.
Arguments GetValidGeneratedUserName {World}.
Arguments CreateBlackboxTarget {World}.
Arguments ReconcileAlerts {World}.
Arguments Instantiate {World}.
Arguments randRead {World}.
Arguments base64Encode {World}.
Arguments labels_Parse {World}.
Arguments GetInstanceLabels {World}.
Arguments VersionGrafana {World}.
Arguments Version3Scale {World}.
Arguments OperatorVersion3Scale {World}.
Arguments InstallationTypeWorkshop {World}.
Arguments GrafanaSubscriptionName {World}.
Arguments ThreeScaleSubscriptionName {World}.
Arguments IntegreatlyChannel {World}.
Arguments CatalogSourceName {World}.
Arguments TierProduction {World}.
Arguments ThreeScaleBlobStoragePrefix {World}.
Arguments ThreeScaleBackendRedisPrefix {World}.
Arguments ThreeScaleSystemRedisPrefix {World}.
Arguments ThreeScalePostgresPrefix {World}.
Arguments PostgresSnapshotType {World}.
Arguments RedisSnapshotType {World}.

(** ** The monad of a reconciler method *)

(** A Go call either returns or panics. *)
Inductive Res (A : Type) :=
| Ok (a : A)
| Panic (msg : string).
Arguments Ok {A} a.
Arguments Panic {A} msg.

(** What a method of the reconciler can reach: the world behind the
    collaborators, the in-memory product configuration [r.Config], and the log
    of the calls made so far. *)
Record State (World : Type) := {
  world : World;
  config : Config;
  calls : list Event;
}.
Arguments world {World}.
Arguments config {World}.
Arguments calls {World}.
Arguments Build_State {World}.

(** A program over a state [S]; [bind] stops at the first panic. *)
Definition Prog (S A : Type) : Type := S -> Res A * S.

Definition ret {S A} (a : A) : Prog S A := fun s => (Ok a, s).

Definition bind {S A B} (m : Prog S A) (k : A -> Prog S B) : Prog S B :=
  fun s =>
    match m s with
    | (Ok a, s') => k a s'
    | (Panic msg, s') => (Panic msg, s')
    end.

Definition panic {S A} (msg : string) : Prog S A := fun s => (Panic msg, s).

(** The methods of a reconciler. *)
Definition M (World A : Type) : Type := Prog (State World) A.

Declare Scope go_scope.
Delimit Scope go_scope with go.
Notation "'let*' x ':=' m 'in' k" := (bind m (fun x => k))
  (at level 10, x pattern, m at level 100, k at level 200) : go_scope.
Notation "m ;;; k" := (bind m (fun _ => k))
  (at level 100, right associativity) : go_scope.
Local Open Scope go_scope.

(** [r.Config.Get...()] and [r.Config.Set...(v)] *)
Definition getConfig {World} : M World Config := fun s => (Ok (config s), s).

Definition setConfig {World} (f : Config -> Config) : M World unit :=
  fun s => (Ok tt, {| world := world s; config := f (config s); calls := calls s |}).

(** A call into a collaborator: run it on the world and log it. *)
Definition call {World A} (log : A -> Event) (op : World -> A * World) : M World A :=
  fun s =>
    let '(a, w) := op (world s) in
    (Ok a, {| world := w; config := config s; calls := calls s ++ [log a] |}).

(** An emission that has no answer ([events.HandleError], ...). *)
Definition emit {World} (e : Event) : M World unit :=
  fun s => (Ok tt, {| world := world s; config := config s; calls := calls s ++ [e] |}).


(** [fmt.Errorf(msg + ": %w", err)] for an [err] that is not nil. *)
Definition Errorf (msg : string) (err : error) : error :=
  match err with
  | Some e => Some (ErrWrap msg e)
  | None => Some (ErrOther msg)
  end.

(** A [for ... range] loop whose body may return from the enclosing function:
    the body answers [Some v] for [return v] and [None] to go on with the next
    element. *)
Fixpoint forRange {S A R} (l : list A) (body : A -> Prog S (option R)) : Prog S (option R) :=
  match l with
  | [] => ret None
  | x :: rest =>
      let* r := body x in
      match r with
      | Some v => ret (Some v)
      | None => forRange rest body
      end
  end.

(** ** The typed cluster client and [controllerutil.CreateOrUpdate] *)

Section Client.
Context {World : Type} (E : Env World).
Context {T : Type} `{K8sObject T}.

Definition logObject (r : Err + T) : Err + AnyObject :=
  match r with inl e => inl e | inr o => inr (toAny o) end.

Definition logObjects (r : Err + list T) : Err + list AnyObject :=
  match r with inl e => inl e | inr l => inr (toAny <$> l) end.

(** [client.Get(ctx, key, obj)]: fills [obj] when it succeeds, leaves it as
    it was when it fails. *)
Definition Get (key : ObjectKey) (obj : T) : M World (T * error) :=
  let* r := call (fun r => EvGet (kindOf T) key (logObject r)) (clientGet E T key) in
  ret (match r with inl e => (obj, Some e) | inr o => (o, None) end).

(** [client.List(ctx, list, opts)] *)
Definition List (opts : ListOptions) : M World (list T * error) :=
  let* r := call (fun r => EvList (kindOf T) opts (logObjects r)) (clientList E T opts) in
  ret (match r with inl e => ([], Some e) | inr l => (l, None) end).

(** [client.Create(ctx, obj)] and [client.Update(ctx, obj)]: [obj] is
    overwritten with what the server stored. *)
Definition Create (obj : T) : M World (T * error) :=
  let* r := call (fun r => EvCreate (toAny obj) (logObject r)) (clientCreate E T obj) in
  ret (match r with inl e => (obj, Some e) | inr o => (o, None) end).

Definition Update (obj : T) : M World (T * error) :=
  let* r := call (fun r => EvUpdate (toAny obj) (logObject r)) (clientUpdate E T obj) in
  ret (match r with inl e => (obj, Some e) | inr o => (o, None) end).

(** [client.Delete(ctx, obj)] *)
Definition Delete (obj : T) : M World error :=
  call (EvDelete (toAny obj)) (clientDelete E T obj).

(** The wrapper of controller-runtime around the mutate callback: the
    callback must not change the name or the namespace. *)
Definition mutate (f : T -> M World (T * error)) (key : ObjectKey) (obj : T)
  : M World (T * error) :=
  let* (obj, err) := f obj in
  if isErr err then ret (obj, err) else
  if bool_decide (key ≠ keyOfMeta (metaOf obj)) then
    ret (obj, Some (ErrOther "MutateFn cannot mutate object name and/or object namespace"))
  else ret (obj, None).

(** [controllerutil.CreateOrUpdate(ctx, c, obj, f)]: get the object; when it
    is not found, mutate and create; when it is found, mutate and update only
    if the mutation changed it.  Returns the operation, the object as the Go
    variable holds it afterwards, and the error. *)
Definition CreateOrUpdate (obj : T) (f : T -> M World (T * error))
  : M World (OperationResult * T * error) :=
  let key := keyOfMeta (metaOf obj) in
  let* (obj, err) := Get key obj in
  if isErr err then
    if negb (IsNotFound err) then ret (OperationResultNone, obj, err) else
    let* (obj, err) := mutate f key obj in
    if isErr err then ret (OperationResultNone, obj, err) else
    let* (obj, err) := Create obj in
    if isErr err then ret (OperationResultNone, obj, err) else
    ret (OperationResultCreated, obj, None)
  else
    let existing := obj in
    let* (obj, err) := mutate f key obj in
    if isErr err then ret (OperationResultNone, obj, err) else
    if deepEqual existing obj then ret (OperationResultNone, obj, None) else
    let* (obj, err) := Update obj in
    if isErr err then ret (OperationResultNone, obj, err) else
    ret (OperationResultUpdated, obj, None).
End Client.

Arguments Get {World} E {T _} key obj.
Arguments List {World} E T {_} opts.
Arguments Create {World} E {T _} obj.
Arguments Update {World} E {T _} obj.
Arguments Delete {World} E {T _} obj.
Arguments CreateOrUpdate {World} E {T _} obj f.

(** ** One reconciliation pass *)

(** What a step handed back to [Reconcile]: a phase and an error, an error
    alone, a secret and an error, a route (nil or not) and an error; or it
    panicked. *)
Inductive StepReturn :=
| RetPhase (phase : StatusPhase) (err : error)
| RetErr (err : error)
| RetSecret (secret : string) (err : error)
| RetRoute (route : option Route) (err : error)
| RetPanic (msg : string).

Definition StepEvent := (string * StepReturn)%type.

(** The state of a pass of [Reconcile]: the state its steps work on, the
    product status record it was handed, and the steps that have returned so
    far, in order: [steps] for the steps [Reconcile] runs itself, [teardown]
    for those of the finalizer callback. *)
Record PassState (World : Type) := {
  st : State World;
  product : RHMIProductStatus;
  steps : list StepEvent;
  teardown : list StepEvent;
}.
Arguments st {World}.
Arguments product {World}.
Arguments steps {World}.
Arguments teardown {World}.
Arguments Build_PassState {World}.

Definition PassM (World A : Type) : Type := Prog (PassState World) A.

(** The two step lists of a pass: the forward sequence and the teardown. *)
Inductive Level := Forward | Teardown.

Definition logOf {World} (lvl : Level) (ps : PassState World) : list StepEvent :=
  match lvl with
  | Forward => steps ps
  | Teardown => teardown ps
  end.

Section Pass.
Context {World : Type}.

(** A method of the reconciler, run inside a pass. *)
Definition lift {A} (m : M World A) : PassM World A :=
  fun ps =>
    let '(r, s) := m (st ps) in
    (r, {| st := s; product := product ps; steps := steps ps; teardown := teardown ps |}).

(** Record that a step has returned, in the log of its level. *)
Definition appendLog (lvl : Level) (e : StepEvent) (ps : PassState World)
  : PassState World :=
  match lvl with
  | Forward =>
      {| st := st ps; product := product ps; steps := steps ps ++ [e];
         teardown := teardown ps |}
  | Teardown =>
      {| st := st ps; product := product ps; steps := steps ps;
         teardown := teardown ps ++ [e] |}
  end.

Definition logStep {A} (lvl : Level) (name : string) (mk : A -> StepReturn)
    (m : PassM World A) : PassM World A :=
  fun ps =>
    match m ps with
    | (Ok a, ps') => (Ok a, appendLog lvl (name, mk a) ps')
    | (Panic msg, ps') => (Panic msg, appendLog lvl (name, RetPanic msg) ps')
    end.

(** A step of [Reconcile]: run it and record what it returned. *)
Definition step {A} (name : string) (mk : A -> StepReturn) (m : PassM World A)
  : PassM World A :=
  logStep Forward name mk m.

(** A step of the finalizer callback. *)
Definition teardownStep {A} (name : string) (mk : A -> StepReturn) (m : PassM World A)
  : PassM World A :=
  logStep Teardown name mk m.

(** Assignments to the fields of [product]. *)
Definition setProduct (f : RHMIProductStatus -> RHMIProductStatus) : PassM World unit :=
  fun ps =>
    (Ok tt, {| st := st ps; product := f (product ps); steps := steps ps;
               teardown := teardown ps |}).

(** Modelled from the spec: [ReconcileFinalizer] of [pkg/resources] is not
    among the sources, only its two callers are.  The spec's finalizer
    handler detects whether the owning installation carries a deletion
    marker; if so it runs the teardown callback instead of the forward
    sequence: any teardown error or non-Completed phase halts and is
    returned, and once every teardown step has converged the pass still does
    not go on to the forward steps.  [Reconcile] goes on exactly when the
    handler hands back (Completed, nil), so with a marker the handler hands
    back another phase then; the spec does not name it, and the model takes
    [PhaseInitial], the one phase of the spec's enumeration that no step of
    the sources returns.  Without a marker it lets the pass go on. *)
Definition ReconcileFinalizer (inst : RHMI) (productName : string)
    (finalFunc : PassM World Result) : PassM World Result :=
  match inst_DeletionTimestamp inst with
  | Some _ =>
      let* (phase, err) := finalFunc in
      if halts phase err then ret (phase, err) else
      ret (PhaseInitial, None)
  | None => ret (PhaseCompleted, None)
  end.
End Pass.

(** ** Calls into the collaborators, as the reconcilers write them *)

Section Collaborators.
Context {World : Type} (E : Env World).

(** [owner.AddIntegreatlyOwnerAnnotations(obj, installation)]: of the object
    it is handed it rewrites the annotations, with those that name the
    owning installation ([addOwnerAnnotations] of the collaborators). *)
Definition AddIntegreatlyOwnerAnnotations (meta : ObjectMeta) (inst : RHMI) : ObjectMeta :=
  {| Name := Name meta; Namespace := Namespace meta;
     Annotations := addOwnerAnnotations E (Annotations meta) inst;
     Labels := Labels meta |}.

Definition resources_RemoveNamespace (inst : RHMI) (ns : string) : M World Result :=
  call (EvRemoveNamespace ns) (RemoveNamespace E inst ns).

Definition r_ReconcileNamespace (ns : string) (inst : RHMI) : M World Result :=
  call (EvReconcileNamespace ns) (ReconcileNamespace E ns inst).

Definition resources_RemoveOauthClient (name : string) : M World error :=
  call (EvRemoveOauthClient name) (RemoveOauthClient E name).

Definition resources_CopyPullSecretToNameSpace (src : ObjectKey) (ns name : string)
  : M World error :=
  call (EvCopyPullSecretToNameSpace src ns name) (CopyPullSecretToNameSpace E src ns name).

Definition resources_CopySecret (srcName srcNs dstName dstNs : string) : M World error :=
  call (EvCopySecret srcName srcNs dstName dstNs) (CopySecret E srcName srcNs dstName dstNs).

Definition r_ReconcileSubscription (target : Target) (namespaces : list string)
    (backup : BackupExecutor) (catalog : CatalogSourceReconciler) : M World Result :=
  call (EvReconcileSubscription target namespaces backup catalog)
       (ReconcileSubscription E target namespaces backup catalog).

Definition r_ReconcileOauthClient (inst : RHMI) (client : OAuthClient) : M World Result :=
  call (EvReconcileOauthClient client) (ReconcileOauthClient E inst client).

Definition resources_ReconcileRedisAlerts (inst : RHMI) (cr : Redis) : M World Result :=
  call (EvReconcileRedisAlerts cr) (ReconcileRedisAlerts E inst cr).

Definition resources_CreateRedisCpuUsageAlerts (inst : RHMI) (cr : Redis) : M World error :=
  call (EvCreateRedisCpuUsageAlerts cr) (CreateRedisCpuUsageAlerts E inst cr).

Definition resources_ReconcilePostgresAlerts (inst : RHMI) (cr : Postgres) : M World Result :=
  call (EvReconcilePostgresAlerts cr) (ReconcilePostgresAlerts E inst cr).

Definition resources_ExecuteRemoteCommand (ns pod cmd : string)
  : M World (string * string * error) :=
  call (EvExecuteRemoteCommand ns pod cmd) (ExecuteRemoteCommand E ns pod cmd).

Definition events_HandleError (phase : StatusPhase) (msg : string) (err : error)
  : M World unit :=
  emit (EvHandleError phase msg err).

Definition events_HandleProductComplete (productName : string) : M World unit :=
  emit (EvHandleProductComplete productName).

Definition croUtil_ReconcileBlobStorage
    (productName deploymentType tier name ns secretName secretNs : string)
    (modify : ObjectMeta -> ObjectMeta) : M World (Err + BlobStorage) :=
  call (EvReconcileBlobStorage name ns)
       (ReconcileBlobStorage E productName deploymentType tier name ns secretName secretNs modify).

Definition croUtil_ReconcileRedis
    (productName deploymentType tier name ns secretName secretNs : string)
    (modify : ObjectMeta -> ObjectMeta) : M World (Err + Redis) :=
  call (EvReconcileRedis name ns)
       (ReconcileRedis E productName deploymentType tier name ns secretName secretNs modify).

Definition croUtil_ReconcilePostgres
    (productName deploymentType tier name ns secretName secretNs : string)
    (modify : ObjectMeta -> ObjectMeta) : M World (Err + Postgres) :=
  call (EvReconcilePostgres name ns)
       (ReconcilePostgres E productName deploymentType tier name ns secretName secretNs modify).

Definition ConfigManager_ReadRHSSO : M World (Err + RHSSOConfig) :=
  call EvReadRHSSO (ReadRHSSO E).

Definition ConfigManager_ReadMonitoring : M World (Err + MonitoringConfig) :=
  call EvReadMonitoring (ReadMonitoring E).

(** [r.ConfigManager.WriteConfig(r.Config)] *)
Definition ConfigManager_WriteConfig : M World error :=
  let* cfg := getConfig in
  call (EvWriteConfig cfg) (WriteConfig E cfg).

Definition tsClient_GetAuthenticationProviderByName (name token : string) : M World error :=
  call (EvGetAuthenticationProviderByName name token)
       (GetAuthenticationProviderByName E name token).

Definition tsClient_AddAuthenticationProvider (params : gmap string string) (token : string)
  : M World (Err + Z) :=
  call (EvAddAuthenticationProvider params token) (AddAuthenticationProvider E params token).

Definition tsClient_GetUsers (token : string) : M World (Err + list User) :=
  call (EvGetUsers token) (GetUsers E token).

Definition tsClient_AddUser (username email password token : string) : M World (Err + Z) :=
  call (EvAddUser username email password token) (AddUser E username email password token).

Definition tsClient_DeleteUser (id : Z) (token : string) : M World (Err + Z) :=
  call (EvDeleteUser id token) (DeleteUser E id token).

Definition tsClient_SetUserAsAdmin (id : Z) (token : string) : M World (Err + Z) :=
  call (EvSetUserAsAdmin id token) (SetUserAsAdmin E id token).

Definition rhsso_GetKeycloakUsers (ns : string) : M World (Err + list KeycloakAPIUser) :=
  call (EvGetKeycloakUsers ns) (GetKeycloakUsers E ns).

Definition monitoring_CreateBlackboxTarget (name url service : string)
    (cfg : MonitoringConfig) (inst : RHMI) : M World error :=
  call (EvCreateBlackboxTarget name url service)
       (CreateBlackboxTarget E name url service cfg inst).

Definition alertsReconciler_ReconcileAlerts : M World Result :=
  call EvReconcileAlerts (ReconcileAlerts E).

Definition rand_Read (n : Z) : M World (Err + string) :=
  call (EvRandRead n) (randRead E n).
End Collaborators.

(** An HTTP answer of the 3scale client: [err != nil || res.StatusCode != code]
    and the error that goes with it. *)
Definition httpFailed (r : Err + Z) (code : Z) : bool :=
  match r with
  | inl _ => true
  | inr status => bool_decide (status ≠ code)
  end.

Definition httpErr (r : Err + Z) : error :=
  match r with inl e => Some e | inr _ => None end.

Definition StatusOK : Z := 200.
Definition StatusCreated : Z := 201.

(** * Grafana *)

Module Grafana.
Section Grafana.
Context {World : Type} (E : Env World).

Definition defaultInstallationNamespace : string := "customer-monitoring".
Definition manifestPackage : string := "integreatly-grafana".
Definition defaultGrafanaName : string := "grafana".
Definition defaultRoutename : string := defaultGrafanaName +:+ "-route".

(** The reconciler; its [Config] is the [config] of the state.  The field
    [r.installation] is [installation r]; the parameter that the Go methods
    call [installation] is written [inst]. *)
Record Reconciler := { installation : RHMI }.

(** [version.VerifyProductAndOperatorVersion] *)
Definition VerifyProductAndOperatorVersion (product : RHMIProductStatus)
    (expectedProductVersion expectedOpVersion : string) : bool :=
  let installedOpVersion := ps_OperatorVersion product in
  let installedProductVersion := ps_Version product in
  if bool_decide (expectedOpVersion ≠ installedOpVersion) then false else
  if bool_decide (expectedProductVersion ≠ installedProductVersion) then false else
  true.

Definition generatePassword (n : Z) : M World (string * error) :=
  let* r := rand_Read E n in
  match r with
  | inl e => ret ("", Some e)
  | inr b => ret (base64Encode E b, None)
  end.

Definition populateSessionProxySecret : M World string :=
  let* (p, err) := generatePassword 43 in
  ret p.

Definition reconcileSecrets (r : Reconciler) (inst : RHMI) : M World Result :=
  let* cfg := getConfig in
  let secret :=
    {| secret_meta := mkMeta "grafana-k8s-proxy" (cfg_OperatorNamespace cfg);
       secret_Data := None |} in
  let* (_, _, err) := CreateOrUpdate E secret (fun secret =>
    let meta := AddIntegreatlyOwnerAnnotations E (secret_meta secret) inst in
    let data := match secret_Data secret with None => ∅ | Some d => d end in
    let* p := populateSessionProxySecret in
    ret ({| secret_meta := meta; secret_Data := Some (<["session_secret" := p]> data) |},
         None)) in
  if isErr err then ret (PhaseFailed, err) else
  ret (PhaseCompleted, None).

Definition reconcileComponents (r : Reconciler) (inst : RHMI) : M World Result :=
  let* cfg := getConfig in
  let grafana :=
    {| grafana_meta := mkMeta "grafana" (cfg_OperatorNamespace cfg);
       grafana_Spec := GrafanaSpecProxied |} in
  let* (status, _, err) := CreateOrUpdate E grafana (fun grafana =>
    ret (setMeta (AddIntegreatlyOwnerAnnotations E (grafana_meta grafana) r.(installation))
                 grafana, None)) in
  if isErr err then ret (PhaseFailed, err) else
  ret (PhaseCompleted, None).

Definition preUpgradeBackupExecutor (r : Reconciler) : BackupExecutor :=
  NoopBackupExecutor.

Definition reconcileSubscription (r : Reconciler) (inst : RHMI)
    (productNamespace operatorNamespace : string) : M World Result :=
  let target :=
    {| target_Pkg := GrafanaSubscriptionName E; target_Namespace := operatorNamespace;
       target_Channel := IntegreatlyChannel E |} in
  let catalogSourceReconciler :=
    {| cs_ManifestsProductDirectory := manifestPackage; cs_Namespace := operatorNamespace;
       cs_CSName := CatalogSourceName E |} in
  r_ReconcileSubscription E target [productNamespace] (preUpgradeBackupExecutor r)
    catalogSourceReconciler.

Definition reconcileHost (r : Reconciler) : M World Result :=
  let grafanaRoute := {| route_meta := mkMeta "" ""; route_Host := "" |} in
  let* cfg := getConfig in
  let* (grafanaRoute, err) :=
    Get E {| key_Name := defaultRoutename; key_Namespace := cfg_OperatorNamespace cfg |}
        grafanaRoute in
  if isErr err then ret (PhaseFailed, Errorf "Failed to get route for Grafana" err) else
  setConfig (SetHost ("https://" +:+ route_Host grafanaRoute)) ;;;
  let* err := ConfigManager_WriteConfig E in
  if isErr err then ret (PhaseFailed, Errorf "Could not set Grafana route" err) else
  ret (PhaseCompleted, None).

(** The end of [Reconcile], once its last step has completed (lines 143 to
    154 of the source): the product version is brought up to date, the
    fields of [product] are assigned and the completion is recorded. *)
Definition reconciled (r : Reconciler) (inst : RHMI) : PassM World Result :=
  let* cfg := lift getConfig in
  (if bool_decide (cfg_ProductVersion cfg ≠ VersionGrafana E) then
     lift (setConfig (SetProductVersion (VersionGrafana E))) ;;;
     let* _ := lift (ConfigManager_WriteConfig E) in
     ret tt
   else ret tt) ;;;

  let* cfg := lift getConfig in
  setProduct (fun product =>
    {| ps_Name := ps_Name product;
       ps_Host := cfg_Host cfg;
       ps_Version := cfg_ProductVersion cfg;
       ps_OperatorVersion := cfg_OperatorVersion cfg |}) ;;;

  lift (events_HandleProductComplete (cfg_ProductName cfg)) ;;;
  ret (PhaseCompleted, None).

Definition Reconcile (r : Reconciler) (inst : RHMI) : PassM World Result :=
  let* cfg := lift getConfig in
  let operatorNamespace := cfg_OperatorNamespace cfg in
  let productNamespace := cfg_Namespace cfg in

  let* (phase, err) :=
    step "ReconcileFinalizer" (uncurry RetPhase)
      (ReconcileFinalizer inst (cfg_ProductName cfg)
        (let* (phase, err) :=
           teardownStep "RemoveNamespace(productNamespace)" (uncurry RetPhase)
             (lift (resources_RemoveNamespace E inst productNamespace)) in
         if halts phase err then ret (phase, err) else

         let* (phase, err) :=
           teardownStep "RemoveNamespace(operatorNamespace)" (uncurry RetPhase)
             (lift (resources_RemoveNamespace E inst operatorNamespace)) in
         if halts phase err then ret (phase, err) else

         ret (PhaseCompleted, None))) in
  if halts phase err then
    lift (events_HandleError phase "Failed to reconcile finalizer" err) ;;;
    ret (phase, err)
  else

  let* (phase, err) :=
    step "ReconcileNamespace(operatorNamespace)" (uncurry RetPhase)
      (lift (r_ReconcileNamespace E operatorNamespace inst)) in
  if halts phase err then
    lift (events_HandleError phase
            ("Failed to reconcile " +:+ operatorNamespace +:+ " ns") err) ;;;
    ret (phase, err)
  else

  let* (phase, err) :=
    step "reconcileSecrets" (uncurry RetPhase) (lift (reconcileSecrets r inst)) in
  if halts phase err then
    lift (events_HandleError phase
            ("Failed to reconcile " +:+ productNamespace +:+ " ns") err) ;;;
    ret (phase, err)
  else

  let* (phase, err) :=
    step "reconcileSubscription" (uncurry RetPhase)
      (lift (reconcileSubscription r inst productNamespace operatorNamespace)) in
  if halts phase err then
    lift (events_HandleError phase
            ("Failed to reconcile " +:+ ThreeScaleSubscriptionName E +:+ " subscription")
            err) ;;;
    ret (phase, err)
  else

  let* (phase, err) :=
    step "reconcileComponents" (uncurry RetPhase)
      (lift (reconcileComponents r inst)) in
  if halts phase err then
    lift (events_HandleError phase "Failed to create components" err) ;;;
    ret (phase, err)
  else

  let* (phase, err) :=
    step "reconcileHost" (uncurry RetPhase) (lift (reconcileHost r)) in
  if halts phase err then
    lift (events_HandleError phase "Failed to reconcile host" err) ;;;
    ret (phase, err)
  else

  reconciled r inst.

(** The ordered step list of a pass, and that of its teardown. *)
Definition stepList : list string :=
  [ "ReconcileFinalizer"; "ReconcileNamespace(operatorNamespace)"; "reconcileSecrets";
    "reconcileSubscription"; "reconcileComponents"; "reconcileHost" ].

Definition teardownList : list string :=
  [ "RemoveNamespace(productNamespace)"; "RemoveNamespace(operatorNamespace)" ].
End Grafana.
End Grafana.

(** * 3scale *)

Module ThreeScale.
Section ThreeScale.
Context {World : Type} (E : Env World).

Definition defaultInstallationNamespace : string := "3scale".
Definition manifestPackage : string := "integreatly-3scale".
Definition apiManagerName : string := "3scale".
Definition clientID : string := "3scale".
Definition rhssoIntegrationName : string := "rhsso".

Definition s3CredentialsSecretName : string := "s3-credentials".
Definition externalRedisSecretName : string := "system-redis".
Definition externalBackendRedisSecretName : string := "backend-redis".
Definition externalPostgresSecretName : string := "system-database".

Definition numberOfReplicas : Z := 2.

Definition systemSeedSecretName : string := "system-seed".
Definition systemMasterApiCastSecretName : string := "system-master-apicast".

Definition registrySecretName : string := "threescale-registry-auth".

(** The icon of the console link, a constant data URL of the source. *)
Definition threeScaleIcon : string := "data:image/svg+xml;base64,...".

(** The reconciler; its [Config] is the [config] of the state.  The field
    [r.installation] is [installation r]; the parameter that the Go methods
    call [installation] is written [inst]. *)
Record Reconciler := { installation : RHMI }.

Definition emptySecret : Secret := {| secret_meta := mkMeta "" ""; secret_Data := None |}.

(** [value, ok := m[key]] *)
Definition mapLookup (m : GoMap) (k : string) : option string :=
  match m with
  | Some d => d !! k
  | None => None
  end.

(** restores seed and master api cast secrets if available *)
Definition restoreSystemSecrets (r : Reconciler) (inst : RHMI) : M World Result :=
  let* halted :=
    forRange [systemSeedSecretName; systemMasterApiCastSecretName] (fun secretName =>
      let* cfg := getConfig in
      let* err := resources_CopySecret E secretName (inst_Namespace inst) secretName
                    (cfg_Namespace cfg) in
      if isErr err then
        if negb (IsNotFound err) && negb (IsConflict err) then
          ret (Some (PhaseFailed, err))
        else ret None
      else ret None) in
  match halted with
  | Some res => ret res
  | None => ret (PhaseCompleted, None)
  end.

(** Copies the seed and master api cast secrets for later restoration *)
Definition backupSystemSecrets (r : Reconciler) (inst : RHMI) : M World Result :=
  let* halted :=
    forRange [systemSeedSecretName; systemMasterApiCastSecretName] (fun secretName =>
      let* cfg := getConfig in
      let* err := resources_CopySecret E secretName (cfg_Namespace cfg) secretName
                    (inst_Namespace inst) in
      if isErr err then ret (Some (PhaseFailed, err)) else ret None) in
  match halted with
  | Some res => ret res
  | None => ret (PhaseCompleted, None)
  end.

Definition getOauthClientSecret (r : Reconciler) : M World (string * error) :=
  let* cfg := getConfig in
  let oauthClientSecrets :=
    {| secret_meta := mkMeta (GetOauthClientsSecretName E) ""; secret_Data := None |} in
  let* (oauthClientSecrets, err) :=
    Get E {| key_Name := Name (secret_meta oauthClientSecrets);
             key_Namespace := GetOperatorNamespace E |} oauthClientSecrets in
  if isErr err then
    ret ("", Errorf ("Could not find " +:+ GetOauthClientsSecretName E +:+ " Secret") err)
  else
  match mapLookup (secret_Data oauthClientSecrets) (cfg_ProductName cfg) with
  | None =>
      ret ("", Some (ErrOther ("Could not find " +:+ cfg_ProductName cfg +:+ " key in "
                               +:+ Name (secret_meta oauthClientSecrets) +:+ " Secret")))
  | Some clientSecretBytes => ret (clientSecretBytes, None)
  end.

Definition RolloutDeployment (r : Reconciler) (name : string) : M World error :=
  let* cfg := getConfig in
  call (EvInstantiate (cfg_Namespace cfg) name) (Instantiate E (cfg_Namespace cfg) name).

(** One of the seven comparisons of [reconcileSMTPCredentials]:
    [if string(credSec.Data[from]) != string(smtpConfigSecret.Data[to])
     { smtpConfigSecret.Data[to] = credSec.Data[from]; smtpUpdated = true }] *)
Definition syncSMTPField (credSec : Secret) (from to : string)
    (acc : gmap string string * bool) : gmap string string * bool :=
  let '(data, smtpUpdated) := acc in
  if bool_decide (mapGet (secret_Data credSec) from ≠ mapGet (Some data) to) then
    (<[to := mapGet (secret_Data credSec) from]> data, true)
  else (data, smtpUpdated).

Definition reconcileSMTPCredentials (r : Reconciler) : M World Result :=
  (* get the secret containing smtp credentials *)
  let credSec := emptySecret in
  let* (credSec, err) :=
    Get E {| key_Name := inst_SMTPSecret r.(installation);
             key_Namespace := inst_Namespace r.(installation) |} credSec in
  let* cfg := getConfig in
  let smtpConfigSecret :=
    {| secret_meta := mkMeta "system-smtp" (cfg_Namespace cfg); secret_Data := Some ∅ |} in

  (* reconcile the smtp configmap for 3scale *)
  let* (_, _, err) := CreateOrUpdate E smtpConfigSecret (fun smtpConfigSecret =>
    let meta := AddIntegreatlyOwnerAnnotations E (secret_meta smtpConfigSecret)
                  r.(installation) in
    let data := match secret_Data smtpConfigSecret with None => ∅ | Some d => d end in

    let acc := (data, false) in
    let acc := syncSMTPField credSec "host" "address" acc in
    let acc := syncSMTPField credSec "authentication" "authentication" acc in
    let acc := syncSMTPField credSec "domain" "domain" acc in
    let acc := syncSMTPField credSec "openssl.verify.mode" "openssl.verify.mode" acc in
    let acc := syncSMTPField credSec "password" "password" acc in
    let acc := syncSMTPField credSec "port" "port" acc in
    let acc := syncSMTPField credSec "username" "username" acc in
    let '(data, smtpUpdated) := acc in

    (if smtpUpdated then
       let* _ := RolloutDeployment r "system-app" in
       let* _ := RolloutDeployment r "system-sidekiq" in
       ret tt
     else ret tt) ;;;

    ret ({| secret_meta := meta; secret_Data := Some data |}, None)) in
  if isErr err then
    ret (PhaseFailed, Errorf "failed to create or update 3scale smtp configmap" err)
  else
  ret (PhaseCompleted, None).

(** The first item that passes [filterFn], [nil] when there is none. *)
Fixpoint firstRoute (filterFn : Route -> bool) (items : list Route) : option Route :=
  match items with
  | [] => None
  | route :: rest => if filterFn route then Some route else firstRoute filterFn rest
  end.

Definition getThreescaleRoute (r : Reconciler) (label : string)
    (filterFn : option (Route -> bool)) : M World (option Route * error) :=
  (* Add backwards compatible filter function, first element will do *)
  let filterFn := match filterFn with Some f => f | None => fun _ => true end in

  match labels_Parse E ("zync.3scale.net/route-to=" +:+ label) with
  | inl err => ret (None, Some err)
  | inr selector =>
      let* cfg := getConfig in
      let opts :=
        {| list_Namespace := cfg_Namespace cfg; list_LabelSelector := Some selector;
           list_MatchingLabels := ∅ |} in
      let* (routes, err) := List E Route opts in
      if isErr err then ret (None, err) else

      if bool_decide (List.length routes = 0%nat) then ret (None, None) else

      ret (firstRoute filterFn routes, None)
  end.

Definition routesExist (r : Reconciler) : M World (bool * error) :=
  let expectedRoutes := 6%nat in
  let* cfg := getConfig in
  let opts :=
    {| list_Namespace := cfg_Namespace cfg; list_LabelSelector := None;
       list_MatchingLabels := ∅ |} in
  let* (routes, err) := List E Route opts in
  if isErr err then ret (false, err) else
  if bool_decide (expectedRoutes ≤ List.length routes)%nat then ret (true, None) else
  ret (false, None).

(** The name of the first pod that is running, [""] when there is none. *)
Fixpoint firstRunning (pods : list Pod) : string :=
  match pods with
  | [] => ""
  | pod :: rest =>
      if bool_decide (pod_Phase pod = "Running") then Name (pod_meta pod)
      else firstRunning rest
  end.

Definition resyncRoutes (r : Reconciler) : M World Result :=
  let* cfg := getConfig in
  let ns := cfg_Namespace cfg in
  let listOpts :=
    {| list_Namespace := ns; list_LabelSelector := None;
       list_MatchingLabels := {[ "deploymentConfig" := "system-sidekiq" ]} |} in
  let* (pods, err) := List E Pod listOpts in
  let podname := firstRunning pods in

  if bool_decide (podname = "") then ret (PhaseInProgress, None) else

  let* (stdout, stderr, err) :=
    resources_ExecuteRemoteCommand E ns podname "bundle exec rake zync:resync:domains" in
  if isErr err then ret (PhaseFailed, None)
  else if bool_decide (stderr ≠ "") then ret (PhaseFailed, None)
  else ret (PhaseInProgress, None).

Definition reconcileBlobStorage (r : Reconciler) : M World Result :=
  let ns := inst_Namespace r.(installation) in

  (* setup blob storage cr for the cloud resource operator *)
  let blobStorageName := ThreeScaleBlobStoragePrefix E +:+ inst_Name r.(installation) in
  let* res :=
    croUtil_ReconcileBlobStorage E defaultInstallationNamespace (inst_Type r.(installation))
      (TierProduction E) blobStorageName ns blobStorageName ns
      (fun cr => AddIntegreatlyOwnerAnnotations E cr r.(installation)) in
  match res with
  | inl err =>
      ret (PhaseFailed, Errorf "failed to reconcile blob storage request" (Some err))
  | inr blobStorage =>
      (* wait for the blob storage cr to reconcile *)
      if bool_decide (blob_Phase blobStorage ≠ PhaseComplete) then
        ret (PhaseAwaitingComponents, None)
      else
      ret (PhaseCompleted, None)
  end.

(** The key under which [getBlobStorageFileStorageSpec] copies an entry of the
    blob storage secret. *)
Definition s3Key (key : string) : string :=
  if bool_decide (key = "credentialKeyID") then "AWS_ACCESS_KEY_ID"
  else if bool_decide (key = "credentialSecretKey") then "AWS_SECRET_ACCESS_KEY"
  else if bool_decide (key = "bucketName") then "AWS_BUCKET"
  else if bool_decide (key = "bucketRegion") then "AWS_REGION"
  else key.

(** Returns the name of the secret the file storage spec points to
    ([S3.ConfigurationSecretRef.Name]), or an error.  Go ranges over the map
    in no fixed order; the entries are taken in the order of the keys
    here. *)
Definition getBlobStorageFileStorageSpec (r : Reconciler) : M World (option string * error) :=
  (* create blob storage cr *)
  let blobStorage :=
    {| blob_meta := mkMeta "" ""; blob_Phase := "";
       blob_SecretRef := {| ref_Name := ""; ref_Namespace := "" |} |} in
  let* (blobStorage, err) :=
    Get E {| key_Name := ThreeScaleBlobStoragePrefix E +:+ inst_Name r.(installation);
             key_Namespace := inst_Namespace r.(installation) |} blobStorage in
  if isErr err then ret (None, Errorf "failed to get blob storage custom resource" err) else

  (* get blob storage connection secret *)
  let* (blobStorageSec, err) :=
    Get E {| key_Name := ref_Name (blob_SecretRef blobStorage);
             key_Namespace := ref_Namespace (blob_SecretRef blobStorage) |} emptySecret in
  if isErr err then ret (None, Errorf "failed to get blob storage connection secret" err) else

  (* create s3 credentials secret *)
  let* cfg := getConfig in
  let credSec :=
    {| secret_meta := mkMeta s3CredentialsSecretName (cfg_Namespace cfg);
       secret_Data := Some ∅ |} in

  let* (_, _, err) := CreateOrUpdate E credSec (fun credSec =>
    let entries := map_to_list (mapEntries (secret_Data blobStorageSec)) in
    match entries, secret_Data credSec with
    | [], _ => ret (credSec, None)
    | _ :: _, None => panic "assignment to entry in nil map"
    | _ :: _, Some data =>
        ret ({| secret_meta := secret_meta credSec;
                secret_Data :=
                  Some (foldl (fun d '(key, value) => <[s3Key key := value]> d)
                              data entries) |}, None)
    end) in
  if isErr err then
    ret (None, Errorf "failed to create or update blob storage aws credentials secret" err)
  else
  (* return the file storage spec *)
  ret (Some s3CredentialsSecretName, None).

(** [if *replicas < numberOfReplicas { *replicas = numberOfReplicas }] *)
Definition atLeastReplicas (replicas : option Z) : M World (option Z) :=
  match replicas with
  | None => panic "invalid memory address or nil pointer dereference"
  | Some n => if bool_decide (n < numberOfReplicas) then ret (Some numberOfReplicas)
              else ret (Some n)
  end.

Definition reconcileComponents (r : Reconciler) : M World Result :=
  let* (fss, err) := getBlobStorageFileStorageSpec r in
  if isErr err then ret (PhaseFailed, err) else

  (* create the 3scale api manager *)
  let resourceRequirements :=
    bool_decide (inst_Type r.(installation) ≠ InstallationTypeWorkshop E) in
  let* cfg := getConfig in
  let apim :=
    {| apim_meta := mkMeta apiManagerName (cfg_Namespace cfg);
       apim_Spec :=
         {| am_HighAvailability := false;
            am_PodDisruptionBudget := false;
            am_ResourceRequirementsEnabled := resourceRequirements;
            am_WildcardDomain := "";
            am_FileStorageSecret := Some "";
            am_SystemApp := Some 0;
            am_SystemSidekiq := Some 0;
            am_ApicastProduction := Some 0;
            am_ApicastStaging := Some 0;
            am_BackendListener := Some 0;
            am_BackendWorker := Some 0;
            am_BackendCron := Some 0;
            am_ZyncApp := Some 0;
            am_ZyncQue := Some 0 |};
       apim_Deployments := {| dep_Starting := []; dep_Stopped := []; dep_Ready := [] |} |} in

  let* (status, apim, err) := CreateOrUpdate E apim (fun apim =>
    let spec := apim_Spec apim in
    let* systemApp := atLeastReplicas (am_SystemApp spec) in
    let* systemSidekiq := atLeastReplicas (am_SystemSidekiq spec) in
    let* apicastProduction := atLeastReplicas (am_ApicastProduction spec) in
    let* apicastStaging := atLeastReplicas (am_ApicastStaging spec) in
    let* backendListener := atLeastReplicas (am_BackendListener spec) in
    let* backendWorker := atLeastReplicas (am_BackendWorker spec) in
    let* backendCron := atLeastReplicas (am_BackendCron spec) in
    let* zyncApp := atLeastReplicas (am_ZyncApp spec) in
    let* zyncQue := atLeastReplicas (am_ZyncQue spec) in
    ret ({| apim_meta :=
              AddIntegreatlyOwnerAnnotations E (apim_meta apim) r.(installation);
            apim_Spec :=
              {| am_HighAvailability := true;
                 am_PodDisruptionBudget := true;
                 am_ResourceRequirementsEnabled := resourceRequirements;
                 am_WildcardDomain := inst_RoutingSubdomain r.(installation);
                 am_FileStorageSecret := fss;
                 am_SystemApp := systemApp;
                 am_SystemSidekiq := systemSidekiq;
                 am_ApicastProduction := apicastProduction;
                 am_ApicastStaging := apicastStaging;
                 am_BackendListener := backendListener;
                 am_BackendWorker := backendWorker;
                 am_BackendCron := backendCron;
                 am_ZyncApp := zyncApp;
                 am_ZyncQue := zyncQue |};
            apim_Deployments := apim_Deployments apim |}, None)) in

  if isErr err then ret (PhaseFailed, err) else

  let deployments := apim_Deployments apim in
  if bool_decide (List.length (dep_Starting deployments) = 0%nat)
     && bool_decide (List.length (dep_Stopped deployments) = 0%nat)
     && bool_decide (0 < List.length (dep_Ready deployments))%nat then

    let* (threescaleRoute, err) :=
      getThreescaleRoute r "system-provider"
        (Some (fun r => HasPrefix (route_Host r) "3scale-admin.")) in
    let* halted :=
      match threescaleRoute with
      | Some threescaleRoute =>
          setConfig (SetHost ("https://" +:+ route_Host threescaleRoute)) ;;;
          let* err := ConfigManager_WriteConfig E in
          if isErr err then ret (Some (PhaseFailed, err)) else ret None
      | None =>
          if isErr err then ret (Some (PhaseFailed, err)) else ret None
      end in
    match halted with
    | Some res => ret res
    | None =>
        (* Its not enough to just check if the system-provider route exists.
           This can exist but system-master, for example, may not *)
        let* (exist', err) := routesExist r in
        if isErr err then ret (PhaseFailed, err) else
        if exist' then ret (PhaseCompleted, None)
        else resyncRoutes r
    end

  else ret (PhaseInProgress, None).

(** [redis://%s:%s/db] *)
Definition redisURL (uri port db : string) : string :=
  "redis://" +:+ uri +:+ ":" +:+ port +:+ "/" +:+ db.

(** reconcileExternalDatasources provisions 2 redis caches and a postgres
    instance which are used when 3scale HighAvailability mode is enabled *)
Definition reconcileExternalDatasources (r : Reconciler) : M World Result :=
  let ns := inst_Namespace r.(installation) in
  let modify := fun cr => AddIntegreatlyOwnerAnnotations E cr r.(installation) in

  (* setup backend redis custom resource *)
  let backendRedisName := ThreeScaleBackendRedisPrefix E +:+ "rhmi" in
  let* res :=
    croUtil_ReconcileRedis E defaultInstallationNamespace (inst_Type r.(installation))
      (TierProduction E) backendRedisName ns backendRedisName ns modify in
  match res with
  | inl err =>
      ret (PhaseFailed, Errorf "failed to reconcile backend redis request" (Some err))
  | inr backendRedis =>

  (* setup system redis custom resource *)
  let systemRedisName := ThreeScaleSystemRedisPrefix E +:+ "rhmi" in
  let* res :=
    croUtil_ReconcileRedis E defaultInstallationNamespace (inst_Type r.(installation))
      (TierProduction E) systemRedisName ns systemRedisName ns modify in
  match res with
  | inl err =>
      ret (PhaseFailed, Errorf "failed to reconcile system redis request" (Some err))
  | inr systemRedis =>

  (* setup postgres cr for the cloud resource operator *)
  let postgresName := ThreeScalePostgresPrefix E +:+ inst_Name r.(installation) in
  let* res :=
    croUtil_ReconcilePostgres E defaultInstallationNamespace (inst_Type r.(installation))
      (TierProduction E) postgresName ns postgresName ns modify in
  match res with
  | inl err =>
      ret (PhaseFailed, Errorf "failed to reconcile postgres request" (Some err))
  | inr postgres =>

  let* (phase, err) := resources_ReconcileRedisAlerts E r.(installation) backendRedis in
  if isErr err then ret (PhaseFailed, Errorf "failed to reconcile redis alerts" err) else
  if bool_decide (phase ≠ PhaseCompleted) then ret (phase, None) else

  (* create Redis Cpu Usage High alert *)
  let* err := resources_CreateRedisCpuUsageAlerts E r.(installation) backendRedis in
  if isErr err then
    ret (PhaseFailed,
         Errorf "failed to create backend redis prometheus Cpu usage high alerts for threescale"
                err)
  else
  (* wait for the backend redis cr to reconcile *)
  if bool_decide (redis_Phase backendRedis ≠ PhaseComplete) then
    ret (PhaseAwaitingComponents, None)
  else

  (* get the secret created by the cloud resources operator
     containing backend redis connection details *)
  let* (credSec, err) :=
    Get E {| key_Name := ref_Name (redis_SecretRef backendRedis);
             key_Namespace := ref_Namespace (redis_SecretRef backendRedis) |} emptySecret in
  if isErr err then
    ret (PhaseFailed, Errorf "failed to get backend redis credential secret" err)
  else

  (* create backend redis external connection secret needed for the 3scale apimanager *)
  let* cfg := getConfig in
  let backendRedisSecret :=
    {| secret_meta := mkMeta externalBackendRedisSecretName (cfg_Namespace cfg);
       secret_Data := Some ∅ |} in
  let* (_, _, err) := CreateOrUpdate E backendRedisSecret (fun backendRedisSecret =>
    let uri := mapGet (secret_Data credSec) "uri" in
    let port := mapGet (secret_Data credSec) "port" in
    match secret_Data backendRedisSecret with
    | None => panic "assignment to entry in nil map"
    | Some data =>
        ret ({| secret_meta := secret_meta backendRedisSecret;
                secret_Data :=
                  Some (<["REDIS_QUEUES_URL" := redisURL uri port "1"]>
                          (<["REDIS_STORAGE_URL" := redisURL uri port "0"]> data)) |},
             None)
    end) in
  if isErr err then
    ret (PhaseFailed,
         Errorf ("failed to create or update 3scale " +:+ externalBackendRedisSecretName
                 +:+ " connection secret") err)
  else

  let* (phase, err) := resources_ReconcileRedisAlerts E r.(installation) systemRedis in
  if isErr err then ret (PhaseFailed, Errorf "failed to reconcile redis alerts" err) else
  if bool_decide (phase ≠ PhaseCompleted) then ret (phase, None) else
  (* wait for the system redis cr to reconcile *)
  if bool_decide (redis_Phase systemRedis ≠ PhaseComplete) then
    ret (PhaseAwaitingComponents, None)
  else

  (* get the secret created by the cloud resources operator
     containing system redis connection details *)
  let* (systemCredSec, err) :=
    Get E {| key_Name := ref_Name (redis_SecretRef systemRedis);
             key_Namespace := ref_Namespace (redis_SecretRef systemRedis) |} emptySecret in
  if isErr err then
    ret (PhaseFailed, Errorf "failed to get system redis credential secret" err)
  else

  (* create system redis external connection secret needed for the 3scale apimanager *)
  let redisSecret :=
    {| secret_meta := mkMeta externalRedisSecretName (cfg_Namespace cfg);
       secret_Data := Some ∅ |} in
  let* (_, _, err) := CreateOrUpdate E redisSecret (fun redisSecret =>
    let uri := mapGet (secret_Data systemCredSec) "uri" in
    let port := mapGet (secret_Data systemCredSec) "port" in
    let conn := redisURL uri port "1" in
    match secret_Data redisSecret with
    | None => panic "assignment to entry in nil map"
    | Some data =>
        ret ({| secret_meta := secret_meta redisSecret;
                secret_Data :=
                  Some (<["MESSAGE_BUS_URL" := conn]> (<["URL" := conn]> data)) |},
             None)
    end) in
  if isErr err then
    ret (PhaseFailed,
         Errorf ("failed to create or update 3scale " +:+ externalRedisSecretName
                 +:+ " connection secret") err)
  else

  (* reconcile postgres alerts *)
  let* (phase, err) := resources_ReconcilePostgresAlerts E r.(installation) postgres in
  let productName := default "" (Labels (pg_meta postgres) !! "productName") in
  if isErr err then
    ret (PhaseFailed,
         Errorf ("failed to reconcile postgres alerts for " +:+ productName) err)
  else
  if bool_decide (phase ≠ PhaseCompleted) then ret (phase, None) else

  (* get the secret containing redis credentials *)
  let* (postgresCredSec, err) :=
    Get E {| key_Name := ref_Name (pg_SecretRef postgres);
             key_Namespace := ref_Namespace (pg_SecretRef postgres) |} emptySecret in
  if isErr err then
    ret (PhaseFailed, Errorf "failed to get postgres credential secret" err)
  else

  (* create postgres external connection secret *)
  let postgresSecret :=
    {| secret_meta := mkMeta externalPostgresSecretName (cfg_Namespace cfg);
       secret_Data := Some ∅ |} in
  let* (_, _, err) := CreateOrUpdate E postgresSecret (fun postgresSecret =>
    let username := mapGet (secret_Data postgresCredSec) "username" in
    let password := mapGet (secret_Data postgresCredSec) "password" in
    let url :=
      "postgresql://" +:+ username +:+ ":" +:+ password +:+ "@"
      +:+ mapGet (secret_Data postgresCredSec) "host" +:+ ":"
      +:+ mapGet (secret_Data postgresCredSec) "port" +:+ "/"
      +:+ mapGet (secret_Data postgresCredSec) "database" in
    match secret_Data postgresSecret with
    | None => panic "assignment to entry in nil map"
    | Some data =>
        ret ({| secret_meta := secret_meta postgresSecret;
                secret_Data :=
                  Some (<["DB_PASSWORD" := password]>
                          (<["DB_USER" := username]> (<["URL" := url]> data))) |},
             None)
    end) in
  if isErr err then
    ret (PhaseFailed,
         Errorf ("failed to create or update 3scale " +:+ externalPostgresSecretName
                 +:+ " connection secret") err)
  else

  ret (PhaseCompleted, None)
  end end end.

(** [(&accessToken, nil)] is [inr accessToken], [(nil, err)] is [inl err]. *)
Definition GetAdminToken (r : Reconciler) : M World (Err + string) :=
  let* cfg := getConfig in
  let s := {| secret_meta := mkMeta "system-seed" ""; secret_Data := None |} in
  let* (s, err) :=
    Get E {| key_Name := Name (secret_meta s); key_Namespace := cfg_Namespace cfg |} s in
  match err with
  | Some e => ret (inl e)
  | None => ret (inr (mapGet (secret_Data s) "ADMIN_ACCESS_TOKEN"))
  end.

(** [(&username, &email, nil)] is [inr (username, email)]. *)
Definition GetAdminNameAndPassFromSecret (r : Reconciler) : M World (Err + string * string) :=
  let* cfg := getConfig in
  let s := {| secret_meta := mkMeta "system-seed" (cfg_Namespace cfg); secret_Data := None |} in
  let* (s, err) :=
    Get E {| key_Name := Name (secret_meta s); key_Namespace := cfg_Namespace cfg |} s in
  match err with
  | Some e => ret (inl e)
  | None =>
      let username := mapGet (secret_Data s) "ADMIN_USER" in
      let email := mapGet (secret_Data s) "ADMIN_EMAIL" in
      ret (inr (username, email))
  end.

Definition getOAuthClientName (r : Reconciler) (cfg : Config) : string :=
  inst_NamespacePrefix r.(installation) +:+ cfg_ProductName cfg.

Definition getKeycloakClientSpec (r : Reconciler) (clientSecret : string)
  : KeycloakClientSpec :=
  {| kcs_RealmSelector := GetInstanceLabels E;
     kcs_ClientID := clientID;
     kcs_Secret := clientSecret;
     kcs_RedirectUris :=
       ["https://3scale-admin." +:+ inst_RoutingSubdomain r.(installation) +:+ "/*"];
     kcs_RootURL := "https://3scale-admin." +:+ inst_RoutingSubdomain r.(installation) |}.

Definition reconcileRHSSOIntegration (r : Reconciler) : M World Result :=
  let* res := ConfigManager_ReadRHSSO E in
  match res with
  | inl err => ret (PhaseFailed, Some err)
  | inr rhssoConfig =>
  let rhssoNamespace := rhsso_Namespace rhssoConfig in
  let rhssoRealm := rhsso_Realm rhssoConfig in
  if bool_decide (rhssoNamespace = "") || bool_decide (rhssoRealm = "") then
    ret (PhaseInProgress, None)
  else

  let kcClient := {| kcclient_meta := mkMeta clientID rhssoNamespace; kcclient_Spec := None |} in

  let* (clientSecret, err) := getOauthClientSecret r in
  if isErr err then ret (PhaseFailed, err) else

  let* (_, _, err) := CreateOrUpdate E kcClient (fun kcClient =>
    ret ({| kcclient_meta := kcclient_meta kcClient;
            kcclient_Spec := Some (getKeycloakClientSpec r clientSecret) |}, None)) in
  if isErr err then
    ret (PhaseFailed, Errorf "could not create/update 3scale keycloak client" err)
  else

  let* res := GetAdminToken r in
  match res with
  | inl err => ret (PhaseInProgress, Some err)
  | inr accessToken =>
  let* err := tsClient_GetAuthenticationProviderByName E rhssoIntegrationName accessToken in
  if isErr err && negb (tsIsNotFoundError E err) then ret (PhaseInProgress, err) else
  if tsIsNotFoundError E err then
    let site := rhsso_Host rhssoConfig +:+ "/auth/realms/" +:+ rhssoRealm in
    let* res :=
      tsClient_AddAuthenticationProvider E
        (list_to_map
           [("kind", "keycloak");
            ("name", rhssoIntegrationName);
            ("client_id", clientID);
            ("client_secret", clientSecret);
            ("site", site);
            ("skip_ssl_certificate_verification", "true");
            ("published", "true")])
        accessToken in
    if httpFailed res StatusCreated then ret (PhaseInProgress, httpErr res) else
    ret (PhaseCompleted, None)
  else
  ret (PhaseCompleted, None)
  end end.

Definition tsContainsKc (tsusers : list User) (kcUser : KeycloakAPIUser) : bool :=
  (fix loop (l : list User) : bool :=
     match l with
     | [] => false
     | tsu :: rest =>
         if EqualFold (Username tsu) (UserName kcUser) then true else loop rest
     end) tsusers.

Definition kcContainsTs (kcUsers : list KeycloakAPIUser) (tsUser : User) : bool :=
  (fix loop (l : list KeycloakAPIUser) : bool :=
     match l with
     | [] => false
     | kcu :: rest =>
         if EqualFold (UserName kcu) (Username tsUser) then true else loop rest
     end) kcUsers.

Definition userIsOpenshiftAdmin (tsUser : User) (adminGroup : Group) : bool :=
  (fix loop (l : list string) : bool :=
     match l with
     | [] => false
     | userName :: rest =>
         if EqualFold (Username tsUser) userName then true else loop rest
     end) (group_Users adminGroup).

Definition getUserDiff (kcUsers : list KeycloakAPIUser) (tsUsers : list User)
  : list KeycloakAPIUser * list User :=
  let added :=
    foldl (fun added kcUser =>
             if negb (tsContainsKc tsUsers kcUser) then added ++ [kcUser] else added)
          [] kcUsers in

  let deleted :=
    foldl (fun deleted tsUser =>
             if negb (kcContainsTs kcUsers tsUser) then deleted ++ [tsUser] else deleted)
          [] tsUsers in

  (added, deleted).

Definition syncOpenshiftAdminMembership (openshiftAdminGroup : Group)
    (newTsUsers : list User) (systemAdminUsername : string) (isWorkshop : bool)
    (accessToken : string) : M World error :=
  let* returned :=
    forRange newTsUsers (fun tsUser =>
      (* skip if ts user is the system user admin *)
      if bool_decide (Username tsUser = systemAdminUsername) then ret None else

      (* In workshop mode, developer users also get admin permissions in 3scale *)
      if (userIsOpenshiftAdmin tsUser openshiftAdminGroup || isWorkshop)
         && bool_decide (UserRole tsUser ≠ adminRole E) then
        let* res := tsClient_SetUserAsAdmin E (Id tsUser) accessToken in
        if httpFailed res StatusOK then ret (Some (httpErr res)) else ret None
      else ret None) in
  match returned with
  | Some err => ret err
  | None => ret None
  end.

Definition userCreated3ScaleName : string := "3scale_user_created".

Definition reconcileOpenshiftUsers (r : Reconciler) (inst : RHMI) : M World Result :=
  let* res := ConfigManager_ReadRHSSO E in
  match res with
  | inl err => ret (PhaseFailed, Some err)
  | inr rhssoConfig =>

  let* res := GetAdminToken r in
  match res with
  | inl err => ret (PhaseFailed, Some err)
  | inr accessToken =>

  let* res := GetAdminNameAndPassFromSecret r in
  match res with
  | inl err => ret (PhaseInProgress, Some err)
  | inr (systemAdminUsername, _) =>

  let* res := rhsso_GetKeycloakUsers E (rhsso_Namespace rhssoConfig) in
  match res with
  | inl err => ret (PhaseFailed, Some err)
  | inr kcu =>

  let* res := tsClient_GetUsers E accessToken in
  match res with
  | inl err => ret (PhaseInProgress, Some err)
  | inr tsUsers =>

  let '(added, deleted) := getUserDiff kcu tsUsers in
  let* halted :=
    forRange added (fun kcUser =>
      let* res := tsClient_AddUser E (ToLower (UserName kcUser)) (ToLower (Email kcUser)) ""
                    accessToken in
      if httpFailed res StatusCreated then ret (Some (PhaseInProgress, httpErr res))
      else ret None) in
  match halted with
  | Some res => ret res
  | None =>
  let* halted :=
    forRange deleted (fun tsUser =>
      if bool_decide (Username tsUser ≠ systemAdminUsername) then
        let* res := tsClient_DeleteUser E (Id tsUser) accessToken in
        if httpFailed res StatusOK then ret (Some (PhaseInProgress, httpErr res))
        else ret None
      else ret None) in
  match halted with
  | Some res => ret res
  | None =>

  (* update KeycloakUser attribute after user is created in 3scale *)
  let* halted :=
    forRange kcu (fun user =>
      let user :=
        match Attributes user with
        | None =>
            {| UserName := UserName user; Email := Email user;
               Attributes := Some {[ userCreated3ScaleName := ["true"] ]} |}
        | Some _ => user
        end in

      let kcUser :=
        {| kcuser_meta :=
             mkMeta (GetValidGeneratedUserName E user) (rhsso_Namespace rhssoConfig);
           kcuser_User := None |} in

      let* (_, _, err) := CreateOrUpdate E kcUser (fun kcUser =>
        let user :=
          {| UserName := UserName user; Email := Email user;
             Attributes :=
               Some (<[userCreated3ScaleName := ["true"]]> (default ∅ (Attributes user))) |} in
        ret ({| kcuser_meta := kcuser_meta kcUser; kcuser_User := Some user |}, None)) in
      if isErr err then
        ret (Some (PhaseInProgress,
                   Errorf ("failed to update KeycloakUser CR with " +:+ userCreated3ScaleName
                           +:+ " attribute") err))
      else ret None) in
  match halted with
  | Some res => ret res
  | None =>

  let openshiftAdminGroup := {| group_meta := mkMeta "" ""; group_Users := [] |} in
  let* (openshiftAdminGroup, err) :=
    Get E {| key_Name := "dedicated-admins"; key_Namespace := "" |} openshiftAdminGroup in
  if isErr err && negb (IsNotFound err) then ret (PhaseInProgress, err) else
  let* res := tsClient_GetUsers E accessToken in
  match res with
  | inl err => ret (PhaseInProgress, Some err)
  | inr newTsUsers =>

  let isWorkshop := bool_decide (inst_Type inst = InstallationTypeWorkshop E) in

  let* err :=
    syncOpenshiftAdminMembership openshiftAdminGroup newTsUsers systemAdminUsername
      isWorkshop accessToken in
  if isErr err then ret (PhaseInProgress, err) else

  ret (PhaseCompleted, None)
  end end end end end end end end end.

Definition preUpgradeBackupExecutor (r : Reconciler) : BackupExecutor :=
  if bool_decide (inst_UseClusterStorage r.(installation) ≠ "false") then
    NoopBackupExecutor
  else
  ConcurrentBackupExecutor
    [ {| backup_Namespace := inst_Namespace r.(installation);
         backup_ResourceName := "threescale-postgres-rhmi";
         backup_SnapshotType := PostgresSnapshotType E |};
      {| backup_Namespace := inst_Namespace r.(installation);
         backup_ResourceName := "threescale-backend-redis-rhmi";
         backup_SnapshotType := RedisSnapshotType E |};
      {| backup_Namespace := inst_Namespace r.(installation);
         backup_ResourceName := "threescale-redis-rhmi";
         backup_SnapshotType := RedisSnapshotType E |} ].

Definition reconcileServiceDiscovery (r : Reconciler) : M World Result :=
  let* cfg := getConfig in
  (if bool_decide (cfg_ProductVersion cfg ≠ Version3Scale E) then
     setConfig (SetProductVersion (Version3Scale E)) ;;;
     let* _ := ConfigManager_WriteConfig E in
     ret tt
   else ret tt) ;;;

  let* cfg := getConfig in
  (if bool_decide (cfg_OperatorVersion cfg ≠ OperatorVersion3Scale E) then
     setConfig (SetOperatorVersion (OperatorVersion3Scale E)) ;;;
     let* _ := ConfigManager_WriteConfig E in
     ret tt
   else ret tt) ;;;

  let* cfg := getConfig in
  let system := {| cm_meta := mkMeta "system" (cfg_Namespace cfg); cm_Data := None |} in

  let* (status, _, err) := CreateOrUpdate E system (fun system =>
    let* (clientSecret, err) := getOauthClientSecret r in
    if isErr err then ret (system, err) else
    let sdConfig :=
      "production:" +:+ "\n  enabled: true\n  authentication_method: oauth"
      +:+ "\n  oauth_server_type: builtin\n  client_id: '" +:+ getOAuthClientName r cfg
      +:+ "'\n  client_secret: '" +:+ clientSecret +:+ "'\n" in

    match cm_Data system with
    | None => panic "assignment to entry in nil map"
    | Some data =>
        ret ({| cm_meta := cm_meta system;
                cm_Data := Some (<["service_discovery.yml" := sdConfig]> data) |}, None)
    end) in

  if isErr err then ret (PhaseInProgress, err) else

  if bool_decide (status ≠ OperationResultNone) then
    let* err := RolloutDeployment r "system-app" in
    if isErr err then ret (PhaseInProgress, err) else

    let* err := RolloutDeployment r "system-sidekiq" in
    if isErr err then ret (PhaseInProgress, err) else

    ret (PhaseCompleted, None)
  else
  ret (PhaseCompleted, None).

(** [route.Spec.Host] on a route that may be nil. *)
Definition routeSpecHost (route : option Route) : M World string :=
  match route with
  | None => panic "invalid memory address or nil pointer dereference"
  | Some route => ret (route_Host route)
  end.

Definition reconcileBlackboxTargets (r : Reconciler) (inst : RHMI) : M World Result :=
  let* res := ConfigManager_ReadMonitoring E in
  match res with
  | inl err => ret (PhaseInProgress, Errorf "error reading monitoring config" (Some err))
  | inr cfg =>

  let* config := getConfig in
  let* err :=
    monitoring_CreateBlackboxTarget E "integreatly-3scale-admin-ui"
      (cfg_Host config +:+ "/" +:+ cfg_BlackboxTargetPathForAdminUI config)
      "3scale-admin-ui" cfg inst in
  if isErr err then
    ret (PhaseInProgress, Errorf "error creating threescale blackbox target" err)
  else

  (* Create a blackbox target for the developer console ui *)
  let* (route, err) :=
    getThreescaleRoute r "system-developer"
      (Some (fun r => HasPrefix (route_Host r) "3scale.")) in
  if isErr err then
    ret (PhaseInProgress, Errorf "error getting threescale system-developer route" err)
  else
  let* host := routeSpecHost route in
  let* err :=
    monitoring_CreateBlackboxTarget E "integreatly-3scale-system-developer"
      ("https://" +:+ host) "3scale-developer-console-ui" cfg inst in
  if isErr err then
    ret (PhaseInProgress,
         Errorf "error creating threescale blackbox target (system-developer)" err)
  else

  (* Create a blackbox target for the master console ui *)
  let* (route, err) := getThreescaleRoute r "system-master" None in
  if isErr err then
    ret (PhaseInProgress, Errorf "error getting threescale system-master route" err)
  else
  let* host := routeSpecHost route in
  let* err :=
    monitoring_CreateBlackboxTarget E "integreatly-3scale-system-master"
      ("https://" +:+ host) "3scale-system-admin-ui" cfg inst in
  if isErr err then
    ret (PhaseInProgress,
         Errorf "error creating threescale blackbox target (system-master)" err)
  else

  ret (PhaseCompleted, None)
  end.

Definition reconcileRouteEditRole (r : Reconciler) : M World Result :=
  let* cfg := getConfig in
  let editRoutesRole :=
    {| role_meta := mkMeta "edit-3scale-routes" (cfg_Namespace cfg); role_Rules := [] |} in

  let* (_, editRoutesRole, err) := CreateOrUpdate E editRoutesRole (fun editRoutesRole =>
    ret ({| role_meta :=
              AddIntegreatlyOwnerAnnotations E (role_meta editRoutesRole) r.(installation);
            role_Rules :=
              [ {| rule_APIGroups := ["route.openshift.io"];
                   rule_Resources := ["routes"];
                   rule_Verbs := ["get"; "update"; "list"; "watch"; "patch"] |} ] |},
         None)) in
  if isErr err then ret (PhaseFailed, Errorf "Failed reconciling edit routes role" err) else

  (* Bind the amq online service admin role to the dedicated-admins group *)
  let editRoutesRoleBinding :=
    {| rb_meta := mkMeta "dedicated-admins-edit-routes" (cfg_Namespace cfg);
       rb_RoleRefName := ""; rb_RoleRefKind := ""; rb_Subjects := [] |} in

  let* (_, _, err) := CreateOrUpdate E editRoutesRoleBinding (fun editRoutesRoleBinding =>
    ret ({| rb_meta :=
              AddIntegreatlyOwnerAnnotations E (rb_meta editRoutesRoleBinding)
                r.(installation);
            rb_RoleRefName := Name (role_meta editRoutesRole);
            rb_RoleRefKind := "Role";
            rb_Subjects :=
              [ {| subject_Name := "dedicated-admins"; subject_Kind := "Group" |} ] |},
         None)) in
  if isErr err then
    ret (PhaseFailed, Errorf "Failed reconciling service admin role binding" err)
  else

  ret (PhaseCompleted, None).

Definition reconcileSubscription (r : Reconciler) (inst : RHMI)
    (productNamespace operatorNamespace : string) : M World Result :=
  let target :=
    {| target_Pkg := ThreeScaleSubscriptionName E; target_Namespace := operatorNamespace;
       target_Channel := IntegreatlyChannel E |} in
  let catalogSourceReconciler :=
    {| cs_ManifestsProductDirectory := manifestPackage; cs_Namespace := operatorNamespace;
       cs_CSName := CatalogSourceName E |} in
  r_ReconcileSubscription E target [productNamespace] (preUpgradeBackupExecutor r)
    catalogSourceReconciler.

Definition reconcileConsoleLink (r : Reconciler) : M World Result :=
  let cl := {| cl_meta := mkMeta "rhmi-3scale-console-link" ""; cl_Spec := None |} in

  let* (_, _, err) := CreateOrUpdate E cl (fun cl =>
    let* cfg := getConfig in
    ret ({| cl_meta := cl_meta cl;
            cl_Spec :=
              Some {| cl_ImageURL := threeScaleIcon;
                      cl_Section := "OpenShift Managed Services";
                      cl_Href := cfg_Host cfg +:+ "/auth/rhsso/bounce";
                      cl_Text := "API Management" |} |}, None)) in
  if isErr err then
    ret (PhaseFailed, Errorf "error creating or updating 3Scale console link" err)
  else

  ret (PhaseCompleted, None).

Definition deleteConsoleLink (r : Reconciler) : M World Result :=
  let cl := {| cl_meta := mkMeta "rhmi-3scale-console-link" ""; cl_Spec := None |} in

  let* err := Delete E cl in
  if isErr err && negb (IsNotFound err) then
    ret (PhaseFailed, Errorf "error removing 3Scale console link" err)
  else
  ret (PhaseCompleted, None).

Definition Reconcile (r : Reconciler) (inst : RHMI) : PassM World Result :=
  let* cfg := lift getConfig in
  let operatorNamespace := cfg_OperatorNamespace cfg in
  let productNamespace := cfg_Namespace cfg in

  let* (phase, err) :=
    step "ReconcileFinalizer" (uncurry RetPhase)
      (ReconcileFinalizer inst (cfg_ProductName cfg)
        (let* (phase, err) :=
           teardownStep "RemoveNamespace(productNamespace)" (uncurry RetPhase)
             (lift (resources_RemoveNamespace E inst productNamespace)) in
         if halts phase err then ret (phase, err) else

         let* (phase, err) :=
           teardownStep "RemoveNamespace(operatorNamespace)" (uncurry RetPhase)
             (lift (resources_RemoveNamespace E inst operatorNamespace)) in
         if halts phase err then ret (phase, err) else

         let* err :=
           teardownStep "RemoveOauthClient" RetErr
             (lift (resources_RemoveOauthClient E (getOAuthClientName r cfg))) in
         if isErr err then ret (PhaseFailed, err) else

         let* (phase, err) :=
           teardownStep "deleteConsoleLink" (uncurry RetPhase)
             (lift (deleteConsoleLink r)) in
         if halts phase err then ret (phase, err) else

         ret (PhaseCompleted, None))) in
  if halts phase err then
    lift (events_HandleError phase "Failed to reconcile finalizer" err) ;;;
    ret (phase, err)
  else

  let* (phase, err) :=
    step "ReconcileNamespace(operatorNamespace)" (uncurry RetPhase)
      (lift (r_ReconcileNamespace E operatorNamespace inst)) in
  if halts phase err then
    lift (events_HandleError phase
            ("Failed to reconcile " +:+ operatorNamespace +:+ " ns") err) ;;;
    ret (phase, err)
  else

  let* (phase, err) :=
    step "ReconcileNamespace(productNamespace)" (uncurry RetPhase)
      (lift (r_ReconcileNamespace E productNamespace inst)) in
  if halts phase err then
    lift (events_HandleError phase
            ("Failed to reconcile " +:+ productNamespace +:+ " ns") err) ;;;
    ret (phase, err)
  else

  let* (phase, err) :=
    step "restoreSystemSecrets" (uncurry RetPhase) (lift (restoreSystemSecrets r inst)) in
  if halts phase err then
    lift (events_HandleError phase
            ("Failed to reconcile " +:+ productNamespace +:+ " ns") err) ;;;
    ret (phase, err)
  else

  let* err :=
    step "CopyPullSecretToNameSpace" RetErr
      (lift (resources_CopyPullSecretToNameSpace E (inst_PullSecretSpec inst)
               productNamespace registrySecretName)) in
  if isErr err then
    lift (events_HandleError phase "Failed to reconcile pull secret" err) ;;;
    ret (PhaseFailed, err)
  else

  let* (phase, err) :=
    step "reconcileSubscription" (uncurry RetPhase)
      (lift (reconcileSubscription r inst productNamespace operatorNamespace)) in
  if halts phase err then
    lift (events_HandleError phase
            ("Failed to reconcile " +:+ ThreeScaleSubscriptionName E +:+ " subscription")
            err) ;;;
    ret (phase, err)
  else

  let* halted :=
    match inst_DeletionTimestamp r.(installation) with
    | None =>
        let* (phase, err) :=
          step "reconcileSMTPCredentials" (uncurry RetPhase)
            (lift (reconcileSMTPCredentials r)) in
        if halts phase err then
          lift (events_HandleError phase "Failed to reconcile smtp credentials" err) ;;;
          ret (Some (phase, err))
        else

        let* (phase, err) :=
          step "reconcileExternalDatasources" (uncurry RetPhase)
            (lift (reconcileExternalDatasources r)) in
        if halts phase err then
          lift (events_HandleError phase "Failed to reconcile external data sources" err) ;;;
          ret (Some (phase, err))
        else

        let* (phase, err) :=
          step "reconcileBlobStorage" (uncurry RetPhase) (lift (reconcileBlobStorage r)) in
        if halts phase err then
          lift (events_HandleError phase "Failed to reconcile blob storage" err) ;;;
          ret (Some (phase, err))
        else
        ret None
    | Some _ => ret None
    end in
  match halted with
  | Some res => ret res
  | None =>

  let* (phase, err) :=
    step "reconcileComponents" (uncurry RetPhase) (lift (reconcileComponents r)) in
  if halts phase err then
    lift (events_HandleError phase "Failed to reconcile components" err) ;;;
    ret (phase, err)
  else

  let* (phase, err) :=
    step "reconcileRHSSOIntegration" (uncurry RetPhase)
      (lift (reconcileRHSSOIntegration r)) in
  if halts phase err then
    lift (events_HandleError phase "Failed to reconcile rhsso integration" err) ;;;
    ret (phase, err)
  else

  let* (phase, err) :=
    step "reconcileBlackboxTargets" (uncurry RetPhase)
      (lift (reconcileBlackboxTargets r inst)) in
  if halts phase err then
    lift (events_HandleError phase "Failed to reconcile blackbox targets" err) ;;;
    ret (phase, err)
  else

  let* (phase, err) :=
    step "reconcileOpenshiftUsers" (uncurry RetPhase)
      (lift (reconcileOpenshiftUsers r inst)) in
  if halts phase err then
    lift (events_HandleError phase "Failed to reconcile openshift users" err) ;;;
    ret (phase, err)
  else

  let* (clientSecret, err) :=
    step "getOauthClientSecret" (uncurry RetSecret) (lift (getOauthClientSecret r)) in
  if isErr err then
    lift (events_HandleError PhaseFailed "Failed to get oauth client secret" err) ;;;
    ret (PhaseFailed, err)
  else

  let* (threescaleMasterRoute, err) :=
    step "getThreescaleRoute(system-master)" (uncurry RetRoute)
      (lift (getThreescaleRoute r "system-master" None)) in
  match (if isErr err then None else threescaleMasterRoute) with
  | None => ret (PhaseFailed, err)
  | Some threescaleMasterRoute =>
  let* cfg := lift getConfig in
  let* (phase, err) :=
    step "ReconcileOauthClient" (uncurry RetPhase)
      (lift (r_ReconcileOauthClient E inst
               {| oauth_Name := getOAuthClientName r cfg;
                  oauth_Secret := clientSecret;
                  oauth_RedirectURIs :=
                    ["https://" +:+ route_Host threescaleMasterRoute] |})) in
  if halts phase err then
    lift (events_HandleError phase "Failed to reconcile oauth client" err) ;;;
    ret (phase, err)
  else

  let* (phase, err) :=
    step "reconcileServiceDiscovery" (uncurry RetPhase)
      (lift (reconcileServiceDiscovery r)) in
  if halts phase err then
    lift (events_HandleError phase "Failed to reconcile service discovery" err) ;;;
    ret (phase, err)
  else

  let* (phase, err) :=
    step "backupSystemSecrets" (uncurry RetPhase) (lift (backupSystemSecrets r inst)) in
  if halts phase err then
    lift (events_HandleError phase "Failed to reconcile templates" err) ;;;
    ret (phase, err)
  else

  let* (phase, err) :=
    step "reconcileRouteEditRole" (uncurry RetPhase) (lift (reconcileRouteEditRole r)) in
  if halts phase err then
    lift (events_HandleError phase "Failed to reconcile roles" err) ;;;
    ret (phase, err)
  else

  let* (phase, err) :=
    step "ReconcileAlerts" (uncurry RetPhase) (lift (alertsReconciler_ReconcileAlerts E)) in
  if halts phase err then
    lift (events_HandleError phase "Failed to reconcile threescale alerts" err) ;;;
    ret (phase, err)
  else

  let* (phase, err) :=
    step "reconcileConsoleLink" (uncurry RetPhase) (lift (reconcileConsoleLink r)) in
  if halts phase err then
    lift (events_HandleError phase "Failed to reconcile console link" err) ;;;
    ret (phase, err)
  else

  let* cfg := lift getConfig in
  setProduct (fun product =>
    {| ps_Name := ps_Name product;
       ps_Host := cfg_Host cfg;
       ps_Version := cfg_ProductVersion cfg;
       ps_OperatorVersion := cfg_OperatorVersion cfg |}) ;;;

  lift (events_HandleProductComplete (cfg_ProductName cfg)) ;;;
  ret (PhaseCompleted, None)
  end end.

(** The ordered step list of a pass, and that of its teardown.  The three
    provisioning steps are in the list only when [r.installation] has no
    deletion timestamp. *)
Definition stepList (r : Reconciler) : list string :=
  [ "ReconcileFinalizer"; "ReconcileNamespace(operatorNamespace)";
    "ReconcileNamespace(productNamespace)"; "restoreSystemSecrets";
    "CopyPullSecretToNameSpace"; "reconcileSubscription" ]
  ++ match inst_DeletionTimestamp r.(installation) with
     | None =>
         [ "reconcileSMTPCredentials"; "reconcileExternalDatasources";
           "reconcileBlobStorage" ]
     | Some _ => []
     end
  ++ [ "reconcileComponents"; "reconcileRHSSOIntegration"; "reconcileBlackboxTargets";
       "reconcileOpenshiftUsers"; "getOauthClientSecret";
       "getThreescaleRoute(system-master)"; "ReconcileOauthClient";
       "reconcileServiceDiscovery"; "backupSystemSecrets"; "reconcileRouteEditRole";
       "ReconcileAlerts"; "reconcileConsoleLink" ].

Definition teardownList : list string :=
  [ "RemoveNamespace(productNamespace)"; "RemoveNamespace(operatorNamespace)";
    "RemoveOauthClient"; "deleteConsoleLink" ].
End ThreeScale.
End ThreeScale.

(** * What a pass looks like from outside *)

(** A step makes [Reconcile] return at once when it comes back with an error
    that is not nil or, for a step that has a phase, with a phase other than
    Completed; the lookup of the master route also when it finds no route. *)
Definition halting (ret : StepReturn) : bool :=
  match ret with
  | RetPhase phase err => halts phase err
  | RetErr err => isErr err
  | RetSecret _ err => isErr err
  | RetRoute route err => isErr err || bool_decide (route = None)
  | RetPanic _ => false
  end.

(** What [Reconcile] hands back to its caller after a halting step: the pair of
    the step, [PhaseFailed] with the error when the step has no phase. *)
Definition handedBack (ret : StepReturn) : Result :=
  match ret with
  | RetPhase phase err => (phase, err)
  | RetErr err => (PhaseFailed, err)
  | RetSecret _ err => (PhaseFailed, err)
  | RetRoute _ err => (PhaseFailed, err)
  | RetPanic _ => (PhaseFailed, None)
  end.

(** The outcome of the pass that a step forces, if it forces one. *)
Definition stops (ret : StepReturn) : option (Res Result) :=
  match ret with
  | RetPanic msg => Some (Panic msg)
  | _ => if halting ret then Some (Ok (handedBack ret)) else None
  end.

Definition Completed : Res Result := Ok (PhaseCompleted, None).

(** [chain names evs res]: the steps [evs] ran in the order of [names]; the
    first one that stops the pass is the last one and decides the outcome
    [res]; when none stops it, all of [names] ran and the outcome is
    (Completed, nil). *)
Fixpoint chain (names : list string) (evs : list StepEvent) (res : Res Result)
    {struct evs} : Prop :=
  match evs with
  | [] => names = [] ∧ res = Completed
  | (n, ret) :: rest =>
      match names with
      | [] => False
      | n' :: names' =>
          n = n' ∧
          match stops ret with
          | Some r => rest = [] ∧ res = r
          | None => chain names' rest res
          end
      end
  end.

(** The outcome of the finalizer handler, as the entry of its step. *)
Definition finalizerEntry (res : Res Result) : StepEvent :=
  match res with
  | Ok (phase, err) => ("ReconcileFinalizer", RetPhase phase err)
  | Panic msg => ("ReconcileFinalizer", RetPanic msg)
  end.

(** What the finalizer handler hands back, for an installation with a
    deletion marker, from the outcome of the teardown. *)
Definition finalized (res : Res Result) : Res Result :=
  match res with
  | Ok (phase, err) => if halts phase err then res else Ok (PhaseInitial, None)
  | Panic _ => res
  end.

(** The assignments at the end of [Reconcile]. *)
Definition writtenBack (cfg : Config) (product : RHMIProductStatus) : RHMIProductStatus :=
  {| ps_Name := ps_Name product;
     ps_Host := cfg_Host cfg;
     ps_Version := cfg_ProductVersion cfg;
     ps_OperatorVersion := cfg_OperatorVersion cfg |}.

Definition other (lvl : Level) : Level :=
  match lvl with Forward => Teardown | Teardown => Forward end.

Section PassSpec.
Context {World : Type}.

(** A chain of steps of one level that ends in an outcome. *)
Definition ChainOK (lvl : Level) (names : list string)
    (Q : RHMIProductStatus -> PassState World -> Prop) (m : PassM World Result) : Prop :=
  ∀ ps, ∃ evs,
    logOf lvl (m ps).2 = logOf lvl ps ++ evs ∧
    logOf (other lvl) (m ps).2 = logOf (other lvl) ps ∧
    chain names evs (m ps).1 ∧
    ((m ps).1 ≠ Completed → product (m ps).2 = product ps) ∧
    ((m ps).1 = Completed → Q (product ps) (m ps).2).

(** A piece of [Reconcile] that returns [r] and runs no step. *)
Definition Quiet (r : Res Result) (m : PassM World Result) : Prop :=
  ∀ ps, (m ps).1 = r ∧ steps (m ps).2 = steps ps ∧ teardown (m ps).2 = teardown ps
        ∧ product (m ps).2 = product ps.

(** The body of a step: it logs nothing itself and leaves [product] alone. *)
Definition Inner {A} (m : PassM World A) : Prop :=
  ∀ ps, steps (m ps).2 = steps ps ∧ teardown (m ps).2 = teardown ps
        ∧ product (m ps).2 = product ps.

(** A piece of [Reconcile] between two steps: as [Inner], and it returns. *)
Definition Between {A} (m : PassM World A) : Prop :=
  ∀ ps, (∃ a, (m ps).1 = Ok a) ∧ steps (m ps).2 = steps ps
        ∧ teardown (m ps).2 = teardown ps ∧ product (m ps).2 = product ps.

(** The whole pass: the forward steps [evs] and the teardown steps [tevs] it
    ran, the outcome, [product], and how the finalizer relates the two
    lists. *)
Definition PassSpec (inst : RHMI) (names tnames : list string)
    (m : PassM World Result) : Prop :=
  ∀ ps, ∃ evs tevs,
    steps (m ps).2 = steps ps ++ evs ∧
    teardown (m ps).2 = teardown ps ++ tevs ∧
    chain names evs (m ps).1 ∧
    ((m ps).1 ≠ Completed → product (m ps).2 = product ps) ∧
    ((m ps).1 = Completed →
      product (m ps).2 = writtenBack (config (st (m ps).2)) (product ps)) ∧
    match inst_DeletionTimestamp inst with
    | None => tevs = []
    | Some _ => ∃ fres, evs = [finalizerEntry (finalized fres)] ∧ chain tnames tevs fres
    end.
End PassSpec.


(** A step came back and lets the pass go on: Completed with a nil error, a nil
    error alone for a step without a phase, a route for the route lookup. *)
Definition completes (ret : StepReturn) : bool :=
  match ret with
  | RetPanic _ => false
  | _ => negb (halting ret)
  end.

(** ** The user difference, in the words of the claim *)

(** Two user names are the same up to the case of their letters. *)
Definition caseInsensitiveEqual (a b : string) : Prop := ToLower a = ToLower b.

#[global] Instance caseInsensitiveEqual_dec a b : Decision (caseInsensitiveEqual a b).
Proof. unfold caseInsensitiveEqual. apply _. Defined.

(** The added users are the keycloak users whose name is that of no 3scale
    user, the deleted users the 3scale users whose name is that of no keycloak
    user, each in the order of its input. *)
Definition userDiffSpec (kcUsers : list KeycloakAPIUser) (tsUsers : list User)
  : list KeycloakAPIUser * list User :=
  (filter (λ kc, Forall (λ ts, ¬ caseInsensitiveEqual (UserName kc) (Username ts)) tsUsers)
          kcUsers,
   filter (λ ts, Forall (λ kc, ¬ caseInsensitiveEqual (Username ts) (UserName kc)) kcUsers)
          tsUsers).

(** ** Writes to the configuration store *)

Definition isWriteConfig (e : Event) : bool :=
  match e with EvWriteConfig _ _ => true | _ => false end.

(** How many times a stretch of the log wrote the configuration. *)
Definition countWrites (l : list Event) : nat := List.length (List.filter isWriteConfig l).

(** ** Calls that fail *)

(** A call that answered with an error, or with a phase other than Completed
    for the helpers that answer with a phase. *)
Definition failed (e : Event) : bool :=
  match e with
  | EvGet _ _ (inl _) | EvList _ _ (inl _) | EvCreate _ (inl _) | EvUpdate _ (inl _) => true
  | EvDelete _ (Some _) => true
  | EvRemoveNamespace _ (phase, err) | EvReconcileNamespace _ (phase, err)
  | EvReconcileSubscription _ _ _ _ (phase, err) | EvReconcileOauthClient _ (phase, err)
  | EvReconcileRedisAlerts _ (phase, err) | EvReconcilePostgresAlerts _ (phase, err)
  | EvReconcileAlerts (phase, err) => halts phase err
  | EvRemoveOauthClient _ (Some _) | EvCopyPullSecretToNameSpace _ _ _ (Some _)
  | EvCopySecret _ _ _ _ (Some _) | EvCreateRedisCpuUsageAlerts _ (Some _)
  | EvExecuteRemoteCommand _ _ _ (_, _, Some _) => true
  | EvReconcileBlobStorage _ _ (inl _) | EvReconcileRedis _ _ (inl _)
  | EvReconcilePostgres _ _ (inl _) => true
  | EvReadRHSSO (inl _) | EvReadMonitoring (inl _) | EvWriteConfig _ (Some _) => true
  | EvGetAuthenticationProviderByName _ _ (Some _) | EvAddAuthenticationProvider _ _ (inl _)
  | EvGetUsers _ (inl _) | EvAddUser _ _ _ _ (inl _) | EvDeleteUser _ _ (inl _)
  | EvSetUserAsAdmin _ _ (inl _) | EvGetKeycloakUsers _ (inl _)
  | EvCreateBlackboxTarget _ _ _ (Some _) | EvInstantiate _ _ (Some _)
  | EvRandRead _ (inl _) => true
  | _ => false
  end.

(** ** The provisioning requests of 3scale *)

(** The requests that [reconcileBlobStorage] and
    [reconcileExternalDatasources] make to the cloud-resource operator, with
    the arguments they pass. *)
Definition blobStorageRequest {World} (E : Env World) (r : ThreeScale.Reconciler)
  : World -> (Err + BlobStorage) * World :=
  ReconcileBlobStorage E ThreeScale.defaultInstallationNamespace
    (inst_Type (ThreeScale.installation r)) (TierProduction E)
    (ThreeScaleBlobStoragePrefix E +:+ inst_Name (ThreeScale.installation r))
    (inst_Namespace (ThreeScale.installation r))
    (ThreeScaleBlobStoragePrefix E +:+ inst_Name (ThreeScale.installation r))
    (inst_Namespace (ThreeScale.installation r))
    (fun cr => AddIntegreatlyOwnerAnnotations E cr (ThreeScale.installation r)).

Definition backendRedisRequest {World} (E : Env World) (r : ThreeScale.Reconciler)
  : World -> (Err + Redis) * World :=
  ReconcileRedis E ThreeScale.defaultInstallationNamespace
    (inst_Type (ThreeScale.installation r)) (TierProduction E)
    (ThreeScaleBackendRedisPrefix E +:+ "rhmi")
    (inst_Namespace (ThreeScale.installation r))
    (ThreeScaleBackendRedisPrefix E +:+ "rhmi")
    (inst_Namespace (ThreeScale.installation r))
    (fun cr => AddIntegreatlyOwnerAnnotations E cr (ThreeScale.installation r)).

Definition systemRedisRequest {World} (E : Env World) (r : ThreeScale.Reconciler)
  : World -> (Err + Redis) * World :=
  ReconcileRedis E ThreeScale.defaultInstallationNamespace
    (inst_Type (ThreeScale.installation r)) (TierProduction E)
    (ThreeScaleSystemRedisPrefix E +:+ "rhmi")
    (inst_Namespace (ThreeScale.installation r))
    (ThreeScaleSystemRedisPrefix E +:+ "rhmi")
    (inst_Namespace (ThreeScale.installation r))
    (fun cr => AddIntegreatlyOwnerAnnotations E cr (ThreeScale.installation r)).

(** ** The SMTP fields *)

(** The seven fields that [reconcileSMTPCredentials] compares, each with the
    key it has in the incoming credentials secret and the key it has in the
    [system-smtp] secret. *)
Definition smtpFields : list (string * string) :=
  [("host", "address"); ("authentication", "authentication"); ("domain", "domain");
   ("openssl.verify.mode", "openssl.verify.mode"); ("password", "password");
   ("port", "port"); ("username", "username")].

(** Some field of the incoming credentials is not the stored one. *)
Definition smtpDiffers (credSec stored : Secret) : bool :=
  existsb (fun p => bool_decide (mapGet (secret_Data credSec) p.1
                                 ≠ mapGet (secret_Data stored) p.2))
    smtpFields.

(** Every field of [written] is the one of the incoming credentials. *)
Definition smtpSynced (credSec written : Secret) : Prop :=
  Forall (fun p => mapGet (secret_Data written) p.2 = mapGet (secret_Data credSec) p.1)
    smtpFields.

(** The comparisons of [reconcileSMTPCredentials], over a list of fields. *)
Definition syncAll (credSec : Secret) (fields : list (string * string))
    (acc : gmap string string * bool) : gmap string string * bool :=
  foldl (fun acc p => ThreeScale.syncSMTPField credSec p.1 p.2 acc) acc fields.

Definition isRollout (e : Event) : bool :=
  match e with EvInstantiate _ _ _ => true | _ => false end.

(** ** User synchronisation and the system admin *)

(** A call to delete a user is for a user of [users] whose user name is not
    [admin]. *)
Definition deletesOnly (users : list User) (admin : string) (e : Event) : Prop :=
  match e with
  | EvDeleteUser id _ _ => ∃ u, u ∈ users ∧ Id u = id ∧ Username u ≠ admin
  | _ => True
  end.

(** A call to make a user an admin is for a user of [users] whose user name is
    not [admin]. *)
Definition promotesOnly (users : list User) (admin : string) (e : Event) : Prop :=
  match e with
  | EvSetUserAsAdmin id _ _ => ∃ u, u ∈ users ∧ Id u = id ∧ Username u ≠ admin
  | _ => True
  end.

(** ** The log of calls of a method *)

(** Every call that [m] adds to the log satisfies [P]. *)
Definition Emits {World A} (P : Event -> Prop) (m : M World A) : Prop :=
  ∀ s, ∃ new, calls (m s).2 = calls s ++ new ∧ Forall P new.

(** [m] leaves the product configuration in memory as it is. *)
Definition KeepsConfig {World A} (m : M World A) : Prop :=
  ∀ s, config (m s).2 = config s.

(** ** What a method returns *)

(** Every call that [m] adds to the log satisfies [P], and when [m] returns
    (it may panic instead) what it returns satisfies [Q]. *)
Definition Returns {World A} (P : Event -> Prop) (Q : A -> Prop) (m : M World A) : Prop :=
  ∀ s, ∃ new, calls (m s).2 = calls s ++ new ∧ Forall P new
              ∧ ∀ a, (m s).1 = Ok a → Q a.

(** A result that a caller can take at its word: no error comes together with
    Completed. *)
Definition sound (res : Result) : Prop := res.1 = PhaseCompleted → res.2 = None.


(** The nine replica counts of an API manager. *)
Definition replicaCounts (spec : APIManagerSpec) : list (option Z) :=
  [ am_SystemApp spec; am_SystemSidekiq spec; am_ApicastProduction spec;
    am_ApicastStaging spec; am_BackendListener spec; am_BackendWorker spec;
    am_BackendCron spec; am_ZyncApp spec; am_ZyncQue spec ].

(** What [reconcileComponents] of 3scale asks of the API manager it writes. *)
Definition highlyAvailable (inst : RHMI) (spec : APIManagerSpec) : Prop :=
  am_HighAvailability spec = true
  ∧ am_PodDisruptionBudget spec = true
  ∧ am_WildcardDomain spec = inst_RoutingSubdomain inst
  ∧ Forall (fun n => ∃ k, n = Some k ∧ 2 ≤ k) (replicaCounts spec).

(** A write of an API manager is one of a highly available one. *)
Definition writesAvailable (inst : RHMI) (e : Event) : Prop :=
  match e with
  | EvCreate (AAPIManager a) _ | EvUpdate (AAPIManager a) _ =>
      highlyAvailable inst (apim_Spec a)
  | _ => True
  end.

(** When [m] returns [a], the calls [new] it has added to the log and [a]
    satisfy [Q]. *)
Definition Ends {World A} (Q : list Event -> A -> Prop) (m : M World A) : Prop :=
  ∀ s a, (m s).1 = Ok a → ∃ new, calls (m s).2 = calls s ++ new ∧ Q new a.

(** The product namespace was listed with at least six routes in it. *)
Definition sixRoutes (new : list Event) : Prop :=
  ∃ opts routes, EvList KRoute opts (inr (ARoute <$> routes)) ∈ new
                 ∧ list_LabelSelector opts = None ∧ (6 ≤ List.length routes)%nat.

(** A call to add a user to 3scale is for a keycloak user that no 3scale user
    matches, with the user name and the email in lower case and no
    password. *)
Definition addsOnly (kcUsers : list KeycloakAPIUser) (tsUsers : list User) (e : Event)
  : Prop :=
  match e with
  | EvAddUser username email password _ _ =>
      ∃ kc, kc ∈ kcUsers
            ∧ Forall (fun ts => ¬ caseInsensitiveEqual (UserName kc) (Username ts)) tsUsers
            ∧ username = ToLower (UserName kc) ∧ email = ToLower (Email kc)
            ∧ password = ""
  | _ => True
  end.

(** A keycloak user resource that is written is that of one of the keycloak
    users, marked as created in 3scale. *)
Definition marksCreated (kcUsers : list KeycloakAPIUser) (e : Event) : Prop :=
  match e with
  | EvCreate (AKeycloakUser k) _ | EvUpdate (AKeycloakUser k) _ =>
      ∃ kc u attrs,
        kc ∈ kcUsers ∧ kcuser_User k = Some u
        ∧ UserName u = UserName kc ∧ Email u = Email kc
        ∧ Attributes u = Some attrs ∧ attrs !! "3scale_user_created" = Some ["true"]
  | _ => True
  end.

(** The 3scale users that [syncOpenshiftAdminMembership] asks 3scale to make
    admins, in the order of the calls. *)
Definition toPromote (group : Group) (admin : string) (isWorkshop : bool)
    (adminRole : string) (users : list User) : list User :=
  List.filter (fun u => negb (bool_decide (Username u = admin))
                        && ((ThreeScale.userIsOpenshiftAdmin u group || isWorkshop)
                            && bool_decide (UserRole u ≠ adminRole))) users.

(** The call that made [u] an admin. *)
Definition promoted (token : string) (u : User) : Event :=
  EvSetUserAsAdmin (Id u) token (inr StatusOK).

(** The configuration holds the versions of 3scale that this operator
    installs. *)
Definition versionsSet {World} (E : Env World) (cfg : Config) : Prop :=
  cfg_ProductVersion cfg = Version3Scale E
  ∧ cfg_OperatorVersion cfg = OperatorVersion3Scale E.

(** From a state that satisfies [I], a pass that comes back with
    (Completed, nil) ends in a state of the pass that satisfies [Q]. *)
Definition CompletesWith {World} (I : State World -> Prop) (Q : PassState World -> Prop)
    (m : PassM World Result) : Prop :=
  ∀ ps, I (st ps) → (m ps).1 = Ok (PhaseCompleted, None) → Q (m ps).2.

(** The log ends with the lookup of the Grafana route and the write of the
    configuration that holds its host, and then [tail]. *)
Definition hostWritten {World} (tail : list Event) (s : State World) : Prop :=
  ∃ pre ns route cfg,
    calls s = pre ++ EvGet KRoute {| key_Name := Grafana.defaultRoutename;
                                     key_Namespace := ns |} (inr (ARoute route))
                  :: EvWriteConfig cfg None :: tail
    ∧ cfg_Host cfg = "https://" +:+ route_Host route
    ∧ cfg_Host (config s) = "https://" +:+ route_Host route.

(** [SetAdminDetailsOnSecret] of the 3scale reconciler.  The secret [s] starts
    with a nil [Data]: the two assignments of the callback panic unless the
    lookup of [CreateOrUpdate] has filled it. *)
Definition SetAdminDetailsOnSecret {World} (E : Env World) (r : ThreeScale.Reconciler)
    (username email : string) : M World error :=
  let* cfg := getConfig in
  let s := {| secret_meta := mkMeta "system-seed" (cfg_Namespace cfg);
              secret_Data := None |} in

  let* (_, _, err) := CreateOrUpdate E s (fun s =>
    match secret_Data s with
    | None => panic "assignment to entry in nil map"
    | Some data =>
        ret ({| secret_meta := secret_meta s;
                secret_Data :=
                  Some (<["ADMIN_EMAIL" := email]> (<["ADMIN_USER" := username]> data)) |},
             None)
    end) in

  if isErr err then ret err else
  ret None.

(** The key of the credentials secret that a cloud resource refers to. *)
Definition refKey (ref : SecretRef) : ObjectKey :=
  {| key_Name := ref_Name ref; key_Namespace := ref_Namespace ref |}.

(** What the connection secrets of 3scale hold, from the credentials [cred]
    of the cloud resource. *)
Definition backendRedisConnection (cred o : Secret) : Prop :=
  let uri := mapGet (secret_Data cred) "uri" in
  let port := mapGet (secret_Data cred) "port" in
  mapGet (secret_Data o) "REDIS_STORAGE_URL" = "redis://" +:+ uri +:+ ":" +:+ port +:+ "/0"
  ∧ mapGet (secret_Data o) "REDIS_QUEUES_URL" = "redis://" +:+ uri +:+ ":" +:+ port +:+ "/1".

Definition systemRedisConnection (cred o : Secret) : Prop :=
  let uri := mapGet (secret_Data cred) "uri" in
  let port := mapGet (secret_Data cred) "port" in
  mapGet (secret_Data o) "URL" = "redis://" +:+ uri +:+ ":" +:+ port +:+ "/1"
  ∧ mapGet (secret_Data o) "MESSAGE_BUS_URL" = "redis://" +:+ uri +:+ ":" +:+ port +:+ "/1".

Definition postgresConnection (cred o : Secret) : Prop :=
  let get := mapGet (secret_Data cred) in
  mapGet (secret_Data o) "URL"
  = "postgresql://" +:+ get "username" +:+ ":" +:+ get "password" +:+ "@" +:+ get "host"
    +:+ ":" +:+ get "port" +:+ "/" +:+ get "database"
  ∧ mapGet (secret_Data o) "DB_USER" = get "username"
  ∧ mapGet (secret_Data o) "DB_PASSWORD" = get "password".

(** No other entry of [data] is copied under the key that the entry [key] is
    copied under. *)
Definition copiedAlone (data : gmap string string) (key : string) : Prop :=
  ∀ key', is_Some (data !! key') → ThreeScale.s3Key key' = ThreeScale.s3Key key → key' = key.

(** ** The constructors of the reconcilers *)

Definition SetNamespace (ns : string) (c : Config) : Config :=
  {| cfg_ProductName := cfg_ProductName c; cfg_Namespace := ns;
     cfg_OperatorNamespace := cfg_OperatorNamespace c; cfg_Host := cfg_Host c;
     cfg_ProductVersion := cfg_ProductVersion c;
     cfg_OperatorVersion := cfg_OperatorVersion c;
     cfg_BlackboxTargetPathForAdminUI := cfg_BlackboxTargetPathForAdminUI c |}.

Definition SetOperatorNamespace (ns : string) (c : Config) : Config :=
  {| cfg_ProductName := cfg_ProductName c; cfg_Namespace := cfg_Namespace c;
     cfg_OperatorNamespace := ns; cfg_Host := cfg_Host c;
     cfg_ProductVersion := cfg_ProductVersion c;
     cfg_OperatorVersion := cfg_OperatorVersion c;
     cfg_BlackboxTargetPathForAdminUI := cfg_BlackboxTargetPathForAdminUI c |}.

Definition SetBlackboxTargetPathForAdminUI (path : string) (c : Config) : Config :=
  {| cfg_ProductName := cfg_ProductName c; cfg_Namespace := cfg_Namespace c;
     cfg_OperatorNamespace := cfg_OperatorNamespace c; cfg_Host := cfg_Host c;
     cfg_ProductVersion := cfg_ProductVersion c;
     cfg_OperatorVersion := cfg_OperatorVersion c;
     cfg_BlackboxTargetPathForAdminUI := path |}.

(** [NewReconciler] of Grafana.  [read] is what [configManager.ReadGrafana()]
    answered; the configuration it answers becomes the [Config] of the new
    reconciler, which is the [config] of the state. *)
Module GrafanaNew.
Section GrafanaNew.
Context {World : Type} (E : Env World).

Definition NewReconciler (inst : RHMI) (read : Err + Config)
  : M World (Err + Grafana.Reconciler) :=
  let ns := inst_NamespacePrefix inst +:+ Grafana.defaultInstallationNamespace in
  match read with
  | inl err => ret (inl (ErrWrap "could not retrieve threescale config" err))
  | inr config =>
  setConfig (fun _ => config) ;;;
  let* cfg := getConfig in
  (if bool_decide (cfg_Namespace cfg = "") then
     setConfig (SetNamespace ns) ;;;
     let* _ := ConfigManager_WriteConfig E in
     ret tt
   else ret tt) ;;;
  let* cfg := getConfig in
  (if bool_decide (cfg_OperatorNamespace cfg = "") then
     if inst_OperatorsInProductNamespace inst then
       setConfig (SetOperatorNamespace (cfg_Namespace cfg))
     else
       setConfig (SetOperatorNamespace (cfg_Namespace cfg +:+ "-operator"))
   else ret tt) ;;;

  ret (inr {| Grafana.installation := inst |})
  end.
End GrafanaNew.
End GrafanaNew.

(** [NewReconciler] of 3scale, likewise, from what
    [configManager.ReadThreeScale()] answered. *)
Module ThreeScaleNew.
Section ThreeScaleNew.
Context {World : Type} (E : Env World).

Definition NewReconciler (inst : RHMI) (read : Err + Config)
  : M World (Err + ThreeScale.Reconciler) :=
  let ns := inst_NamespacePrefix inst +:+ ThreeScale.defaultInstallationNamespace in
  match read with
  | inl err => ret (inl (ErrWrap "could not retrieve threescale config" err))
  | inr config =>
  setConfig (fun _ => config) ;;;
  let* cfg := getConfig in
  (if bool_decide (cfg_Namespace cfg = "") then
     setConfig (SetNamespace ns) ;;;
     let* _ := ConfigManager_WriteConfig E in
     ret tt
   else ret tt) ;;;
  let* cfg := getConfig in
  (if bool_decide (cfg_OperatorNamespace cfg = "") then
     if inst_OperatorsInProductNamespace inst then
       setConfig (SetOperatorNamespace (cfg_Namespace cfg))
     else
       setConfig (SetOperatorNamespace (cfg_Namespace cfg +:+ "-operator"))
   else ret tt) ;;;
  setConfig (SetBlackboxTargetPathForAdminUI "/p/login/") ;;;

  ret (inr {| ThreeScale.installation := inst |})
  end.
End ThreeScaleNew.
End ThreeScaleNew.

(** What a constructor leaves behind, from the configuration [read] and the
    default product namespace [ns]: both namespaces are set, one that was set
    is kept, and the configuration is written once, with the product
    namespace alone filled in, exactly when the product namespace was
    empty. *)
Definition namespacesSet {World} (ns : string) (read : Config) (s final : State World)
  : Prop :=
  cfg_Namespace (config final) ≠ ""
  ∧ cfg_OperatorNamespace (config final) ≠ ""
  ∧ cfg_Namespace (config final)
    = (if bool_decide (cfg_Namespace read = "") then ns else cfg_Namespace read)
  ∧ (cfg_OperatorNamespace read ≠ "" →
     cfg_OperatorNamespace (config final) = cfg_OperatorNamespace read)
  ∧ ∃ written,
      calls final = calls s ++ written
      ∧ if bool_decide (cfg_Namespace read = "")
        then ∃ resp, written = [EvWriteConfig (SetNamespace ns read) resp]
        else written = [].

(** A blackbox target that [reconcileBlackboxTargets] creates: the admin UI
    under the host of the configuration [cfg], the developer console and the
    master console under the host of the first route that its listing in
    [new] holds for it. *)
Definition targetOf (cfg : Config) (new : list Event) (e : Event) : Prop :=
  match e with
  | EvCreateBlackboxTarget name url service _ =>
      (name = "integreatly-3scale-admin-ui" ∧ service = "3scale-admin-ui"
       ∧ url = cfg_Host cfg +:+ "/" +:+ cfg_BlackboxTargetPathForAdminUI cfg)
      ∨ (name = "integreatly-3scale-system-developer"
         ∧ service = "3scale-developer-console-ui"
         ∧ ∃ opts before route after,
             EvList KRoute opts (inr (ARoute <$> before ++ route :: after)) ∈ new
             ∧ HasPrefix (route_Host route) "3scale." = true
             ∧ Forall (fun x => HasPrefix (route_Host x) "3scale." = false) before
             ∧ url = "https://" +:+ route_Host route)
      ∨ (name = "integreatly-3scale-system-master" ∧ service = "3scale-system-admin-ui"
         ∧ ∃ opts route rest,
             EvList KRoute opts (inr (ARoute <$> route :: rest)) ∈ new
             ∧ url = "https://" +:+ route_Host route)
  | _ => True
  end.

(** The messages of the failures that [reconcileExternalDatasources] of 3scale
    returns before it tests the phase of the system redis, the failed request
    for the system redis apart. *)
Definition failsBeforeSystemRedis : list string :=
  [ "failed to reconcile backend redis request";
    "failed to reconcile postgres request";
    "failed to reconcile redis alerts";
    "failed to create backend redis prometheus Cpu usage high alerts for threescale";
    "failed to get backend redis credential secret";
    "failed to create or update 3scale " +:+ ThreeScale.externalBackendRedisSecretName
      +:+ " connection secret" ].

(** * A small cluster to run the reconcilers on *)

(** The collaborators over a store of objects, with a few knobs: what the
    namespace helpers and the cloud-resource requests answer, which [Get]
    fails, the users on both sides, and after how many listings the routes to
    system-master are gone (another actor deleting them during the pass). *)
Module Fake.
Record World := { objects : list AnyObject; masterListings : nat }.

Record Scenario := {
  removeNamespace : string -> Result;
  reconcileNamespace : string -> Result;
  redis : string -> Err + Redis;
  postgres : Err + Postgres;
  blobStorage : Err + BlobStorage;
  redisAlerts : Redis -> Result;
  getFails : Kind -> ObjectKey -> option Err;
  keycloakUsers : list KeycloakAPIUser;
  tsUsers : list User;
  masterRouteLifetime : option nat;
}.

(** Change one knob of a scenario. *)
Definition withReconcileNamespace (f : string -> Result) (sc : Scenario) : Scenario :=
  {| removeNamespace := removeNamespace sc; reconcileNamespace := f;
     redis := redis sc; postgres := postgres sc; blobStorage := blobStorage sc;
     redisAlerts := redisAlerts sc; getFails := getFails sc;
     keycloakUsers := keycloakUsers sc; tsUsers := tsUsers sc;
     masterRouteLifetime := masterRouteLifetime sc |}.

Definition withRemoveNamespace (f : string -> Result) (sc : Scenario) : Scenario :=
  {| removeNamespace := f; reconcileNamespace := reconcileNamespace sc;
     redis := redis sc; postgres := postgres sc; blobStorage := blobStorage sc;
     redisAlerts := redisAlerts sc; getFails := getFails sc;
     keycloakUsers := keycloakUsers sc; tsUsers := tsUsers sc;
     masterRouteLifetime := masterRouteLifetime sc |}.

Definition withRedis (f : string -> Err + Redis) (sc : Scenario) : Scenario :=
  {| removeNamespace := removeNamespace sc; reconcileNamespace := reconcileNamespace sc;
     redis := f; postgres := postgres sc; blobStorage := blobStorage sc;
     redisAlerts := redisAlerts sc; getFails := getFails sc;
     keycloakUsers := keycloakUsers sc; tsUsers := tsUsers sc;
     masterRouteLifetime := masterRouteLifetime sc |}.

Definition withBlobStorage (b : Err + BlobStorage) (sc : Scenario) : Scenario :=
  {| removeNamespace := removeNamespace sc; reconcileNamespace := reconcileNamespace sc;
     redis := redis sc; postgres := postgres sc; blobStorage := b;
     redisAlerts := redisAlerts sc; getFails := getFails sc;
     keycloakUsers := keycloakUsers sc; tsUsers := tsUsers sc;
     masterRouteLifetime := masterRouteLifetime sc |}.

Definition withMasterRouteLifetime (n : option nat) (sc : Scenario) : Scenario :=
  {| removeNamespace := removeNamespace sc; reconcileNamespace := reconcileNamespace sc;
     redis := redis sc; postgres := postgres sc; blobStorage := blobStorage sc;
     redisAlerts := redisAlerts sc; getFails := getFails sc;
     keycloakUsers := keycloakUsers sc; tsUsers := tsUsers sc;
     masterRouteLifetime := n |}.

Definition metaOfAny (a : AnyObject) : ObjectMeta :=
  match a with
  | ASecret o => metaOf o
  | AConfigMap o => metaOf o
  | ARoute o => metaOf o
  | APod o => metaOf o
  | AGroup o => metaOf o
  | ABlobStorage o => metaOf o
  | AGrafana o => metaOf o
  | AAPIManager o => metaOf o
  | AKeycloakUser o => metaOf o
  | AKeycloakClient o => metaOf o
  | ARole o => metaOf o
  | ARoleBinding o => metaOf o
  | AConsoleLink o => metaOf o
  end.

Section Store.
Context {T : Type} `{K8sObject T}.

Definition here (key : ObjectKey) (a : AnyObject) : bool :=
  match fromAny (T := T) a with
  | Some _ => bool_decide (keyOfMeta (metaOfAny a) = key)
  | None => false
  end.

Fixpoint find (key : ObjectKey) (objs : list AnyObject) : option T :=
  match objs with
  | [] => None
  | a :: rest =>
      if here key a then fromAny a else find key rest
  end.

Definition get (sc : Scenario) (key : ObjectKey) (w : World) : (Err + T) * World :=
  match getFails sc (kindOf T) key with
  | Some e => (inl e, w)
  | None =>
      match find key (objects w) with
      | Some o => (inr o, w)
      | None => (inl (ErrNotFound (key_Name key)), w)
      end
  end.

Definition selected (opts : ListOptions) (o : T) : bool :=
  let meta := metaOf o in
  (bool_decide (list_Namespace opts = "") || bool_decide (Namespace meta = list_Namespace opts))
  && match list_LabelSelector opts with
     | None => true
     | Some selector =>
         match Labels meta !! "zync.3scale.net/route-to" with
         | Some v => bool_decide ("zync.3scale.net/route-to=" +:+ v = selector)
         | None => false
         end
     end
  && forallb (fun '(k, v) => bool_decide (Labels meta !! k = Some v))
             (map_to_list (list_MatchingLabels opts)).

Definition list (sc : Scenario) (opts : ListOptions) (w : World)
  : (Err + list T) * World :=
  let found := filter (fun o => selected opts o = true) (omap fromAny (objects w)) in
  if bool_decide (list_LabelSelector opts = Some "zync.3scale.net/route-to=system-master")
  then
    let w' := {| objects := objects w; masterListings := S (masterListings w) |} in
    match masterRouteLifetime sc with
    | Some n =>
        if bool_decide (n ≤ masterListings w)%nat then (inr [], w') else (inr found, w')
    | None => (inr found, w')
    end
  else (inr found, w).

Definition create (o : T) (w : World) : (Err + T) * World :=
  (inr o, {| objects := objects w ++ [toAny o]; masterListings := masterListings w |}).

Definition update (o : T) (w : World) : (Err + T) * World :=
  let key := keyOfMeta (metaOf o) in
  (inr o,
   {| objects := (fun a => if here key a then toAny o else a) <$> objects w;
      masterListings := masterListings w |}).

Definition delete (o : T) (w : World) : error * World :=
  let key := keyOfMeta (metaOf o) in
  match find key (objects w) with
  | Some _ =>
      (None, {| objects := filter (fun a => here key a = false) (objects w);
                masterListings := masterListings w |})
  | None => (Some (ErrNotFound (key_Name key)), w)
  end.
End Store.

Definition env (sc : Scenario) : Env World := {|
  clientGet := fun T _ => get sc;
  clientList := fun T _ => list sc;
  clientCreate := fun T _ => create;
  clientUpdate := fun T _ => update;
  clientDelete := fun T _ => delete;
  RemoveNamespace := fun _ ns w => (removeNamespace sc ns, w);
  ReconcileNamespace := fun ns _ w => (reconcileNamespace sc ns, w);
  RemoveOauthClient := fun _ w => (None, w);
  CopyPullSecretToNameSpace := fun _ _ _ w => (None, w);
  CopySecret := fun _ _ _ _ w => (None, w);
  ReconcileSubscription := fun _ _ _ _ w => ((PhaseCompleted, None), w);
  ReconcileOauthClient := fun _ _ w => ((PhaseCompleted, None), w);
  ReconcileRedisAlerts := fun _ cr w => (redisAlerts sc cr, w);
  CreateRedisCpuUsageAlerts := fun _ _ w => (None, w);
  ReconcilePostgresAlerts := fun _ _ w => ((PhaseCompleted, None), w);
  ExecuteRemoteCommand := fun _ _ _ w => (("", "", None), w);
  addOwnerAnnotations := fun annotations inst =>
    <["integreatly-namespace" := inst_Namespace inst]>
      (<["integreatly-name" := inst_Name inst]> annotations);
  ReconcileBlobStorage := fun _ _ _ _ _ _ _ _ w => (blobStorage sc, w);
  ReconcileRedis := fun _ _ _ name _ _ _ _ w => (redis sc name, w);
  ReconcilePostgres := fun _ _ _ _ _ _ _ _ w => (postgres sc, w);
  ReadRHSSO := fun w =>
    (inr {| rhsso_Namespace := "rhsso"; rhsso_Realm := "openshift";
            rhsso_Host := "https://sso.example" |}, w);
  ReadMonitoring := fun w => (inr {| monitoring_Namespace := "monitoring" |}, w);
  WriteConfig := fun _ w => (None, w);
  GetOauthClientsSecretName := "oauth-client-secrets";
  GetOperatorNamespace := "rhmi-operator";
  GetAuthenticationProviderByName := fun _ _ w => (None, w);
  AddAuthenticationProvider := fun _ _ w => (inr StatusCreated, w);
  GetUsers := fun _ w => (inr (tsUsers sc), w);
  AddUser := fun _ _ _ _ w => (inr StatusCreated, w);
  DeleteUser := fun _ _ w => (inr StatusOK, w);
  SetUserAsAdmin := fun _ _ w => (inr StatusOK, w);
  tsIsNotFoundError := fun _ => false;
  adminRole := "admin";
  GetKeycloakUsers := fun _ w => (inr (keycloakUsers sc), w);
  GetValidGeneratedUserName := fun u => "generated-" +:+ ToLower (UserName u);
  CreateBlackboxTarget := fun _ _ _ _ _ w => (None, w);
  ReconcileAlerts := fun w => ((PhaseCompleted, None), w);
  Instantiate := fun _ _ w => (None, w);
  randRead := fun _ w => (inr "0123456789", w);
  base64Encode := fun s => s;
  labels_Parse := fun s => inr s;
  GetInstanceLabels := {[ "sso" := "integreatly" ]};
  VersionGrafana := "6.5.1";
  Version3Scale := "2.8";
  OperatorVersion3Scale := "0.5.0";
  InstallationTypeWorkshop := "workshop";
  GrafanaSubscriptionName := "integreatly-grafana";
  ThreeScaleSubscriptionName := "integreatly-3scale";
  IntegreatlyChannel := "integreatly";
  CatalogSourceName := "rhmi-registry-cs";
  TierProduction := "production";
  ThreeScaleBlobStoragePrefix := "threescale-blobstorage-";
  ThreeScaleBackendRedisPrefix := "threescale-backend-redis-";
  ThreeScaleSystemRedisPrefix := "threescale-redis-";
  ThreeScalePostgresPrefix := "threescale-postgres-";
  PostgresSnapshotType := "postgres";
  RedisSnapshotType := "redis";
|}.
End Fake.

(** ** Scenarios *)

Module Demo.
Definition installation : RHMI :=
  {| inst_Name := "rhmi"; inst_Namespace := "rhmi-operator";
     inst_DeletionTimestamp := None; inst_NamespacePrefix := "rhmi-";
     inst_OperatorsInProductNamespace := false; inst_Type := "managed";
     inst_RoutingSubdomain := "apps.example"; inst_SMTPSecret := "rhmi-smtp";
     inst_UseClusterStorage := "true";
     inst_PullSecretSpec := {| key_Name := "pull-secret"; key_Namespace := "openshift-config" |};
     inst_Products := ∅ |}.

(** The same installation once its deletion has been requested. *)
Definition deleted : RHMI :=
  {| inst_Name := "rhmi"; inst_Namespace := "rhmi-operator";
     inst_DeletionTimestamp := Some 1600000000; inst_NamespacePrefix := "rhmi-";
     inst_OperatorsInProductNamespace := false; inst_Type := "managed";
     inst_RoutingSubdomain := "apps.example"; inst_SMTPSecret := "rhmi-smtp";
     inst_UseClusterStorage := "true";
     inst_PullSecretSpec := {| key_Name := "pull-secret"; key_Namespace := "openshift-config" |};
     inst_Products := ∅ |}.

Definition provisioned (name : string) : Redis :=
  {| redis_meta := mkMeta name "rhmi-operator"; redis_Phase := PhaseComplete;
     redis_SecretRef := {| ref_Name := name; ref_Namespace := "rhmi-operator" |} |}.

Definition provisioning (name : string) : Redis :=
  {| redis_meta := mkMeta name "rhmi-operator"; redis_Phase := "in progress";
     redis_SecretRef := {| ref_Name := ""; ref_Namespace := "" |} |}.

Definition kcAlice : KeycloakAPIUser :=
  {| UserName := "Alice"; Email := "Alice@Example.com"; Attributes := None |}.
Definition kcBob : KeycloakAPIUser :=
  {| UserName := "bob"; Email := "bob@example.com"; Attributes := None |}.

Definition tsAdmin : User := {| Id := 1; Username := "admin"; UserRole := "admin" |}.
Definition tsBob : User := {| Id := 2; Username := "BOB"; UserRole := "member" |}.
Definition tsCarol : User := {| Id := 3; Username := "carol"; UserRole := "member" |}.

(** Everything is there and every collaborator is done. *)
Definition calm : Fake.Scenario :=
  {| Fake.removeNamespace := fun _ => (PhaseCompleted, None);
     Fake.reconcileNamespace := fun _ => (PhaseCompleted, None);
     Fake.redis := fun name => inr (provisioned name);
     Fake.postgres :=
       inr {| pg_meta := mkMeta "threescale-postgres-rhmi" "rhmi-operator";
              pg_Phase := PhaseComplete;
              pg_SecretRef := {| ref_Name := "threescale-postgres-rhmi";
                                 ref_Namespace := "rhmi-operator" |} |};
     Fake.blobStorage :=
       inr {| blob_meta := mkMeta "threescale-blobstorage-rhmi" "rhmi-operator";
              blob_Phase := PhaseComplete;
              blob_SecretRef := {| ref_Name := "threescale-blobstorage-rhmi";
                                   ref_Namespace := "rhmi-operator" |} |};
     Fake.redisAlerts := fun _ => (PhaseCompleted, None);
     Fake.getFails := fun _ _ => None;
     Fake.keycloakUsers := [kcAlice; kcBob];
     Fake.tsUsers := [tsAdmin; tsBob; tsCarol];
     Fake.masterRouteLifetime := None |}.

(** The operator namespace is still being created. *)
Definition waiting : Fake.Scenario :=
  Fake.withReconcileNamespace (fun _ => (PhaseInProgress, None)) calm.

(** The backend redis is still being provisioned. *)
Definition backendProvisioning : Fake.Scenario :=
  Fake.withRedis
    (fun name =>
       if bool_decide (name = "threescale-backend-redis-rhmi") then inr (provisioning name)
       else inr (provisioned name))
    calm.

(** The system redis is still being provisioned. *)
Definition systemProvisioning : Fake.Scenario :=
  Fake.withRedis
    (fun name =>
       if bool_decide (name = "threescale-redis-rhmi") then inr (provisioning name)
       else inr (provisioned name))
    calm.

(** The backend redis is still being provisioned, and the request for the
    system redis is refused. *)
Definition systemRefused : Fake.Scenario :=
  Fake.withRedis
    (fun name =>
       if bool_decide (name = "threescale-backend-redis-rhmi") then inr (provisioning name)
       else inl (ErrOther "redis quota exceeded"))
    calm.

(** The blob storage is still being provisioned. *)
Definition blobProvisioning : Fake.Scenario :=
  Fake.withBlobStorage
    (inr {| blob_meta := mkMeta "threescale-blobstorage-rhmi" "rhmi-operator";
            blob_Phase := "in progress";
            blob_SecretRef := {| ref_Name := ""; ref_Namespace := "" |} |})
    calm.

Definition secret (name ns : string) (data : list (string * string)) : AnyObject :=
  ASecret {| secret_meta := mkMeta name ns; secret_Data := Some (list_to_map data) |}.

Definition route (name ns target host : string) : AnyObject :=
  ARoute {| route_meta :=
              {| Name := name; Namespace := ns; Annotations := ∅;
                 Labels := {[ "zync.3scale.net/route-to" := target ]} |};
            route_Host := host |}.

(** ** Grafana *)

Definition grafanaConfig : Config :=
  {| cfg_ProductName := "grafana"; cfg_Namespace := "rhmi-customer-monitoring";
     cfg_OperatorNamespace := "rhmi-customer-monitoring-operator";
     cfg_Host := ""; cfg_ProductVersion := ""; cfg_OperatorVersion := "";
     cfg_BlackboxTargetPathForAdminUI := "" |}.

Definition grafanaWorld : Fake.World :=
  {| Fake.objects :=
       [ ARoute {| route_meta := mkMeta "grafana-route" "rhmi-customer-monitoring-operator";
                   route_Host := "grafana.apps.example" |} ];
     Fake.masterListings := 0 |}.

Definition start (w : Fake.World) (cfg : Config) : PassState Fake.World :=
  {| st := {| world := w; config := cfg; calls := [] |};
     product := {| ps_Name := cfg_ProductName cfg; ps_Host := ""; ps_Version := "";
                   ps_OperatorVersion := "" |};
     steps := []; teardown := [] |}.

Definition grafana (inst : RHMI) : Grafana.Reconciler := {| Grafana.installation := inst |}.

(** ** 3scale *)

Definition threeScaleConfig : Config :=
  {| cfg_ProductName := "3scale"; cfg_Namespace := "rhmi-3scale";
     cfg_OperatorNamespace := "rhmi-3scale-operator";
     cfg_Host := ""; cfg_ProductVersion := ""; cfg_OperatorVersion := "";
     cfg_BlackboxTargetPathForAdminUI := "/p/login/" |}.

Definition apiManager : APIManager :=
  {| apim_meta := mkMeta "3scale" "rhmi-3scale";
     apim_Spec :=
       {| am_HighAvailability := true; am_PodDisruptionBudget := true;
          am_ResourceRequirementsEnabled := true; am_WildcardDomain := "apps.example";
          am_FileStorageSecret := Some "s3-credentials";
          am_SystemApp := Some 2; am_SystemSidekiq := Some 2;
          am_ApicastProduction := Some 2; am_ApicastStaging := Some 2;
          am_BackendListener := Some 2; am_BackendWorker := Some 2;
          am_BackendCron := Some 2; am_ZyncApp := Some 2; am_ZyncQue := Some 2 |};
     apim_Deployments :=
       {| dep_Starting := []; dep_Stopped := []; dep_Ready := ["system-app"] |} |}.

Definition threeScaleWorld : Fake.World :=
  {| Fake.objects :=
       [ secret "rhmi-smtp" "rhmi-operator"
           [("host", "smtp.example"); ("port", "587"); ("username", "mailer");
            ("password", "s3cret")];
         secret "system-smtp" "rhmi-3scale"
           [("address", "smtp.example"); ("port", "25"); ("username", "mailer");
            ("password", "s3cret")];
         secret "threescale-backend-redis-rhmi" "rhmi-operator"
           [("uri", "backend.redis"); ("port", "6379")];
         secret "threescale-redis-rhmi" "rhmi-operator"
           [("uri", "system.redis"); ("port", "6379")];
         secret "threescale-postgres-rhmi" "rhmi-operator"
           [("username", "pg"); ("password", "pw"); ("host", "pg.example");
            ("port", "5432"); ("database", "threescale")];
         ABlobStorage
           {| blob_meta := mkMeta "threescale-blobstorage-rhmi" "rhmi-operator";
              blob_Phase := PhaseComplete;
              blob_SecretRef := {| ref_Name := "threescale-blobstorage-rhmi";
                                   ref_Namespace := "rhmi-operator" |} |};
         secret "threescale-blobstorage-rhmi" "rhmi-operator"
           [("credentialKeyID", "key"); ("credentialSecretKey", "secret");
            ("bucketName", "bucket"); ("bucketRegion", "eu-west-1")];
         AAPIManager apiManager;
         route "admin" "rhmi-3scale" "system-provider" "3scale-admin.apps.example";
         route "developer" "rhmi-3scale" "system-developer" "3scale.apps.example";
         route "master" "rhmi-3scale" "system-master" "master.apps.example";
         route "backend" "rhmi-3scale" "backend" "backend-3scale.apps.example";
         route "api-staging" "rhmi-3scale" "api" "api-3scale-apicast-staging.apps.example";
         route "api-production" "rhmi-3scale" "api" "api-3scale-apicast-production.apps.example";
         secret "oauth-client-secrets" "rhmi-operator" [("3scale", "client-secret")];
         secret "system-seed" "rhmi-3scale"
           [("ADMIN_ACCESS_TOKEN", "token"); ("ADMIN_USER", "admin");
            ("ADMIN_EMAIL", "admin@example.com")];
         AConfigMap {| cm_meta := mkMeta "system" "rhmi-3scale"; cm_Data := Some ∅ |} ];
     Fake.masterListings := 0 |}.

Definition threeScale (inst : RHMI) : ThreeScale.Reconciler :=
  {| ThreeScale.installation := inst |}.

Definition threeScaleState : State Fake.World :=
  {| world := threeScaleWorld; config := threeScaleConfig; calls := [] |}.
End Demo.
(** * Lemmas *)

Lemma stops_not_completed ret r : stops ret = Some r → r ≠ Completed.
Proof.
  unfold stops, Completed.
  destruct ret as [p e|e|s e|ro e|msg]; simpl.
  - unfold halts. destruct e as [e|]; simpl.
    + intros [= <-]. discriminate.
    + case_bool_decide; simpl; [|discriminate]. intros [= <-]. congruence.
  - destruct e; simpl; [|discriminate]. intros [= <-]. discriminate.
  - destruct e; simpl; [|discriminate]. intros [= <-]. discriminate.
  - destruct (isErr e || bool_decide (ro = None)); [|discriminate].
    intros [= <-]. discriminate.
  - intros [= <-]. discriminate.
Qed.

Lemma halting_stops ret : halting ret = true → stops ret = Some (Ok (handedBack ret)).
Proof. destruct ret; simpl; intros H; rewrite ?H; try done. Qed.

Lemma stops_phase_not_halting phase err :
  halts phase err = false → stops (RetPhase phase err) = None.
Proof. intros H. unfold stops. simpl. by rewrite H. Qed.

Lemma not_halts phase err : halts phase err = false → phase = PhaseCompleted ∧ err = None.
Proof.
  unfold halts. destruct err; simpl; [discriminate|].
  case_bool_decide as H; [discriminate|]. intros _. split; [|done].
  by destruct (decide (phase = PhaseCompleted)).
Qed.

(** The short-circuit reading of [chain]. *)
Lemma chain_stop names evs res pre n ret post r :
  chain names evs res → evs = pre ++ (n, ret) :: post → stops ret = Some r →
  post = [] ∧ res = r.
Proof.
  revert names evs. induction pre as [|[n0 ret0] pre IH]; intros names evs Hc -> Hs.
  - simpl in Hc. destruct names as [|n' names]; [done|].
    destruct Hc as [_ Hc]. rewrite Hs in Hc. done.
  - simpl in Hc. destruct names as [|n' names]; [done|].
    destruct Hc as [_ Hc]. destruct (stops ret0) as [r0|] eqn:H0.
    + destruct Hc as [Hnil _]. by destruct pre.
    + by eapply IH.
Qed.

Lemma chain_all_completed names evs res :
  chain names evs res → Forall (λ e, stops e.2 = None) evs →
  res = Completed ∧ evs.*1 = names.
Proof.
  revert names. induction evs as [|[n ret] evs IH]; intros names Hc Hall.
  - simpl in Hc. by destruct Hc as [-> ->].
  - simpl in Hc. destruct names as [|n' names]; [done|].
    destruct Hc as [-> Hc]. inversion Hall as [|?? H1 H2]; subst. simpl in H1.
    rewrite H1 in Hc. destruct (IH _ Hc H2) as [-> <-]. done.
Qed.

Lemma chain_completed names evs :
  chain names evs Completed → Forall (λ e, stops e.2 = None) evs ∧ evs.*1 = names.
Proof.
  revert names. induction evs as [|[n ret] evs IH]; intros names Hc.
  - simpl in Hc. destruct Hc as [-> _]. done.
  - simpl in Hc. destruct names as [|n' names]; [done|].
    destruct Hc as [-> Hc]. destruct (stops ret) as [r|] eqn:Hs.
    + destruct Hc as [_ Hr]. symmetry in Hr. by apply stops_not_completed in Hs.
    + destruct (IH _ Hc) as [Hall <-]. split; [|done]. by constructor.
Qed.

Lemma chain_prefix names evs res : chain names evs res → evs.*1 `prefix_of` names.
Proof.
  revert names. induction evs as [|[n ret] evs IH]; intros names Hc.
  - apply prefix_nil.
  - simpl in Hc. destruct names as [|n' names]; [done|].
    destruct Hc as [-> Hc]. simpl. apply prefix_cons.
    destruct (stops ret).
    + destruct Hc as [-> _]. apply prefix_nil.
    + by apply IH.
Qed.

Section PassLemmas.
Context {World : Type}.
Implicit Types (ps : PassState World) (Q : RHMIProductStatus → PassState World → Prop).

Lemma logOf_appendLog lvl e ps : logOf lvl (appendLog lvl e ps) = logOf lvl ps ++ [e].
Proof. by destruct lvl. Qed.

Lemma logOf_appendLog_other lvl e ps :
  logOf (other lvl) (appendLog lvl e ps) = logOf (other lvl) ps.
Proof. by destruct lvl. Qed.

Lemma product_appendLog lvl e ps : product (appendLog lvl e ps) = product ps.
Proof. by destruct lvl. Qed.

Lemma st_appendLog lvl e ps : st (appendLog lvl e ps) = st ps.
Proof. by destruct lvl. Qed.

Lemma Inner_logOf {A} (m : PassM World A) lvl ps :
  Inner m → logOf lvl (m ps).2 = logOf lvl ps.
Proof. intros H. destruct (H ps) as (? & ? & ?). by destruct lvl. Qed.

Lemma Quiet_logOf r (m : PassM World Result) lvl ps :
  Quiet r m → logOf lvl (m ps).2 = logOf lvl ps.
Proof. intros H. destruct (H ps) as (? & ? & ? & ?). by destruct lvl. Qed.

Lemma Between_logOf {A} (m : PassM World A) lvl ps :
  Between m → logOf lvl (m ps).2 = logOf lvl ps.
Proof. intros H. destruct (H ps) as (? & ? & ? & ?). by destruct lvl. Qed.

Lemma Inner_lift {A} (m : M World A) : Inner (lift m).
Proof. intros ps. unfold lift. by destruct (m (st ps)). Qed.

Lemma Between_lift {A} (m : M World A) :
  (∀ s, ∃ a, (m s).1 = Ok a) → Between (lift m).
Proof.
  intros H ps. unfold lift. destruct (H (st ps)) as [a Ha].
  destruct (m (st ps)) as [r s]; simpl in *. eauto.
Qed.

Lemma Between_ret {A} (a : A) : Between (ret a : PassM World A).
Proof. intros ps. simpl. eauto. Qed.

Lemma Between_bind {A B} (m : PassM World A) (f : A → PassM World B) :
  Between m → (∀ a, Between (f a)) → Between (bind m f).
Proof.
  intros Hm Hf ps. unfold bind.
  destruct (Hm ps) as ([a Ha] & H1 & H2 & H3).
  destruct (m ps) as [r ps1]; simpl in *; subst r.
  destruct (Hf a ps1) as (Hr & H4 & H5 & H6).
  rewrite H4, H5, H6. eauto.
Qed.

Lemma Quiet_ret x : Quiet (Ok x) (ret x : PassM World Result).
Proof. by intros ps. Qed.

Lemma Quiet_bind {A} r (m : PassM World A) f :
  Between m → (∀ a, Quiet r (f a)) → Quiet r (bind m f).
Proof.
  intros Hm Hf ps. unfold bind.
  destruct (Hm ps) as ([a Ha] & H1 & H2 & H3).
  destruct (m ps) as [r0 ps1]; simpl in *; subst r0.
  destruct (Hf a ps1) as (Hr & H4 & H5 & H6).
  rewrite H4, H5, H6. eauto.
Qed.

Lemma ChainOK_ext lvl names Q (m m' : PassM World Result) :
  (∀ ps, m ps = m' ps) → ChainOK lvl names Q m' → ChainOK lvl names Q m.
Proof. intros Heq H ps. rewrite Heq. apply H. Qed.

Lemma bind_assoc {S A B C} (m : Prog S A) (g : A → Prog S B) (h : B → Prog S C) s :
  bind (bind m g) h s = bind m (fun a => bind (g a) h) s.
Proof. unfold bind. by destruct (m s) as [[a|msg] s']. Qed.

Lemma ChainOK_assoc {A B} lvl names Q (m : PassM World A) (g : A → PassM World B) h :
  ChainOK lvl names Q (bind m (fun a => bind (g a) h)) →
  ChainOK lvl names Q (bind (bind m g) h).
Proof. apply ChainOK_ext. intros ps. apply bind_assoc. Qed.

(** A step followed by the rest of the chain. *)
Lemma ChainOK_bind_step {A} lvl name names Q (mk : A → StepReturn)
    (m : PassM World A) (f : A → PassM World Result) :
  Inner m →
  (∀ a, match stops (mk a) with
        | Some r => Quiet r (f a)
        | None => ChainOK lvl names Q (f a)
        end) →
  ChainOK lvl (name :: names) Q (bind (logStep lvl name mk m) f).
Proof.
  intros Hm Hf ps. unfold bind, logStep.
  pose proof (Inner_logOf m lvl ps Hm) as Hl.
  pose proof (Inner_logOf m (other lvl) ps Hm) as Hlo.
  destruct (Hm ps) as (_ & _ & Hp).
  destruct (m ps) as [[a|msg] ps1]; simpl in Hl, Hlo, Hp.
  - specialize (Hf a). destruct (stops (mk a)) as [r|] eqn:Hs.
    + exists [(name, mk a)].
      pose proof (Quiet_logOf _ _ lvl (appendLog lvl (name, mk a) ps1) Hf) as Hq.
      pose proof (Quiet_logOf _ _ (other lvl) (appendLog lvl (name, mk a) ps1) Hf) as Hqo.
      destruct (Hf (appendLog lvl (name, mk a) ps1)) as (Hr & _ & _ & Hqp).
      rewrite Hq, Hqo, Hr, Hqp, logOf_appendLog, logOf_appendLog_other, product_appendLog.
      rewrite Hl, Hlo, Hp. repeat split; try done.
      * simpl. by rewrite Hs.
      * intros ->. by apply stops_not_completed in Hs.
    + destruct (Hf (appendLog lvl (name, mk a) ps1)) as (evs & H1 & H2 & H3 & H4 & H5).
      exists ((name, mk a) :: evs).
      rewrite H1, H2, logOf_appendLog, logOf_appendLog_other, Hl, Hlo.
      rewrite product_appendLog, Hp in H4, H5.
      repeat split; try done.
      * by rewrite <- app_assoc.
      * simpl. by rewrite Hs.
  - exists [(name, RetPanic msg)]. simpl.
    rewrite logOf_appendLog, logOf_appendLog_other, product_appendLog, Hl, Hlo, Hp.
    repeat split; done.
Qed.

(** Something between two steps, followed by the rest of the chain. *)
Lemma ChainOK_bind_between {A} lvl names Q (m : PassM World A)
    (f : A → PassM World Result) :
  Between m → (∀ a, ChainOK lvl names Q (f a)) → ChainOK lvl names Q (bind m f).
Proof.
  intros Hm Hf ps. unfold bind.
  pose proof (Between_logOf m lvl ps Hm) as Hl.
  pose proof (Between_logOf m (other lvl) ps Hm) as Hlo.
  destruct (Hm ps) as ([a Ha] & _ & _ & Hp).
  destruct (m ps) as [r ps1]; simpl in *; subst r.
  destruct (Hf a ps1) as (evs & H1 & H2 & H3 & H4 & H5).
  exists evs. rewrite H1, H2, Hl, Hlo. rewrite Hp in H4, H5. done.
Qed.

(** The end of a teardown callback. *)
Lemma ChainOK_ret_completed lvl :
  ChainOK lvl [] (λ p ps', product ps' = p)
    (ret (PhaseCompleted, None) : PassM World Result).
Proof. intros ps. exists []. simpl. rewrite !app_nil_r. done. Qed.

(** The last lines of [Reconcile]. *)
Lemma ChainOK_write_back (cfgOf : PassM World Config) (after : Config → PassM World unit) :
  (∀ ps, cfgOf ps = (Ok (config (st ps)), ps)) →
  (∀ cfg ps, ∃ s, after cfg ps =
     (Ok tt, {| st := s; product := product ps; steps := steps ps;
                teardown := teardown ps |}) ∧ config s = config (st ps)) →
  ChainOK Forward [] (λ p ps', product ps' = writtenBack (config (st ps')) p)
    (bind cfgOf (fun cfg =>
       bind (setProduct (writtenBack cfg)) (fun _ =>
         bind (after cfg) (fun _ => ret (PhaseCompleted, None))))).
Proof.
  intros Hc Ha ps. exists []. unfold bind. rewrite Hc. simpl.
  destruct (Ha (config (st ps))
              {| st := st ps; product := writtenBack (config (st ps)) (product ps);
                 steps := steps ps; teardown := teardown ps |}) as (s & -> & Hs).
  simpl. rewrite !app_nil_r, Hs. done.
Qed.
End PassLemmas.

#[global] Instance Res_eq_dec {A} `{EqDecision A} : EqDecision (Res A).
Proof. solve_decision. Defined.

Section FinalizerLemmas.
Context {World : Type}.
Implicit Types (ps : PassState World).

(** What the finalizer handler hands back stops the pass. *)
Lemma finalized_stops (fres : Res Result) :
  stops (finalizerEntry (finalized fres)).2 = Some (finalized fres).
Proof.
  destruct fres as [[phase err]|msg]; [|done]. cbn [finalized].
  destruct (halts phase err) eqn:Hh; cbn [finalizerEntry snd].
  - by apply (halting_stops (RetPhase phase err)).
  - done.
Qed.

(** What the finalizer handler does to the pass, given a teardown callback
    that is a chain of teardown steps. *)
Lemma ReconcileFinalizer_run (inst : RHMI) productName tnames (c : PassM World Result) ps :
  ChainOK Teardown tnames (λ p ps', product ps' = p) c →
  steps (ReconcileFinalizer inst productName c ps).2 = steps ps ∧
  product (ReconcileFinalizer inst productName c ps).2 = product ps ∧
  ∃ tevs,
    teardown (ReconcileFinalizer inst productName c ps).2 = teardown ps ++ tevs ∧
    match inst_DeletionTimestamp inst with
    | None => tevs = [] ∧ (ReconcileFinalizer inst productName c ps).1 = Completed
    | Some _ =>
        ∃ fres, chain tnames tevs fres
                ∧ (ReconcileFinalizer inst productName c ps).1 = finalized fres
    end.
Proof.
  intros Hc. unfold ReconcileFinalizer.
  destruct (inst_DeletionTimestamp inst) as [t|].
  - destruct (Hc ps) as (tevs & H1 & H2 & H3 & H4 & H5). simpl in H1, H2.
    assert (product (c ps).2 = product ps) as Hp.
    { destruct (decide ((c ps).1 = Completed)); auto. }
    unfold bind. destruct (c ps) as [[[phase err]|msg] ps1]; simpl in *.
    + destruct (halts phase err) eqn:Hh; simpl.
      * repeat split; try done. exists tevs. split; [done|].
        exists (Ok (phase, err)). split; [done|]. cbn [finalized]. by rewrite Hh.
      * repeat split; try done. exists tevs. split; [done|].
        exists (Ok (phase, err)). split; [done|]. cbn [finalized]. by rewrite Hh.
    + repeat split; try done. exists tevs. split; [done|]. by exists (Panic msg).
  - simpl. repeat split; try done. exists []. by rewrite app_nil_r.
Qed.

(** The finalizer step at the head of [Reconcile], followed by the forward
    chain. *)
Lemma PassSpec_finalizer (inst : RHMI) productName names tnames
    (c : PassM World Result) (f : Result → PassM World Result) :
  ChainOK Teardown tnames (λ p ps', product ps' = p) c →
  (∀ a, match stops (uncurry RetPhase a) with
        | Some r => Quiet r (f a)
        | None =>
            ChainOK Forward names
              (λ p ps', product ps' = writtenBack (config (st ps')) p) (f a)
        end) →
  PassSpec inst ("ReconcileFinalizer" :: names) tnames
    (bind (step "ReconcileFinalizer" (uncurry RetPhase)
             (ReconcileFinalizer inst productName c)) f).
Proof.
  intros Hc Hf ps.
  destruct (ReconcileFinalizer_run inst productName tnames c ps Hc)
    as (Hs & Hp & tevs & Ht & Hd).
  unfold bind, step, logStep.
  destruct (ReconcileFinalizer inst productName c ps) as [[a|msg] ps1];
    simpl in Hs, Hp, Ht, Hd.
  - specialize (Hf a). destruct a as [phase err].
    change (uncurry RetPhase (phase, err)) with (RetPhase phase err) in *.
    set (ps2 := appendLog Forward ("ReconcileFinalizer", RetPhase phase err) ps1) in *.
    assert (steps ps2 = steps ps ++ [("ReconcileFinalizer", RetPhase phase err)]) as Hs2
      by (subst ps2; simpl; by rewrite Hs).
    assert (teardown ps2 = teardown ps ++ tevs) as Ht2 by (subst ps2; simpl; by rewrite Ht).
    assert (product ps2 = product ps) as Hp2 by (subst ps2; simpl; by rewrite Hp).
    clearbody ps2.
    destruct (stops (RetPhase phase err)) as [r|] eqn:Hst.
    + destruct (Hf ps2) as (Hr & H1 & H2 & H3).
      exists [("ReconcileFinalizer", RetPhase phase err)], tevs.
      rewrite Hr, H1, H2, H3, Hs2, Ht2, Hp2. cbn [chain]. rewrite Hst.
      repeat split; try done.
      * intros ->. by apply stops_not_completed in Hst.
      * destruct (inst_DeletionTimestamp inst); [|by destruct Hd].
        destruct Hd as (fres & Hch & Hres). exists fres. by rewrite <- Hres.
    + destruct (Hf ps2) as (evs & H1 & H2 & H3 & H4 & H5).
      cbn [logOf other] in H1, H2.
      exists (("ReconcileFinalizer", RetPhase phase err) :: evs), tevs.
      rewrite H1, H2, Hs2, Ht2. cbn [chain]. rewrite Hst. rewrite Hp2 in H4, H5.
      repeat split; try done.
      * by rewrite <- app_assoc.
      * destruct (inst_DeletionTimestamp inst); [|by destruct Hd].
        destruct Hd as (fres & Hch & Hres).
        pose proof (finalized_stops fres) as Hfs. rewrite <- Hres in Hfs.
        cbn [finalizerEntry snd] in Hfs. by rewrite Hst in Hfs.
  - exists [("ReconcileFinalizer", RetPanic msg)], tevs.
    cbn [appendLog steps teardown product chain fst snd stops].
    rewrite Hs, Ht, Hp. repeat split; try done.
    destruct (inst_DeletionTimestamp inst); [|by destruct Hd].
    destruct Hd as (fres & Hch & Hres). exists fres. by rewrite <- Hres.
Qed.

Lemma PassSpec_bind_between {A} (inst : RHMI) names tnames (m : PassM World A)
    (f : A → PassM World Result) :
  Between m → (∀ a, PassSpec inst names tnames (f a)) →
  PassSpec inst names tnames (bind m f).
Proof.
  intros Hm Hf ps. unfold bind.
  destruct (Hm ps) as ([a Ha] & H1 & H2 & H3).
  destruct (m ps) as [r ps1]; simpl in *; subst r.
  destruct (Hf a ps1) as (evs & tevs & E1 & E2 & E3 & E4 & E5 & E6).
  exists evs, tevs. rewrite E1, E2, H1, H2. rewrite H3 in E4, E5. done.
Qed.
End FinalizerLemmas.

(** Pieces that run between two steps. *)
Section BetweenLemmas.
Context {World : Type} (E : Env World).

Lemma getConfig_returns (s : State World) : ∃ a, (getConfig s).1 = Ok a.
Proof. by eexists. Qed.

Lemma Between_getConfig : Between (lift (@getConfig World)).
Proof. apply Between_lift, getConfig_returns. Qed.

Lemma Between_setConfig f : Between (lift (@setConfig World f)).
Proof. apply Between_lift. intros s. by eexists. Qed.

Lemma Between_HandleError phase msg err :
  Between (lift (@events_HandleError World phase msg err)).
Proof. apply Between_lift. intros s. by eexists. Qed.

Lemma Between_WriteConfig : Between (lift (ConfigManager_WriteConfig E)).
Proof.
  apply Between_lift. intros s. unfold ConfigManager_WriteConfig, bind, getConfig, call.
  destruct (WriteConfig E (config s) (world s)). by eexists.
Qed.

Lemma Quiet_HandleError_ret phase msg err (x : Result) :
  Quiet (Ok x) (bind (lift (@events_HandleError World phase msg err)) (fun _ => ret x)).
Proof. apply Quiet_bind; [apply Between_HandleError|]. intros _. apply Quiet_ret. Qed.
End BetweenLemmas.

(** A step that returns a phase, followed by the test on it. *)
Ltac phase_step quiet :=
  apply ChainOK_bind_step; [apply Inner_lift|];
  let phase := fresh "phase" in
  let err := fresh "err" in
  let Hh := fresh "Hh" in
  intros [phase err]; cbv beta iota;
  change (uncurry RetPhase (phase, err)) with (RetPhase phase err);
  destruct (halts phase err) eqn:Hh;
  [ rewrite (halting_stops (RetPhase phase err) Hh); quiet
  | rewrite (stops_phase_not_halting _ _ Hh) ].

(** A step that returns an error alone. *)
Ltac err_step quiet :=
  apply ChainOK_bind_step; [apply Inner_lift|];
  let err := fresh "err" in
  intros err; cbv beta iota;
  destruct err as [err|]; cbn [stops halting handedBack isErr];
  [ quiet | ].

Section GrafanaSpec.
Context {World : Type} (E : Env World).

Lemma Grafana_Reconcile_spec (r : Grafana.Reconciler) (inst : RHMI) :
  PassSpec inst Grafana.stepList Grafana.teardownList (Grafana.Reconcile E r inst).
Proof.
  unfold Grafana.Reconcile, Grafana.stepList, Grafana.teardownList.
  apply PassSpec_bind_between; [apply Between_getConfig|]. intros cfg.
  apply PassSpec_finalizer.
  - phase_step ltac:(apply Quiet_ret).
    phase_step ltac:(apply Quiet_ret).
    apply ChainOK_ret_completed.
  - intros [phase err]. cbv beta iota.
    change (uncurry RetPhase (phase, err)) with (RetPhase phase err).
    destruct (halts phase err) eqn:Hh;
      [ rewrite (halting_stops (RetPhase phase err) Hh); apply Quiet_HandleError_ret
      | rewrite (stops_phase_not_halting _ _ Hh) ].
    do 5 phase_step ltac:(apply Quiet_HandleError_ret).
    unfold Grafana.reconciled.
    apply ChainOK_bind_between; [apply Between_getConfig|]. intros cfg1.
    apply ChainOK_bind_between.
    { case_bool_decide; [|apply Between_ret].
      apply Between_bind; [apply Between_setConfig|]. intros _.
      apply Between_bind; [apply Between_WriteConfig|]. intros _. apply Between_ret. }
    intros _.
    apply (ChainOK_write_back (lift getConfig)
             (fun cfg => lift (events_HandleProductComplete (cfg_ProductName cfg)))).
    + by intros [s p l t].
    + intros cfg2 [s p l t]. by eexists.
Qed.
End GrafanaSpec.

Section ThreeScaleSpec.
Context {World : Type} (E : Env World).

(** A halting step inside the block guarded by the deletion timestamp. *)
Lemma Quiet_HandleError_block phase msg err (x : Result) (k : PassM World Result) :
  Quiet (Ok x)
    (bind (bind (lift (@events_HandleError World phase msg err)) (fun _ => ret (Some x)))
          (fun halted => match halted with Some res => ret res | None => k end)).
Proof. by intros [s p l t]. Qed.

Lemma ThreeScale_Reconcile_spec (r : ThreeScale.Reconciler) (inst : RHMI) :
  PassSpec inst (ThreeScale.stepList r) ThreeScale.teardownList
    (ThreeScale.Reconcile E r inst).
Proof.
  unfold ThreeScale.Reconcile, ThreeScale.stepList, ThreeScale.teardownList.
  apply PassSpec_bind_between; [apply Between_getConfig|]. intros cfg.
  destruct (inst_DeletionTimestamp (ThreeScale.installation r)) as [t|] eqn:Hdel;
    cbn [app];
    (apply PassSpec_finalizer;
     [ phase_step ltac:(apply Quiet_ret);
       phase_step ltac:(apply Quiet_ret);
       err_step ltac:(apply Quiet_ret);
       phase_step ltac:(apply Quiet_ret);
       apply ChainOK_ret_completed
     | intros [phase err]; cbv beta iota;
       change (uncurry RetPhase (phase, err)) with (RetPhase phase err);
       destruct (halts phase err) eqn:Hh;
       [ rewrite (halting_stops (RetPhase phase err) Hh); apply Quiet_HandleError_ret
       | rewrite (stops_phase_not_halting _ _ Hh) ];
       do 3 phase_step ltac:(apply Quiet_HandleError_ret);
       err_step ltac:(apply Quiet_HandleError_ret);
       phase_step ltac:(apply Quiet_HandleError_ret) ]).
  - (* a deletion timestamp: the guarded block is skipped *)
    eapply ChainOK_ext; [intros ps; reflexivity|].
    do 4 phase_step ltac:(apply Quiet_HandleError_ret).
    apply ChainOK_bind_step; [apply Inner_lift|].
    intros [clientSecret [e|]]; cbn [uncurry stops halting handedBack isErr];
      [apply Quiet_HandleError_ret|].
    apply ChainOK_bind_step; [apply Inner_lift|].
    intros [[route|] [e|]]; cbn [uncurry stops halting handedBack isErr orb bool_decide];
      try apply Quiet_ret.
    apply ChainOK_bind_between; [apply Between_getConfig|]. intros cfg1.
    do 6 phase_step ltac:(apply Quiet_HandleError_ret).
    apply (ChainOK_write_back (lift getConfig)
             (fun cfg => lift (events_HandleProductComplete (cfg_ProductName cfg)))).
    + by intros [s p l tt0].
    + intros cfg2 [s p l tt0]. by eexists.
  - (* no deletion timestamp: the three provisioning steps run first *)
    apply ChainOK_assoc. phase_step ltac:(apply Quiet_HandleError_block).
    apply ChainOK_assoc. phase_step ltac:(apply Quiet_HandleError_block).
    apply ChainOK_assoc. phase_step ltac:(apply Quiet_HandleError_block).
    eapply ChainOK_ext; [intros ps; reflexivity|].
    do 4 phase_step ltac:(apply Quiet_HandleError_ret).
    apply ChainOK_bind_step; [apply Inner_lift|].
    intros [clientSecret [e|]]; cbn [uncurry stops halting handedBack isErr];
      [apply Quiet_HandleError_ret|].
    apply ChainOK_bind_step; [apply Inner_lift|].
    intros [[route|] [e|]]; cbn [uncurry stops halting handedBack isErr orb bool_decide];
      try apply Quiet_ret.
    apply ChainOK_bind_between; [apply Between_getConfig|]. intros cfg1.
    do 6 phase_step ltac:(apply Quiet_HandleError_ret).
    apply (ChainOK_write_back (lift getConfig)
             (fun cfg => lift (events_HandleProductComplete (cfg_ProductName cfg)))).
    + by intros [s p l tt0].
    + intros cfg2 [s p l tt0]. by eexists.
Qed.
End ThreeScaleSpec.

(** * The log of calls of a method *)

Section Logs.
Context {World : Type}.
Implicit Types (s : State World) (P : Event → Prop).

Lemma Emits_ret {A} P (a : A) : Emits P (ret a : M World A).
Proof. intros s. exists []. by rewrite app_nil_r. Qed.

Lemma Emits_panic {A} P msg : Emits P (panic msg : M World A).
Proof. intros s. exists []. by rewrite app_nil_r. Qed.

Lemma Emits_getConfig P : Emits P (@getConfig World).
Proof. intros s. exists []. by rewrite app_nil_r. Qed.

Lemma Emits_setConfig P f : Emits P (@setConfig World f).
Proof. intros s. exists []. simpl. by rewrite app_nil_r. Qed.

Lemma Emits_call {A} P (log : A → Event) (op : World → A * World) :
  (∀ a, P (log a)) → Emits P (call log op).
Proof.
  intros HP s. unfold call. destruct (op (world s)) as [a w]. simpl.
  exists [log a]. split; [done|]. by constructor.
Qed.

Lemma Emits_emit P e : P e → Emits P (@emit World e).
Proof. intros HP s. exists [e]. split; [done|]. by constructor. Qed.

Lemma Emits_bind {A B} P (m : M World A) (f : A → M World B) :
  Emits P m → (∀ a, Emits P (f a)) → Emits P (bind m f).
Proof.
  intros Hm Hf s. unfold bind. destruct (Hm s) as (l1 & H1 & HP1).
  destruct (m s) as [[a|msg] s1]; simpl in *.
  - destruct (Hf a s1) as (l2 & H2 & HP2). exists (l1 ++ l2).
    rewrite H2, H1, app_assoc. split; [done|]. by apply Forall_app.
  - by exists l1.
Qed.

Lemma Emits_forRange {A R} P (l : list A) (body : A → M World (option R)) :
  (∀ x, x ∈ l → Emits P (body x)) → Emits P (forRange l body).
Proof.
  induction l as [|x l IH]; intros Hb; simpl.
  - apply Emits_ret.
  - apply Emits_bind; [apply Hb; by left|].
    intros [v|]; [apply Emits_ret|]. apply IH. intros y Hy. apply Hb. by right.
Qed.

Lemma KeepsConfig_ret {A} (a : A) : KeepsConfig (ret a : M World A).
Proof. by intros s. Qed.

Lemma KeepsConfig_panic {A} msg : KeepsConfig (panic msg : M World A).
Proof. by intros s. Qed.

Lemma KeepsConfig_getConfig : KeepsConfig (@getConfig World).
Proof. by intros s. Qed.

Lemma KeepsConfig_call {A} (log : A → Event) (op : World → A * World) :
  KeepsConfig (call log op).
Proof. intros s. unfold call. by destruct (op (world s)). Qed.

Lemma KeepsConfig_bind {A B} (m : M World A) (f : A → M World B) :
  KeepsConfig m → (∀ a, KeepsConfig (f a)) → KeepsConfig (bind m f).
Proof.
  intros Hm Hf s. unfold bind. specialize (Hm s).
  destruct (m s) as [[a|msg] s1]; simpl in *; [|done].
  by rewrite Hf.
Qed.

(** One step of a run. *)
Lemma run_bind_bind {A B C} (m : M World A) (g : A → M World B) (f : B → M World C) s :
  bind (bind m g) f s = bind m (fun a => bind (g a) f) s.
Proof. apply bind_assoc. Qed.

Lemma run_bind_ret {A B} (a : A) (f : A → M World B) s : bind (ret a) f s = f a s.
Proof. done. Qed.

Lemma run_bind_getConfig {B} (f : Config → M World B) s : bind getConfig f s = f (config s) s.
Proof. done. Qed.

Lemma run_bind_setConfig {B} g (f : unit → M World B) s :
  bind (setConfig g) f s
  = f tt {| world := world s; config := g (config s); calls := calls s |}.
Proof. done. Qed.

Lemma run_bind_call {A B} (log : A → Event) (op : World → A * World)
    (f : A → M World B) s :
  bind (call log op) f s
  = f (op (world s)).1
      {| world := (op (world s)).2; config := config s;
         calls := calls s ++ [log (op (world s)).1] |}.
Proof. unfold bind, call. by destruct (op (world s)). Qed.

Lemma run_call {A} (log : A → Event) (op : World → A * World) s :
  call log op s
  = (Ok (op (world s)).1,
     {| world := (op (world s)).2; config := config s;
        calls := calls s ++ [log (op (world s)).1] |}).
Proof. unfold call. by destruct (op (world s)). Qed.
End Logs.

(** The calls of the typed client and of [CreateOrUpdate]. *)
Section ClientLogs.
Context {World : Type} (E : Env World) {T : Type} `{K8sObject T}.
Implicit Types (P : Event → Prop).

Lemma Emits_Get P key (obj : T) :
  (∀ resp, P (EvGet (kindOf T) key resp)) → Emits P (Get E key obj).
Proof.
  intros HP. unfold Get. apply Emits_bind; [by apply Emits_call|].
  intros r. apply Emits_ret.
Qed.

Lemma Emits_List P opts :
  (∀ resp, P (EvList (kindOf T) opts resp)) → Emits P (List E T opts).
Proof.
  intros HP. unfold List. apply Emits_bind; [by apply Emits_call|].
  intros r. apply Emits_ret.
Qed.

Lemma Emits_Create P (obj : T) :
  (∀ resp, P (EvCreate (toAny obj) resp)) → Emits P (Create E obj).
Proof.
  intros HP. unfold Create. apply Emits_bind; [by apply Emits_call|].
  intros r. apply Emits_ret.
Qed.

Lemma Emits_Update P (obj : T) :
  (∀ resp, P (EvUpdate (toAny obj) resp)) → Emits P (Update E obj).
Proof.
  intros HP. unfold Update. apply Emits_bind; [by apply Emits_call|].
  intros r. apply Emits_ret.
Qed.

Lemma Emits_Delete P (obj : T) :
  (∀ resp, P (EvDelete (toAny obj) resp)) → Emits P (Delete E obj).
Proof. intros HP. unfold Delete. by apply Emits_call. Qed.

Lemma Emits_CreateOrUpdate P (obj : T) (f : T → M World (T * error)) :
  (∀ key resp, P (EvGet (kindOf T) key resp)) →
  (∀ o resp, P (EvCreate (toAny o) resp)) →
  (∀ o resp, P (EvUpdate (toAny o) resp)) →
  (∀ o, Emits P (f o)) →
  Emits P (CreateOrUpdate E obj f).
Proof.
  intros HG HC HU Hf. unfold CreateOrUpdate, mutate.
  apply Emits_bind; [by apply Emits_Get|]. intros [o err].
  destruct (isErr err).
  - destruct (negb (IsNotFound err)); [apply Emits_ret|].
    apply Emits_bind.
    { apply Emits_bind; [apply Hf|]. intros [o1 e1].
      destruct (isErr e1); [apply Emits_ret|]. case_bool_decide; apply Emits_ret. }
    intros [o1 e1]. destruct (isErr e1); [apply Emits_ret|].
    apply Emits_bind; [by apply Emits_Create|]. intros [o2 e2].
    destruct (isErr e2); apply Emits_ret.
  - apply Emits_bind.
    { apply Emits_bind; [apply Hf|]. intros [o1 e1].
      destruct (isErr e1); [apply Emits_ret|]. case_bool_decide; apply Emits_ret. }
    intros [o1 e1]. destruct (isErr e1); [apply Emits_ret|].
    destruct (deepEqual o o1); [apply Emits_ret|].
    apply Emits_bind; [by apply Emits_Update|]. intros [o2 e2].
    destruct (isErr e2); apply Emits_ret.
Qed.

Lemma KeepsConfig_Get key (obj : T) : KeepsConfig (Get E key obj).
Proof.
  unfold Get. apply KeepsConfig_bind; [apply KeepsConfig_call|].
  intros r. apply KeepsConfig_ret.
Qed.

Lemma KeepsConfig_CreateOrUpdate (obj : T) (f : T → M World (T * error)) :
  (∀ o, KeepsConfig (f o)) → KeepsConfig (CreateOrUpdate E obj f).
Proof.
  intros Hf. unfold CreateOrUpdate, mutate, Create, Update.
  apply KeepsConfig_bind; [apply KeepsConfig_Get|]. intros [o err].
  destruct (isErr err).
  - destruct (negb (IsNotFound err)); [apply KeepsConfig_ret|].
    apply KeepsConfig_bind.
    { apply KeepsConfig_bind; [apply Hf|]. intros [o1 e1].
      destruct (isErr e1); [apply KeepsConfig_ret|].
      case_bool_decide; apply KeepsConfig_ret. }
    intros [o1 e1]. destruct (isErr e1); [apply KeepsConfig_ret|].
    apply KeepsConfig_bind.
    { apply KeepsConfig_bind; [apply KeepsConfig_call|]. intros ?. apply KeepsConfig_ret. }
    intros [o2 e2]. destruct (isErr e2); apply KeepsConfig_ret.
  - apply KeepsConfig_bind.
    { apply KeepsConfig_bind; [apply Hf|]. intros [o1 e1].
      destruct (isErr e1); [apply KeepsConfig_ret|].
      case_bool_decide; apply KeepsConfig_ret. }
    intros [o1 e1]. destruct (isErr e1); [apply KeepsConfig_ret|].
    destruct (deepEqual o o1); [apply KeepsConfig_ret|].
    apply KeepsConfig_bind.
    { apply KeepsConfig_bind; [apply KeepsConfig_call|]. intros ?. apply KeepsConfig_ret. }
    intros [o2 e2]. destruct (isErr e2); apply KeepsConfig_ret.
Qed.
End ClientLogs.

(** The methods and the calls they are made of. *)
Create HintDb methods.
#[global] Hint Unfold
  resources_RemoveNamespace r_ReconcileNamespace resources_RemoveOauthClient
  resources_CopyPullSecretToNameSpace resources_CopySecret r_ReconcileSubscription
  r_ReconcileOauthClient resources_ReconcileRedisAlerts resources_CreateRedisCpuUsageAlerts
  resources_ReconcilePostgresAlerts resources_ExecuteRemoteCommand events_HandleError
  events_HandleProductComplete croUtil_ReconcileBlobStorage croUtil_ReconcileRedis
  croUtil_ReconcilePostgres ConfigManager_ReadRHSSO ConfigManager_ReadMonitoring
  ConfigManager_WriteConfig tsClient_GetAuthenticationProviderByName
  tsClient_AddAuthenticationProvider tsClient_GetUsers tsClient_AddUser
  tsClient_DeleteUser tsClient_SetUserAsAdmin rhsso_GetKeycloakUsers
  monitoring_CreateBlackboxTarget alertsReconciler_ReconcileAlerts rand_Read
  ThreeScale.RolloutDeployment ThreeScale.getOauthClientSecret ThreeScale.GetAdminToken
  ThreeScale.GetAdminNameAndPassFromSecret ThreeScale.syncOpenshiftAdminMembership
  ThreeScale.atLeastReplicas ThreeScale.routeSpecHost ThreeScale.getThreescaleRoute
  : methods.

(** Walk through a method and check every call it can make. *)
Ltac emits_step :=
  lazymatch goal with
  | |- Emits _ (ret _) => apply Emits_ret
  | |- Emits _ (panic _) => apply Emits_panic
  | |- Emits _ getConfig => apply Emits_getConfig
  | |- Emits _ (setConfig _) => apply Emits_setConfig
  | |- Emits _ (call _ _) => apply Emits_call; intros; try done
  | |- Emits _ (emit _) => apply Emits_emit; try done
  | |- Emits _ (bind _ _) => apply Emits_bind; [|intros ?]
  | |- Emits _ (Get _ _ _) => apply Emits_Get; intros; try done
  | |- Emits _ (List _ _ _) => apply Emits_List; intros; try done
  | |- Emits _ (Create _ _) => apply Emits_Create; intros; try done
  | |- Emits _ (Update _ _) => apply Emits_Update; intros; try done
  | |- Emits _ (Delete _ _) => apply Emits_Delete; intros; try done
  | |- Emits _ (CreateOrUpdate _ _ _) =>
      apply Emits_CreateOrUpdate; [intros; try done | intros; try done | intros; try done
                                  | intros ?]
  | |- Emits _ (forRange _ _) => apply Emits_forRange; intros ? ?
  | |- Emits _ (match ?x with _ => _ end) => destruct x eqn:?
  | |- Emits _ ((fun _ => _) _) => cbv beta
  | |- Emits _ _ => progress autounfold with methods
  end.

Ltac emits := repeat emits_step.

(** * The claims *)

Lemma completes_stops ret : completes ret = true ↔ stops ret = None.
Proof.
  destruct ret; simpl; unfold stops; simpl;
    try (destruct (halts _ _)); try (destruct (isErr _)); simpl;
    try case_bool_decide; simpl; split; intros; congruence.
Qed.

Lemma halting_handedBack ret :
  halting ret = true → halts (handedBack ret).1 (handedBack ret).2 = true.
Proof.
  destruct ret as [p e|e|s e|ro e|msg]; simpl; try done.
  - destruct e; simpl; [done|discriminate].
  - destruct e; simpl; [done|discriminate].
  - destruct e; simpl; done.
Qed.

Section PassFacts.
Context {World : Type}.
Implicit Types (ps : PassState World) (m : PassM World Result).

(** Short circuit, from the specification of a pass. *)
Lemma PassSpec_short_circuit inst names tnames m ps lvl pre name ret post :
  PassSpec inst names tnames m →
  halting ret = true →
  logOf lvl (m ps).2 = logOf lvl ps ++ pre ++ (name, ret) :: post →
  post = [] ∧ (m ps).1 = Ok (handedBack ret).
Proof.
  intros Hspec Hh Hlog.
  destruct (Hspec ps) as (evs & tevs & E1 & E2 & E3 & _ & _ & E6).
  pose proof (halting_stops _ Hh) as Hs.
  destruct lvl; simpl in Hlog.
  - rewrite E1 in Hlog. apply app_inv_head in Hlog.
    by eapply chain_stop.
  - rewrite E2 in Hlog. apply app_inv_head in Hlog.
    destruct (inst_DeletionTimestamp inst).
    + destruct E6 as (fres & -> & Hc).
      destruct (chain_stop _ _ _ _ _ _ _ _ Hc Hlog Hs) as [-> ->].
      split; [done|].
      apply halting_handedBack in Hh.
      destruct (handedBack ret) as [phase err]. simpl in Hh.
      cbn [finalized finalizerEntry] in E3. rewrite Hh in E3.
      assert (stops (RetPhase phase err) = Some (Ok (phase, err))) as Hs'
        by (unfold stops; simpl; by rewrite Hh).
      by destruct (chain_stop _ _ _ [] _ _ [] _ E3 eq_refl Hs').
    + subst tevs. by destruct pre.
Qed.

Lemma PassSpec_order inst names tnames m ps :
  PassSpec inst names tnames m →
  ∃ evs, steps (m ps).2 = steps ps ++ evs ∧ evs.*1 `prefix_of` names.
Proof.
  intros Hspec. destruct (Hspec ps) as (evs & tevs & E1 & _ & E3 & _).
  exists evs. split; [done|]. by eapply chain_prefix.
Qed.

(** All steps completed, from the specification of a pass. *)
Lemma PassSpec_all_completed inst names tnames m ps evs :
  PassSpec inst names tnames m →
  steps (m ps).2 = steps ps ++ evs →
  Forall (λ e, completes e.2 = true) evs →
  (m ps).1 = Ok (PhaseCompleted, None) ∧ evs.*1 = names.
Proof.
  intros Hspec Hlog Hall.
  destruct (Hspec ps) as (evs' & tevs & E1 & _ & E3 & _).
  rewrite E1 in Hlog. apply app_inv_head in Hlog. subst evs'.
  eapply chain_all_completed; [done|].
  eapply Forall_impl; [done|]. intros e He. by apply completes_stops.
Qed.

(** The product status record, from the specification of a pass. *)
Lemma PassSpec_product inst names tnames m ps :
  PassSpec inst names tnames m →
  ((m ps).1 = Ok (PhaseCompleted, None)
   ∧ product (m ps).2 = writtenBack (config (st (m ps).2)) (product ps)
   ∧ ∃ evs, steps (m ps).2 = steps ps ++ evs ∧ evs.*1 = names
            ∧ Forall (λ e, completes e.2 = true) evs)
  ∨ ((m ps).1 ≠ Ok (PhaseCompleted, None) ∧ product (m ps).2 = product ps).
Proof.
  intros Hspec.
  destruct (Hspec ps) as (evs & tevs & E1 & _ & E3 & E4 & E5 & _).
  destruct (decide ((m ps).1 = Completed)) as [Hc|Hc].
  - left. split; [done|]. split; [by apply E5|].
    exists evs. split; [done|]. rewrite Hc in E3.
    apply chain_completed in E3 as [Hall Hn]. split; [done|].
    eapply Forall_impl; [done|]. intros e He. by apply completes_stops.
  - right. split; [done|]. by apply E4.
Qed.
End PassFacts.

(** C1. Strict short circuit: in a pass of [Reconcile], of Grafana and of
    3scale, a step that returns an error that is not nil or a phase other than
    Completed is the last step of its list to run in that pass (the forward
    steps and the teardown steps alike), and [Reconcile] returns the pair of
    that step: its phase and error, [PhaseFailed] and the error for a step
    that has no phase. *)
Theorem C1_short_circuit {World} (E : Env World) (inst : RHMI) (ps : PassState World)
    (lvl : Level) (pre post : list StepEvent) (name : string) (ret : StepReturn) :
  halting ret = true →
  (∀ r, logOf lvl (Grafana.Reconcile E r inst ps).2
          = logOf lvl ps ++ pre ++ (name, ret) :: post →
        post = [] ∧ (Grafana.Reconcile E r inst ps).1 = Ok (handedBack ret))
  ∧ (∀ r, logOf lvl (ThreeScale.Reconcile E r inst ps).2
            = logOf lvl ps ++ pre ++ (name, ret) :: post →
          post = [] ∧ (ThreeScale.Reconcile E r inst ps).1 = Ok (handedBack ret)).
Proof.
  intros Hh. split; intros r Hlog.
  - eapply PassSpec_short_circuit; [apply Grafana_Reconcile_spec|done|done].
  - eapply PassSpec_short_circuit; [apply ThreeScale_Reconcile_spec|done|done].
Qed.

Lemma C1_short_circuit_witness :
  halting (RetPhase PhaseInProgress None) = true
  ∧ (Grafana.Reconcile (Fake.env Demo.waiting) (Demo.grafana Demo.installation)
       Demo.installation (Demo.start Demo.grafanaWorld Demo.grafanaConfig)).1
    = Ok (PhaseInProgress, None)
  ∧ (ThreeScale.Reconcile (Fake.env Demo.waiting) (Demo.threeScale Demo.installation)
       Demo.installation (Demo.start Demo.threeScaleWorld Demo.threeScaleConfig)).1
    = Ok (PhaseInProgress, None).
Proof.
  split; [reflexivity|]. split.
  - refine (proj2 (proj1 (C1_short_circuit (Fake.env Demo.waiting) Demo.installation
                    (Demo.start Demo.grafanaWorld Demo.grafanaConfig) Forward
                    [("ReconcileFinalizer", RetPhase PhaseCompleted None)] []
                    "ReconcileNamespace(operatorNamespace)"
                    (RetPhase PhaseInProgress None) eq_refl)
                  (Demo.grafana Demo.installation) _)).
    vm_compute. reflexivity.
  - refine (proj2 (proj2 (C1_short_circuit (Fake.env Demo.waiting) Demo.installation
                    (Demo.start Demo.threeScaleWorld Demo.threeScaleConfig) Forward
                    [("ReconcileFinalizer", RetPhase PhaseCompleted None)] []
                    "ReconcileNamespace(operatorNamespace)"
                    (RetPhase PhaseInProgress None) eq_refl)
                  (Demo.threeScale Demo.installation) _)).
    vm_compute. reflexivity.
Defined.



(** C3. If every step that runs in a pass of [Reconcile] returns Completed with
    a nil error (a nil error for a step without a phase, a route for the route
    lookup), the whole ordered step list has run and [Reconcile] returns
    (Completed, nil). *)
Theorem C3_all_completed {World} (E : Env World) (inst : RHMI) (ps : PassState World)
    (evs : list StepEvent) :
  Forall (λ e, completes e.2 = true) evs →
  (∀ r, steps (Grafana.Reconcile E r inst ps).2 = steps ps ++ evs →
        (Grafana.Reconcile E r inst ps).1 = Ok (PhaseCompleted, None)
        ∧ evs.*1 = Grafana.stepList)
  ∧ (∀ r, steps (ThreeScale.Reconcile E r inst ps).2 = steps ps ++ evs →
          (ThreeScale.Reconcile E r inst ps).1 = Ok (PhaseCompleted, None)
          ∧ evs.*1 = ThreeScale.stepList r).
Proof.
  intros Hall. split; intros r Hlog.
  - eapply PassSpec_all_completed; [apply Grafana_Reconcile_spec|done|done].
  - eapply PassSpec_all_completed; [apply ThreeScale_Reconcile_spec|done|done].
Qed.

Lemma C3_all_completed_witness :
  (Grafana.Reconcile (Fake.env Demo.calm) (Demo.grafana Demo.installation)
     Demo.installation (Demo.start Demo.grafanaWorld Demo.grafanaConfig)).1
  = Ok (PhaseCompleted, None)
  ∧ (ThreeScale.Reconcile (Fake.env Demo.calm) (Demo.threeScale Demo.installation)
       Demo.installation (Demo.start Demo.threeScaleWorld Demo.threeScaleConfig)).1
    = Ok (PhaseCompleted, None).
Proof.
  split.
  - refine (proj1 (proj1 (C3_all_completed (Fake.env Demo.calm) Demo.installation
                    (Demo.start Demo.grafanaWorld Demo.grafanaConfig)
                    (steps (Grafana.Reconcile (Fake.env Demo.calm)
                              (Demo.grafana Demo.installation) Demo.installation
                              (Demo.start Demo.grafanaWorld Demo.grafanaConfig)).2) _)
                  (Demo.grafana Demo.installation) _)).
    + vm_compute. repeat constructor.
    + vm_compute. reflexivity.
  - refine (proj1 (proj2 (C3_all_completed (Fake.env Demo.calm) Demo.installation
                    (Demo.start Demo.threeScaleWorld Demo.threeScaleConfig)
                    (steps (ThreeScale.Reconcile (Fake.env Demo.calm)
                              (Demo.threeScale Demo.installation) Demo.installation
                              (Demo.start Demo.threeScaleWorld Demo.threeScaleConfig)).2) _)
                  (Demo.threeScale Demo.installation) _)).
    + vm_compute. repeat constructor.
    + vm_compute. reflexivity.
Defined.

(** C4. [Reconcile] assigns the Host, Version and OperatorVersion of the
    product status record only at the end of a pass in which every step of the
    list ran and completed, and then from the configuration; a pass that comes
    back with anything but (Completed, nil) leaves the record as it was. *)
Theorem C4_product_status {World} (E : Env World) (inst : RHMI) (ps : PassState World) :
  (∀ r,
     ((Grafana.Reconcile E r inst ps).1 = Ok (PhaseCompleted, None)
      ∧ product (Grafana.Reconcile E r inst ps).2
        = writtenBack (config (st (Grafana.Reconcile E r inst ps).2)) (product ps)
      ∧ ∃ evs, steps (Grafana.Reconcile E r inst ps).2 = steps ps ++ evs
               ∧ evs.*1 = Grafana.stepList
               ∧ Forall (λ e, completes e.2 = true) evs)
     ∨ ((Grafana.Reconcile E r inst ps).1 ≠ Ok (PhaseCompleted, None)
        ∧ product (Grafana.Reconcile E r inst ps).2 = product ps))
  ∧ (∀ r,
       ((ThreeScale.Reconcile E r inst ps).1 = Ok (PhaseCompleted, None)
        ∧ product (ThreeScale.Reconcile E r inst ps).2
          = writtenBack (config (st (ThreeScale.Reconcile E r inst ps).2)) (product ps)
        ∧ ∃ evs, steps (ThreeScale.Reconcile E r inst ps).2 = steps ps ++ evs
                 ∧ evs.*1 = ThreeScale.stepList r
                 ∧ Forall (λ e, completes e.2 = true) evs)
       ∨ ((ThreeScale.Reconcile E r inst ps).1 ≠ Ok (PhaseCompleted, None)
          ∧ product (ThreeScale.Reconcile E r inst ps).2 = product ps)).
Proof.
  split; intros r.
  - eapply PassSpec_product, Grafana_Reconcile_spec.
  - eapply PassSpec_product, ThreeScale_Reconcile_spec.
Qed.

(** ** The user difference *)

Lemma lowerByte_eqb a b :
  (Ascii.eqb a b || Ascii.eqb (lowerByte a) (lowerByte b))%bool = true
  ↔ lowerByte a = lowerByte b.
Proof.
  rewrite orb_true_iff, !Ascii.eqb_eq. split; [|by right].
  intros [->|H]; done.
Qed.

Lemma EqualFold_spec s t : EqualFold s t = true ↔ caseInsensitiveEqual s t.
Proof.
  unfold caseInsensitiveEqual. revert t.
  induction s as [|a s IH]; intros [|b t]; simpl; try done.
  destruct (Ascii.eqb a b || Ascii.eqb (lowerByte a) (lowerByte b))%bool eqn:Hab.
  - apply lowerByte_eqb in Hab. rewrite IH, Hab. split; [by intros ->|by intros [= ->]].
  - split; [done|]. intros [= Hc _]. apply lowerByte_eqb in Hc. congruence.
Qed.

Lemma caseInsensitiveEqual_sym a b : caseInsensitiveEqual a b ↔ caseInsensitiveEqual b a.
Proof. unfold caseInsensitiveEqual. split; congruence. Qed.

Lemma tsContainsKc_spec tsUsers kcUser :
  ThreeScale.tsContainsKc tsUsers kcUser = false
  ↔ Forall (λ ts, ¬ caseInsensitiveEqual (UserName kcUser) (Username ts)) tsUsers.
Proof.
  unfold ThreeScale.tsContainsKc.
  induction tsUsers as [|tsu rest IH]; [by split; [constructor|]|].
  destruct (EqualFold (Username tsu) (UserName kcUser)) eqn:Hf.
  - apply EqualFold_spec, caseInsensitiveEqual_sym in Hf.
    split; [done|]. by inversion 1.
  - rewrite IH. split.
    + intros Hall. constructor; [|done]. intros Hc.
      apply caseInsensitiveEqual_sym, EqualFold_spec in Hc. congruence.
    + by inversion 1.
Qed.

Lemma kcContainsTs_spec kcUsers tsUser :
  ThreeScale.kcContainsTs kcUsers tsUser = false
  ↔ Forall (λ kc, ¬ caseInsensitiveEqual (Username tsUser) (UserName kc)) kcUsers.
Proof.
  unfold ThreeScale.kcContainsTs.
  induction kcUsers as [|kcu rest IH]; [by split; [constructor|]|].
  destruct (EqualFold (UserName kcu) (Username tsUser)) eqn:Hf.
  - apply EqualFold_spec, caseInsensitiveEqual_sym in Hf.
    split; [done|]. by inversion 1.
  - rewrite IH. split.
    + intros Hall. constructor; [|done]. intros Hc.
      apply caseInsensitiveEqual_sym, EqualFold_spec in Hc. congruence.
    + by inversion 1.
Qed.

(** The loop [for _, x := range l { if keep(x) { acc = append(acc, x) } }]. *)
Lemma foldl_append_filter {A} (keep : A → bool) (P : A → Prop) `{∀ x, Decision (P x)}
    (l acc : list A) :
  (∀ x, keep x = true ↔ P x) →
  foldl (λ acc x, if keep x then acc ++ [x] else acc) acc l = acc ++ filter P l.
Proof.
  intros Hk. revert acc. induction l as [|x l IH]; intros acc; simpl.
  - by rewrite app_nil_r.
  - rewrite IH. destruct (keep x) eqn:Hx.
    + rewrite filter_cons_True by by apply Hk. by rewrite <- app_assoc.
    + rewrite filter_cons_False; [done|]. intros HP. apply Hk in HP. congruence.
Qed.

(** C8. For every list of keycloak users and every list of 3scale users,
    [getUserDiff] returns exactly the keycloak users whose user name is equal,
    up to case, to the user name of no 3scale user, and the 3scale users whose
    user name is equal, up to case, to that of no keycloak user, each in the
    order of its input. *)
Theorem C8_getUserDiff (kcUsers : list KeycloakAPIUser) (tsUsers : list User) :
  ThreeScale.getUserDiff kcUsers tsUsers = userDiffSpec kcUsers tsUsers.
Proof.
  unfold ThreeScale.getUserDiff, userDiffSpec. f_equal.
  - rewrite (foldl_append_filter _
      (λ kc, Forall (λ ts, ¬ caseInsensitiveEqual (UserName kc) (Username ts)) tsUsers));
      [done|].
    intros kc. rewrite negb_true_iff. apply tsContainsKc_spec.
  - rewrite (foldl_append_filter _
      (λ ts, Forall (λ kc, ¬ caseInsensitiveEqual (Username ts) (UserName kc)) kcUsers));
      [done|].
    intros ts. rewrite negb_true_iff. apply kcContainsTs_spec.
Qed.

Example getUserDiff_demo :
  ThreeScale.getUserDiff [Demo.kcAlice; Demo.kcBob] [Demo.tsAdmin; Demo.tsBob; Demo.tsCarol]
  = ([Demo.kcAlice], [Demo.tsAdmin; Demo.tsCarol]).
Proof. reflexivity. Qed.

(** ** Writes to the configuration store *)

Ltac run_head :=
  repeat (rewrite ?run_bind_bind, ?run_bind_ret, ?run_bind_getConfig, ?run_bind_setConfig,
            ?run_bind_call; cbn [config calls world fst snd]).

Lemma countWrites_app l1 l2 : countWrites (l1 ++ l2) = (countWrites l1 + countWrites l2)%nat.
Proof. unfold countWrites. by rewrite List.filter_app, List.length_app. Qed.

Lemma countWrites_none l : Forall (λ e, isWriteConfig e = false) l → countWrites l = 0%nat.
Proof.
  unfold countWrites. induction 1 as [|e l He _ IH]; [done|]. simpl. by rewrite He.
Qed.

Section ConfigWrites.
Context {World : Type} (E : Env World).

(** [reconcileHost] stores the host it has found, whatever was recorded. *)
Lemma reconcileHost_writes (r : Grafana.Reconciler) (s : State World) (route : Route) :
  (clientGet E Route
     {| key_Name := Grafana.defaultRoutename;
        key_Namespace := cfg_OperatorNamespace (config s) |} (world s)).1 = inr route →
  ∃ new resp,
    calls (Grafana.reconcileHost E r s).2 = calls s ++ new
    ∧ EvWriteConfig (SetHost ("https://" +:+ route_Host route) (config s)) resp ∈ new
    ∧ countWrites new = 1%nat.
Proof.
  intros Hget. unfold Grafana.reconcileHost, Get, ConfigManager_WriteConfig.
  run_head. rewrite Hget. cbn [isErr]. run_head.
  match goal with
  | |- context [WriteConfig E ?c ?w] => destruct (WriteConfig E c w) as [resp w'] eqn:Hw
  end.
  cbn [fst snd]. eexists _, resp. rewrite <- !app_assoc.
  destruct (isErr resp); cbn [calls snd]; (split; [reflexivity|]);
    (split; [set_solver|reflexivity]).
Qed.

(** The end of the Grafana [Reconcile] stores the product version only when
    it is not the recorded one. *)
Lemma reconciled_writes (r : Grafana.Reconciler) (inst : RHMI) (ps : PassState World) :
  ∃ new,
    calls (st (Grafana.reconciled E r inst ps).2) = calls (st ps) ++ new
    ∧ countWrites new
      = (if decide (cfg_ProductVersion (config (st ps)) = VersionGrafana E)
         then 0 else 1)%nat.
Proof.
  destruct ps as [[w cfg log] p l t].
  unfold Grafana.reconciled, bind, lift, getConfig, setConfig, ConfigManager_WriteConfig, call,
    setProduct, events_HandleProductComplete, emit, ret.
  cbn [st config calls world].
  case_bool_decide as Hv; destruct (decide (cfg_ProductVersion cfg = VersionGrafana E));
    try done; cbn.
  - destruct (WriteConfig E (SetProductVersion (VersionGrafana E) cfg) w) as [resp w'].
    cbn. rewrite <- !app_assoc. by eexists.
  - by eexists.
Qed.

(** [reconcileServiceDiscovery] stores the product version and the operator
    version only when they are not the recorded ones. *)
Lemma reconcileServiceDiscovery_writes (r : ThreeScale.Reconciler) (s : State World) :
  ∃ new,
    calls (ThreeScale.reconcileServiceDiscovery E r s).2 = calls s ++ new
    ∧ countWrites new
      = ((if decide (cfg_ProductVersion (config s) = Version3Scale E) then 0 else 1)
         + (if decide (cfg_OperatorVersion (config s) = OperatorVersion3Scale E)
            then 0 else 1))%nat.
Proof.
  unfold ThreeScale.reconcileServiceDiscovery, ConfigManager_WriteConfig.
  destruct s as [w cfg log].
  run_head.
  case_bool_decide as Hp; destruct (decide (cfg_ProductVersion cfg = Version3Scale E));
    try done; run_head;
    (case_bool_decide as Ho;
     destruct (decide (cfg_OperatorVersion cfg = OperatorVersion3Scale E));
     try done; run_head);
    (match goal with
     | |- ∃ new, calls (?m ?s').2 = _ ∧ _ =>
         assert (Emits (λ e, isWriteConfig e = false) m) as Hm by emits;
         destruct (Hm s') as (new & Hnew & Hall%countWrites_none)
     end);
    eexists;
    (split; [etransitivity; [apply Hnew|]; cbn [calls]; rewrite <- ?app_assoc; reflexivity|]);
    rewrite ?countWrites_app, Hall; reflexivity.
Qed.
End ConfigWrites.

(** C5, as the spec states it, fails for the discovered host: the host that
    [reconcileHost] recomputes is the one already recorded, and it is written
    to the configuration store all the same. *)
Lemma C5_counterexample :
  config (Grafana.reconcileHost (Fake.env Demo.calm) (Demo.grafana Demo.installation)
            {| world := Demo.grafanaWorld;
               config := SetHost "https://grafana.apps.example" Demo.grafanaConfig;
               calls := [] |}).2
  = SetHost "https://grafana.apps.example" Demo.grafanaConfig
  ∧ countWrites
      (calls (Grafana.reconcileHost (Fake.env Demo.calm) (Demo.grafana Demo.installation)
                {| world := Demo.grafanaWorld;
                   config := SetHost "https://grafana.apps.example" Demo.grafanaConfig;
                   calls := [] |}).2)
    = 1%nat.
Proof. split; vm_compute; reflexivity. Qed.

(** C5, amended. The product version (at the end of the Grafana [Reconcile], in
    [reconcileServiceDiscovery] of 3scale) and the operator version (in
    [reconcileServiceDiscovery]) are written to the configuration store only
    when the expected version differs from the recorded one, once each; the
    host that [reconcileHost] discovers is written on every pass that finds
    the route, equal to the recorded host or not. *)
Theorem C5_config_writes {World} (E : Env World) :
  (∀ (r : Grafana.Reconciler) inst (ps : PassState World), ∃ new,
     calls (st (Grafana.reconciled E r inst ps).2) = calls (st ps) ++ new
     ∧ countWrites new
       = (if decide (cfg_ProductVersion (config (st ps)) = VersionGrafana E)
          then 0 else 1)%nat)
  ∧ (∀ (r : ThreeScale.Reconciler) (s : State World), ∃ new,
       calls (ThreeScale.reconcileServiceDiscovery E r s).2 = calls s ++ new
       ∧ countWrites new
         = ((if decide (cfg_ProductVersion (config s) = Version3Scale E) then 0 else 1)
            + (if decide (cfg_OperatorVersion (config s) = OperatorVersion3Scale E)
               then 0 else 1))%nat)
  ∧ (∀ (r : Grafana.Reconciler) (s : State World) (route : Route),
       (clientGet E Route
          {| key_Name := Grafana.defaultRoutename;
             key_Namespace := cfg_OperatorNamespace (config s) |} (world s)).1 = inr route →
       ∃ new resp,
         calls (Grafana.reconcileHost E r s).2 = calls s ++ new
         ∧ EvWriteConfig (SetHost ("https://" +:+ route_Host route) (config s)) resp ∈ new
         ∧ countWrites new = 1%nat).
Proof.
  split; [|split].
  - apply reconciled_writes.
  - apply reconcileServiceDiscovery_writes.
  - apply reconcileHost_writes.
Qed.

Lemma C5_config_writes_witness :
  ∃ new resp,
    calls (Grafana.reconcileHost (Fake.env Demo.calm) (Demo.grafana Demo.installation)
             {| world := Demo.grafanaWorld; config := Demo.grafanaConfig; calls := [] |}).2
    = [] ++ new
    ∧ EvWriteConfig (SetHost "https://grafana.apps.example" Demo.grafanaConfig) resp ∈ new
    ∧ countWrites new = 1%nat.
Proof.
  refine (proj2 (proj2 (C5_config_writes (Fake.env Demo.calm)))
            (Demo.grafana Demo.installation)
            {| world := Demo.grafanaWorld; config := Demo.grafanaConfig; calls := [] |}
            {| route_meta := mkMeta "grafana-route" "rhmi-customer-monitoring-operator";
               route_Host := "grafana.apps.example" |} _).
  vm_compute. reflexivity.
Defined.

(** ** Waiting for cloud resources *)

(** Run the head of a method in the equation [H] that defines the run. *)
Ltac run_head_in H :=
  repeat (rewrite ?run_bind_bind, ?run_bind_ret, ?run_bind_getConfig, ?run_bind_setConfig,
            ?run_bind_call, ?run_call in H; cbn [config calls world fst snd] in H).

(** Name what the call at the head answered. *)
Ltac answer_in H :=
  match type of H with
  | context [fst ?x] =>
      lazymatch x with
      | (_, _) => fail
      | _ => let r := fresh "resp" in
             let w := fresh "w" in
             destruct x as [r w] eqn:?; cbn [fst snd] in H
      end
  end.

(** Case on the first test in the run. *)
Ltac branch_in H :=
  match type of H with
  | context [match ?x with _ => _ end] =>
      destruct x eqn:?; cbn [isErr negb andb orb] in H
  end.

(** The run has returned. *)
Ltac returned_in H :=
  lazymatch type of H with
  | _ = ret _ _ => idtac
  | _ = panic _ _ => idtac
  end.

Ltac first_failed :=
  repeat first [ apply Exists_cons_hd; first [reflexivity | eassumption]
               | apply Exists_cons_tl ].

Section Waiting.
Context {World : Type} (E : Env World).

Lemma reconcileBlobStorage_awaits (r : ThreeScale.Reconciler) (s : State World) blob :
  (blobStorageRequest E r (world s)).1 = inr blob →
  blob_Phase blob ≠ PhaseComplete →
  (ThreeScale.reconcileBlobStorage E r s).1 = Ok (PhaseAwaitingComponents, None).
Proof.
  intros Hreq Hph. unfold blobStorageRequest in Hreq.
  unfold ThreeScale.reconcileBlobStorage, croUtil_ReconcileBlobStorage.
  rewrite run_bind_call, Hreq. by rewrite (bool_decide_eq_true_2 _ Hph).
Qed.

(** A halting answer of an alert helper is a failed call. *)
Lemma halts_alerts phase (err : error) :
  isErr err = false → bool_decide (phase ≠ PhaseCompleted) = true → halts phase err = true.
Proof. intros H1 H2. unfold halts. by rewrite H1, H2. Qed.

Lemma reconcileExternalDatasources_backend (r : ThreeScale.Reconciler) (s : State World)
    b new :
  (backendRedisRequest E r (world s)).1 = inr b →
  redis_Phase b ≠ PhaseComplete →
  calls (ThreeScale.reconcileExternalDatasources E r s).2 = calls s ++ new →
  (ThreeScale.reconcileExternalDatasources E r s).1 = Ok (PhaseAwaitingComponents, None)
  ∨ Exists (λ e, failed e = true) new.
Proof.
  intros Hreq Hph. unfold backendRedisRequest in Hreq.
  remember (ThreeScale.reconcileExternalDatasources E r s) as run eqn:Hrun.
  unfold ThreeScale.reconcileExternalDatasources in Hrun. autounfold with methods in Hrun.
  run_head_in Hrun. rewrite Hreq in Hrun.
  repeat (run_head_in Hrun; try rewrite (bool_decide_eq_true_2 _ Hph) in Hrun;
          first [ returned_in Hrun | answer_in Hrun | branch_in Hrun ]).
  all: subst; cbn [ret fst snd calls]; rewrite <- ?app_assoc;
    intros Hlog%app_inv_head; subst new.
  all: first [ by left | right ].
  all: repeat match goal with
         | H : isErr ?e = true |- _ => destruct e; [clear H|discriminate H]
         | H : isErr ?e = false, H' : bool_decide (_ ≠ PhaseCompleted) = true |- _ =>
             pose proof (halts_alerts _ _ H H'); clear H'
         end.
  all: first_failed.
Qed.

Lemma reconcileExternalDatasources_system (r : ThreeScale.Reconciler) (s : State World)
    sr new :
  (systemRedisRequest E r (backendRedisRequest E r (world s)).2).1 = inr sr →
  redis_Phase sr ≠ PhaseComplete →
  calls (ThreeScale.reconcileExternalDatasources E r s).2 = calls s ++ new →
  (ThreeScale.reconcileExternalDatasources E r s).1 = Ok (PhaseAwaitingComponents, None)
  ∨ (∃ msg cause, msg ∈ failsBeforeSystemRedis
       ∧ (ThreeScale.reconcileExternalDatasources E r s).1
         = Ok (PhaseFailed, Some (ErrWrap msg cause)))
  ∨ (∃ cr phase, EvReconcileRedisAlerts cr (phase, None) ∈ new
       ∧ phase ≠ PhaseCompleted
       ∧ (ThreeScale.reconcileExternalDatasources E r s).1 = Ok (phase, None))
  ∨ (ThreeScale.reconcileExternalDatasources E r s).1
    = Panic "assignment to entry in nil map".
Proof.
  intros Hreq Hph. unfold systemRedisRequest, backendRedisRequest in Hreq.
  remember (ThreeScale.reconcileExternalDatasources E r s) as run eqn:Hrun.
  unfold ThreeScale.reconcileExternalDatasources in Hrun. autounfold with methods in Hrun.
  unfold CreateOrUpdate, mutate, Get, Create, Update in Hrun.
  run_head_in Hrun. answer_in Hrun. cbn [snd] in Hreq.
  branch_in Hrun.
  { subst; cbn [ret fst snd calls]. intros _. right; left.
    do 2 eexists. split; [|reflexivity]. apply list_elem_of_here. }
  run_head_in Hrun. rewrite Hreq in Hrun.
  repeat (run_head_in Hrun; try rewrite (bool_decide_eq_true_2 _ Hph) in Hrun;
          first [ returned_in Hrun | answer_in Hrun | branch_in Hrun ]).
  all: subst; cbn [ret panic fst snd calls]; rewrite <- ?app_assoc;
    intros Hlog%app_inv_head; subst new.
  all: repeat match goal with
         | H : isErr ?e = true |- _ => destruct e; [clear H|discriminate H]
         | H : isErr ?e = false |- _ => destruct e; [discriminate H|clear H]
         end.
  all: first [ by left
             | right; left; do 2 eexists; split; [|reflexivity];
               apply list_elem_of_In; cbn [Errorf]; simpl; tauto
             | by right; right; right
             | right; right; left; do 2 eexists; split; [|split; [|reflexivity]];
               [ apply list_elem_of_In; simpl; tauto
               | eapply bool_decide_eq_true_1; eassumption ]
             ].
Qed.

(** With the system redis not complete the step does not complete. *)
Lemma reconcileExternalDatasources_system_waits (r : ThreeScale.Reconciler)
    (s : State World) sr new :
  (systemRedisRequest E r (backendRedisRequest E r (world s)).2).1 = inr sr →
  redis_Phase sr ≠ PhaseComplete →
  calls (ThreeScale.reconcileExternalDatasources E r s).2 = calls s ++ new →
  (ThreeScale.reconcileExternalDatasources E r s).1 ≠ Ok (PhaseCompleted, None).
Proof.
  intros Hreq Hph Hnew.
  destruct (reconcileExternalDatasources_system r s sr new Hreq Hph Hnew)
    as [->|[(msg & cause & _ & ->)|[(cr & phase & _ & Hne & ->)| ->]]];
    congruence.
Qed.
End Waiting.

(** C6, as the spec states it, fails for the backend redis: the request for
    the backend redis succeeds and reports the phase [in progress], the
    request for the system redis, which [reconcileExternalDatasources] makes
    before it looks at that phase, is refused, and the step returns
    [PhaseFailed] with the error. *)
Lemma C6_counterexample :
  ∃ b,
    (backendRedisRequest (Fake.env Demo.systemRefused) (Demo.threeScale Demo.installation)
       (world Demo.threeScaleState)).1 = inr b
    ∧ redis_Phase b ≠ PhaseComplete
    ∧ (ThreeScale.reconcileExternalDatasources (Fake.env Demo.systemRefused)
         (Demo.threeScale Demo.installation) Demo.threeScaleState).1
      = Ok (PhaseFailed,
            Some (ErrWrap "failed to reconcile system redis request"
                    (ErrOther "redis quota exceeded"))).
Proof.
  eexists. split; [vm_compute; reflexivity|]. split; [|vm_compute; reflexivity].
  vm_compute. discriminate.
Qed.

(** C6, amended. A provisioning request that succeeded with a phase other than
    complete makes its step return [PhaseAwaitingComponents] with a nil error
    once the step reaches the test of that phase.
    - Blob storage: [reconcileBlobStorage] makes no other call before the
      test, and always returns [PhaseAwaitingComponents] with a nil error.
    - Backend redis: [reconcileExternalDatasources] returns
      [PhaseAwaitingComponents] with a nil error unless one of its calls
      failed (the requests for the system redis and for postgres and the two
      alert helpers come before the test).
    - System redis: [reconcileExternalDatasources] returns
      [PhaseAwaitingComponents] with a nil error, or has stopped before the
      test: with [PhaseFailed] and an error wrapped in the message of one of
      the failures that come before the test, or with the phase, other than
      Completed, that a redis alerts helper answered, and a nil error, or with
      the panic of an assignment into a nil map (writing the backend redis
      connection secret into a stored secret that has no data map).  It never
      returns [PhaseCompleted] with a nil error. *)
Theorem C6_awaiting_components {World} (E : Env World) (r : ThreeScale.Reconciler)
    (s : State World) :
  (∀ blob,
     (blobStorageRequest E r (world s)).1 = inr blob →
     blob_Phase blob ≠ PhaseComplete →
     (ThreeScale.reconcileBlobStorage E r s).1 = Ok (PhaseAwaitingComponents, None))
  ∧ (∀ b new,
       (backendRedisRequest E r (world s)).1 = inr b →
       redis_Phase b ≠ PhaseComplete →
       calls (ThreeScale.reconcileExternalDatasources E r s).2 = calls s ++ new →
       (ThreeScale.reconcileExternalDatasources E r s).1 = Ok (PhaseAwaitingComponents, None)
       ∨ Exists (λ e, failed e = true) new)
  ∧ (∀ sr new,
       (systemRedisRequest E r (backendRedisRequest E r (world s)).2).1 = inr sr →
       redis_Phase sr ≠ PhaseComplete →
       calls (ThreeScale.reconcileExternalDatasources E r s).2 = calls s ++ new →
       ((ThreeScale.reconcileExternalDatasources E r s).1
        = Ok (PhaseAwaitingComponents, None)
        ∨ (∃ msg cause, msg ∈ failsBeforeSystemRedis
             ∧ (ThreeScale.reconcileExternalDatasources E r s).1
               = Ok (PhaseFailed, Some (ErrWrap msg cause)))
        ∨ (∃ cr phase, EvReconcileRedisAlerts cr (phase, None) ∈ new
             ∧ phase ≠ PhaseCompleted
             ∧ (ThreeScale.reconcileExternalDatasources E r s).1 = Ok (phase, None))
        ∨ (ThreeScale.reconcileExternalDatasources E r s).1
          = Panic "assignment to entry in nil map")
       ∧ (ThreeScale.reconcileExternalDatasources E r s).1 ≠ Ok (PhaseCompleted, None)).
Proof.
  split; [|split].
  - intros blob. apply reconcileBlobStorage_awaits.
  - intros b new. apply reconcileExternalDatasources_backend.
  - intros sr new Hreq Hph Hnew. split.
    + by eapply reconcileExternalDatasources_system.
    + by eapply reconcileExternalDatasources_system_waits.
Qed.

Lemma C6_awaiting_components_witness :
  (ThreeScale.reconcileBlobStorage (Fake.env Demo.blobProvisioning)
     (Demo.threeScale Demo.installation) Demo.threeScaleState).1
  = Ok (PhaseAwaitingComponents, None)
  ∧ ((ThreeScale.reconcileExternalDatasources (Fake.env Demo.backendProvisioning)
        (Demo.threeScale Demo.installation) Demo.threeScaleState).1
     = Ok (PhaseAwaitingComponents, None)
     ∨ Exists (λ e, failed e = true)
         (calls (ThreeScale.reconcileExternalDatasources (Fake.env Demo.backendProvisioning)
                   (Demo.threeScale Demo.installation) Demo.threeScaleState).2))
  ∧ (ThreeScale.reconcileExternalDatasources (Fake.env Demo.systemProvisioning)
       (Demo.threeScale Demo.installation) Demo.threeScaleState).1
    ≠ Ok (PhaseCompleted, None).
Proof.
  split; [|split].
  - refine (proj1 (C6_awaiting_components (Fake.env Demo.blobProvisioning)
                     (Demo.threeScale Demo.installation) Demo.threeScaleState)
              {| blob_meta := mkMeta "threescale-blobstorage-rhmi" "rhmi-operator";
                 blob_Phase := "in progress";
                 blob_SecretRef := {| ref_Name := ""; ref_Namespace := "" |} |} _ _).
    + vm_compute. reflexivity.
    + vm_compute. discriminate.
  - refine (proj1 (proj2 (C6_awaiting_components (Fake.env Demo.backendProvisioning)
                            (Demo.threeScale Demo.installation) Demo.threeScaleState))
              (Demo.provisioning "threescale-backend-redis-rhmi") _ _ _ _).
    + vm_compute. reflexivity.
    + vm_compute. discriminate.
    + reflexivity.
  - refine (proj2 (proj2 (proj2 (C6_awaiting_components (Fake.env Demo.systemProvisioning)
                            (Demo.threeScale Demo.installation) Demo.threeScaleState))
              (Demo.provisioning "threescale-redis-rhmi") _ _ _ _)).
    + vm_compute. reflexivity.
    + vm_compute. discriminate.
    + reflexivity.
Defined.

(** In that scenario the step does wait for the system redis. *)
Example reconcileExternalDatasources_waits_for_system_redis :
  (ThreeScale.reconcileExternalDatasources (Fake.env Demo.systemProvisioning)
     (Demo.threeScale Demo.installation) Demo.threeScaleState).1
  = Ok (PhaseAwaitingComponents, None).
Proof. vm_compute. reflexivity. Qed.

(** ** SMTP credentials *)

Lemma syncAll_spec (credSec : Secret) (fields : list (string * string)) :
  NoDup fields.*2 →
  ∀ data b,
    (syncAll credSec fields (data, b)).2
    = b || existsb (λ p, bool_decide (mapGet (secret_Data credSec) p.1
                                      ≠ mapGet (Some data) p.2)) fields
    ∧ Forall (λ p, mapGet (Some (syncAll credSec fields (data, b)).1) p.2
                   = mapGet (secret_Data credSec) p.1) fields
    ∧ (∀ k, k ∉ fields.*2 → (syncAll credSec fields (data, b)).1 !! k = data !! k).
Proof.
  induction fields as [|[from to] fields IH]; intros Hnd data b.
  { cbn. by rewrite orb_false_r. }
  apply NoDup_cons in Hnd as [Hto Hnd]. cbn [fmap list_fmap snd] in Hto.
  cbn [syncAll foldl fst snd existsb].
  change (foldl _ ?acc fields) with (syncAll credSec fields acc).
  unfold ThreeScale.syncSMTPField.
  assert (∀ data1 : gmap string string, (∀ k, k ≠ to → data1 !! k = data !! k) →
    existsb (λ p, bool_decide (mapGet (secret_Data credSec) p.1 ≠ mapGet (Some data1) p.2))
      fields
    = existsb (λ p, bool_decide (mapGet (secret_Data credSec) p.1 ≠ mapGet (Some data) p.2))
        fields) as Hsame.
  { intros data1 Hd. clear IH Hnd. induction fields as [|[f t] fields IH]; [done|].
    cbn [existsb fst snd]. cbn [fmap list_fmap snd] in Hto.
    apply not_elem_of_cons in Hto as [Hne Hto]. rewrite (IH Hto).
    unfold mapGet. by rewrite (Hd t). }
  case_bool_decide as Hdiff.
  - destruct (IH Hnd (<[to := mapGet (secret_Data credSec) from]> data) true)
      as (Hb & Hall & Hkeep).
    split; [|split].
    + rewrite Hb. cbn. by rewrite orb_true_r.
    + constructor; [|done]. cbn [fst snd]. unfold mapGet at 1.
      rewrite (Hkeep to Hto), lookup_insert. by case_decide.
    + intros k [Hk Hks]%not_elem_of_cons. rewrite (Hkeep k Hks).
      by rewrite lookup_insert_ne.
  - destruct (IH Hnd data b) as (Hb & Hall & Hkeep).
    split; [|split].
    + rewrite Hb. cbn. done.
    + constructor; [|done]. cbn [fst snd].
      unfold mapGet at 1. rewrite (Hkeep to Hto). symmetry. exact Hdiff.
    + intros k [Hk Hks]%not_elem_of_cons. by apply Hkeep.
Qed.

Lemma mapGet_mapEntries (m : GoMap) (k : string) : mapGet (Some (mapEntries m)) k = mapGet m k.
Proof. destruct m; [done|]. cbn. by rewrite lookup_empty. Qed.

Lemma syncAll_smtp (credSec stored : Secret) (meta : ObjectMeta) :
  (syncAll credSec smtpFields (mapEntries (secret_Data stored), false)).2
  = smtpDiffers credSec stored
  ∧ smtpSynced credSec
      {| secret_meta := meta;
         secret_Data :=
           Some (syncAll credSec smtpFields (mapEntries (secret_Data stored), false)).1 |}
  ∧ (smtpDiffers credSec stored = true →
     (syncAll credSec smtpFields (mapEntries (secret_Data stored), false)).1
     ≠ mapEntries (secret_Data stored)).
Proof.
  assert (NoDup smtpFields.*2) as Hnd
    by (apply (bool_decide_unpack _); vm_compute; exact I).
  destruct (syncAll_spec credSec smtpFields Hnd (mapEntries (secret_Data stored)) false)
    as (Hb & Hall & _).
  assert (existsb (λ p, bool_decide (mapGet (secret_Data credSec) p.1
                                     ≠ mapGet (Some (mapEntries (secret_Data stored))) p.2))
            smtpFields = smtpDiffers credSec stored) as Hex.
  { unfold smtpDiffers. generalize smtpFields. intros l.
    induction l as [|p l IH]; [done|].
    cbn [existsb]. by rewrite IH, mapGet_mapEntries. }
  rewrite Hex in Hb. split; [done|]. split; [done|].
  intros Hd Heq. rewrite Heq in Hall. unfold smtpDiffers in Hd.
  apply existsb_exists in Hd as (p & Hp & Hd). apply bool_decide_eq_true in Hd.
  rewrite Forall_forall in Hall. specialize (Hall p). 
  rewrite mapGet_mapEntries in Hall. apply Hd. symmetry. apply Hall.
  rewrite list_elem_of_In. exact Hp.
Qed.

Section SMTP.
Context {World : Type} (E : Env World).

Lemma reconcileSMTPCredentials_rollout (r : ThreeScale.Reconciler) (s : State World)
    (credResp smtpResp : Err + Secret) (w1 w2 : World) :
  let credKey := {| key_Name := inst_SMTPSecret (ThreeScale.installation r);
                    key_Namespace := inst_Namespace (ThreeScale.installation r) |} in
  let smtpKey := {| key_Name := "system-smtp"; key_Namespace := cfg_Namespace (config s) |} in
  let credSec := match credResp with inr c => c | inl _ => ThreeScale.emptySecret end in
  let stored :=
    match smtpResp with
    | inr o => o
    | inl _ => {| secret_meta := mkMeta "system-smtp" (cfg_Namespace (config s));
                  secret_Data := Some ∅ |}
    end in
  clientGet E Secret credKey (world s) = (credResp, w1) →
  clientGet E Secret smtpKey w1 = (smtpResp, w2) →
  match smtpResp with
  | inr o => keyOfMeta (secret_meta o) = smtpKey
  | inl e => IsNotFound (Some e) = true
  end →
  ∃ new, calls (ThreeScale.reconcileSMTPCredentials E r s).2 = calls s ++ new
    ∧ if smtpDiffers credSec stored then
        ∃ a1 a2 written resp,
          new = [EvGet KSecret credKey (logObject credResp);
                 EvGet KSecret smtpKey (logObject smtpResp);
                 EvInstantiate (cfg_Namespace (config s)) "system-app" a1;
                 EvInstantiate (cfg_Namespace (config s)) "system-sidekiq" a2;
                 (if smtpResp is inl _ then EvCreate else EvUpdate) (ASecret written) resp]
          ∧ keyOfMeta (secret_meta written) = smtpKey
          ∧ smtpSynced credSec written
      else Forall (λ e, isRollout e = false) new.
Proof.
  intros credKey smtpKey credSec stored Hcred Hsmtp Hans.
  unfold ThreeScale.reconcileSMTPCredentials, CreateOrUpdate, mutate, Get, Create, Update,
    ThreeScale.RolloutDeployment.
  run_head. fold credKey. rewrite Hcred. cbn [fst snd].
  assert (match credResp with
          | inl e => (ThreeScale.emptySecret, Some e)
          | inr o => (o, None)
          end = (credSec, match credResp with inl e => Some e | inr _ => None end)) as ->
    by (subst credSec; by destruct credResp).
  clearbody credSec. run_head.
  change (keyOfMeta (metaOf {| secret_meta := mkMeta "system-smtp" (cfg_Namespace (config s));
                               secret_Data := Some ∅ |})) with smtpKey.
  rewrite Hsmtp. cbn [fst snd].
  destruct smtpResp as [e|o]; subst stored; run_head; cbn [isErr];
    [rewrite Hans; cbn [negb]|];
    change (ThreeScale.syncSMTPField credSec "username" "username" _)
      with (syncAll credSec smtpFields
              (mapEntries (secret_Data ltac:(first [exact o
                 | exact {| secret_meta := mkMeta "system-smtp" (cfg_Namespace (config s));
                            secret_Data := Some ∅ |}])), false)).
  all: match goal with
       | |- context [syncAll ?c smtpFields (mapEntries (secret_Data ?st), false)] =>
           destruct (syncAll_smtp c st
                       (AddIntegreatlyOwnerAnnotations E (secret_meta st)
                          (ThreeScale.installation r))) as (Hb & Hsync & Hne);
           destruct (syncAll c smtpFields (mapEntries (secret_Data st), false))
             as [data' upd]; cbn [fst snd] in Hb, Hsync, Hne; subst upd;
           destruct (smtpDiffers c st) eqn:Hd
       end.
  all: run_head; cbn [isErr].
  all: rewrite bool_decide_eq_false_2
         by (intros Hk; apply Hk; first [reflexivity | symmetry; exact Hans]).
  all: match goal with
       | |- ∃ new, calls (?m ?st).2 = _ ∧ _ => remember (m st) as run eqn:Hrun
       end.
  all: repeat (run_head_in Hrun;
               first [ returned_in Hrun | answer_in Hrun | branch_in Hrun ]).
  all: subst run; cbn [ret fst snd calls]; rewrite <- ?app_assoc.
  all: try (eexists; split; [reflexivity|]; cbn [app];
            first [ by repeat constructor
                  | do 4 eexists; split; [reflexivity|]; split; [|exact Hsync];
                    first [reflexivity | exact Hans] ]).
  exfalso. cbn [deepEqual Secret_object] in Heqb0.
  apply andb_true_iff in Heqb0 as [_ Hdata%bool_decide_eq_true].
  apply (Hne eq_refl). symmetry. exact Hdata.
Qed.
End SMTP.

(** C7. [reconcileSMTPCredentials] reads the incoming credentials (an empty
    secret when the lookup fails) and the [system-smtp] secret (the empty one
    it starts from when there is none yet). If one of the seven fields (host
    against address, authentication, domain, openssl.verify.mode, password,
    port, username) differs, it asks for a rollout of [system-app] and of
    [system-sidekiq], whatever the first rollout answers, and then writes the
    [system-smtp] secret (an update, a create when there was none) with every
    field that of the incoming credentials; if all fields are equal, no
    rollout is asked for in that pass. *)
Theorem C7_smtp_rollout {World} (E : Env World) (r : ThreeScale.Reconciler)
    (s : State World) (credResp smtpResp : Err + Secret) (w1 w2 : World) :
  let credKey := {| key_Name := inst_SMTPSecret (ThreeScale.installation r);
                    key_Namespace := inst_Namespace (ThreeScale.installation r) |} in
  let smtpKey := {| key_Name := "system-smtp"; key_Namespace := cfg_Namespace (config s) |} in
  let credSec := match credResp with inr c => c | inl _ => ThreeScale.emptySecret end in
  let stored :=
    match smtpResp with
    | inr o => o
    | inl _ => {| secret_meta := mkMeta "system-smtp" (cfg_Namespace (config s));
                  secret_Data := Some ∅ |}
    end in
  clientGet E Secret credKey (world s) = (credResp, w1) →
  clientGet E Secret smtpKey w1 = (smtpResp, w2) →
  match smtpResp with
  | inr o => keyOfMeta (secret_meta o) = smtpKey
  | inl e => IsNotFound (Some e) = true
  end →
  ∃ new, calls (ThreeScale.reconcileSMTPCredentials E r s).2 = calls s ++ new
    ∧ if smtpDiffers credSec stored then
        ∃ a1 a2 written resp,
          new = [EvGet KSecret credKey (logObject credResp);
                 EvGet KSecret smtpKey (logObject smtpResp);
                 EvInstantiate (cfg_Namespace (config s)) "system-app" a1;
                 EvInstantiate (cfg_Namespace (config s)) "system-sidekiq" a2;
                 (if smtpResp is inl _ then EvCreate else EvUpdate) (ASecret written) resp]
          ∧ keyOfMeta (secret_meta written) = smtpKey
          ∧ smtpSynced credSec written
      else Forall (λ e, isRollout e = false) new.
Proof. apply reconcileSMTPCredentials_rollout. Qed.

Lemma C7_smtp_rollout_witness :
  ∃ new,
    calls (ThreeScale.reconcileSMTPCredentials (Fake.env Demo.calm)
             (Demo.threeScale Demo.installation) Demo.threeScaleState).2
    = calls Demo.threeScaleState ++ new
    ∧ ∃ a1 a2 written resp,
        new = [EvGet KSecret {| key_Name := "rhmi-smtp"; key_Namespace := "rhmi-operator" |}
                 (inr (Demo.secret "rhmi-smtp" "rhmi-operator"
                         [("host", "smtp.example"); ("port", "587"); ("username", "mailer");
                          ("password", "s3cret")]));
               EvGet KSecret {| key_Name := "system-smtp"; key_Namespace := "rhmi-3scale" |}
                 (inr (Demo.secret "system-smtp" "rhmi-3scale"
                         [("address", "smtp.example"); ("port", "25"); ("username", "mailer");
                          ("password", "s3cret")]));
               EvInstantiate "rhmi-3scale" "system-app" a1;
               EvInstantiate "rhmi-3scale" "system-sidekiq" a2;
               EvUpdate (ASecret written) resp]
        ∧ keyOfMeta (secret_meta written)
          = {| key_Name := "system-smtp"; key_Namespace := "rhmi-3scale" |}
        ∧ smtpSynced
            {| secret_meta := mkMeta "rhmi-smtp" "rhmi-operator";
               secret_Data :=
                 Some (list_to_map [("host", "smtp.example"); ("port", "587");
                                    ("username", "mailer"); ("password", "s3cret")]) |}
            written.
Proof.
  refine (C7_smtp_rollout (Fake.env Demo.calm) (Demo.threeScale Demo.installation)
            Demo.threeScaleState
            (inr {| secret_meta := mkMeta "rhmi-smtp" "rhmi-operator";
                    secret_Data :=
                      Some (list_to_map [("host", "smtp.example"); ("port", "587");
                                         ("username", "mailer"); ("password", "s3cret")]) |})
            (inr {| secret_meta := mkMeta "system-smtp" "rhmi-3scale";
                    secret_Data :=
                      Some (list_to_map [("address", "smtp.example"); ("port", "25");
                                         ("username", "mailer"); ("password", "s3cret")]) |})
            Demo.threeScaleWorld Demo.threeScaleWorld _ _ _).
  - vm_compute. reflexivity.
  - vm_compute. reflexivity.
  - reflexivity.
Defined.

(** ** The route of the system master *)

Lemma getThreescaleRoute_none {World} (E : Env World) (r : ThreeScale.Reconciler)
    (label : string) (filterFn : option (Route → bool)) (s : State World)
    (selector : string) (w' : World) :
  labels_Parse E ("zync.3scale.net/route-to=" +:+ label) = inr selector →
  clientList E Route
    {| list_Namespace := cfg_Namespace (config s); list_LabelSelector := Some selector;
       list_MatchingLabels := ∅ |} (world s) = (inr [], w') →
  (ThreeScale.getThreescaleRoute E r label filterFn s).1 = Ok (None, None).
Proof.
  intros Hparse Hlist. unfold ThreeScale.getThreescaleRoute, List.
  rewrite Hparse. run_head. by rewrite Hlist.
Qed.

(** C9. The 3scale [Reconcile] can return [PhaseFailed] together with a nil
    error. When the listing of the routes under a label succeeds with no
    route, [getThreescaleRoute] returns [(nil, nil)]; when the lookup of the
    system-master route that [Reconcile] makes returns [(nil, nil)],
    [Reconcile] returns [(PhaseFailed, nil)]; and there is a pass that does:
    the one in which the system-master route is gone by the time [Reconcile]
    looks it up. *)
Theorem C9_failed_without_error :
  (∀ World (E : Env World) r label filterFn (s : State World) selector w',
     labels_Parse E ("zync.3scale.net/route-to=" +:+ label) = inr selector →
     clientList E Route
       {| list_Namespace := cfg_Namespace (config s); list_LabelSelector := Some selector;
          list_MatchingLabels := ∅ |} (world s) = (inr [], w') →
     (ThreeScale.getThreescaleRoute E r label filterFn s).1 = Ok (None, None))
  ∧ (∀ World (E : Env World) r inst (ps : PassState World) pre post,
       steps (ThreeScale.Reconcile E r inst ps).2
       = steps ps ++ pre ++ ("getThreescaleRoute(system-master)", RetRoute None None) :: post →
       (ThreeScale.Reconcile E r inst ps).1 = Ok (PhaseFailed, None))
  ∧ (ThreeScale.Reconcile (Fake.env (Fake.withMasterRouteLifetime (Some 1%nat) Demo.calm))
       (Demo.threeScale Demo.installation) Demo.installation
       (Demo.start Demo.threeScaleWorld Demo.threeScaleConfig)).1
    = Ok (PhaseFailed, None).
Proof.
  split; [|split].
  - intros. by eapply getThreescaleRoute_none.
  - intros World E r inst ps pre post Hlog.
    eapply (PassSpec_short_circuit _ _ _ _ ps Forward pre _ (RetRoute None None) post);
      [apply ThreeScale_Reconcile_spec|reflexivity|exact Hlog].
  - vm_compute. reflexivity.
Qed.

Lemma C9_failed_without_error_witness :
  (ThreeScale.getThreescaleRoute (Fake.env (Fake.withMasterRouteLifetime (Some 0%nat) Demo.calm))
     (Demo.threeScale Demo.installation) "system-master" None Demo.threeScaleState).1
  = Ok (None, None)
  ∧ (ThreeScale.Reconcile (Fake.env (Fake.withMasterRouteLifetime (Some 1%nat) Demo.calm))
       (Demo.threeScale Demo.installation) Demo.installation
       (Demo.start Demo.threeScaleWorld Demo.threeScaleConfig)).1
    = Ok (PhaseFailed, None).
Proof.
  split.
  - refine (proj1 C9_failed_without_error _
              (Fake.env (Fake.withMasterRouteLifetime (Some 0%nat) Demo.calm))
              (Demo.threeScale Demo.installation) "system-master" None
              Demo.threeScaleState _ _ _ _).
    + reflexivity.
    + reflexivity.
  - refine (proj1 (proj2 C9_failed_without_error) _
              (Fake.env (Fake.withMasterRouteLifetime (Some 1%nat) Demo.calm))
              (Demo.threeScale Demo.installation) Demo.installation
              (Demo.start Demo.threeScaleWorld Demo.threeScaleConfig)
              [("ReconcileFinalizer", RetPhase PhaseCompleted None);
               ("ReconcileNamespace(operatorNamespace)", RetPhase PhaseCompleted None);
               ("ReconcileNamespace(productNamespace)", RetPhase PhaseCompleted None);
               ("restoreSystemSecrets", RetPhase PhaseCompleted None);
               ("CopyPullSecretToNameSpace", RetErr None);
               ("reconcileSubscription", RetPhase PhaseCompleted None);
               ("reconcileSMTPCredentials", RetPhase PhaseCompleted None);
               ("reconcileExternalDatasources", RetPhase PhaseCompleted None);
               ("reconcileBlobStorage", RetPhase PhaseCompleted None);
               ("reconcileComponents", RetPhase PhaseCompleted None);
               ("reconcileRHSSOIntegration", RetPhase PhaseCompleted None);
               ("reconcileBlackboxTargets", RetPhase PhaseCompleted None);
               ("reconcileOpenshiftUsers", RetPhase PhaseCompleted None);
               ("getOauthClientSecret", RetSecret "client-secret" None)] [] _).
    vm_compute. reflexivity.
Defined.

(** ** User synchronisation and the system admin *)

(** The users that [getUserDiff] returns for deletion are 3scale users. *)
Lemma getUserDiff_deleted (kcUsers : list KeycloakAPIUser) (tsUsers : list User) (u : User) :
  u ∈ (ThreeScale.getUserDiff kcUsers tsUsers).2 → u ∈ tsUsers.
Proof.
  unfold ThreeScale.getUserDiff. cbn [snd].
  rewrite (foldl_append_filter _ (λ ts, negb (ThreeScale.kcContainsTs kcUsers ts) = true));
    [|done].
  cbn [app]. by intros [_ Hu]%list_elem_of_filter.
Qed.

Section Admin.
Context {World : Type} (E : Env World).

Lemma syncOpenshiftAdminMembership_promotes (group : Group) (users : list User)
    (admin : string) (isWorkshop : bool) (token : string) :
  Emits (promotesOnly users admin)
    (ThreeScale.syncOpenshiftAdminMembership E group users admin isWorkshop token).
Proof.
  emits. all: try exact I.
  eexists. split; [eassumption|]. split; [done|].
  by eapply bool_decide_eq_false.
Qed.

Lemma syncOpenshiftAdminMembership_deletes (group : Group) (newUsers users : list User)
    (admin admin' : string) (isWorkshop : bool) (token : string) :
  Emits (deletesOnly users admin')
    (ThreeScale.syncOpenshiftAdminMembership E group newUsers admin isWorkshop token).
Proof. emits. all: exact I. Qed.

Lemma reconcileOpenshiftUsers_deletes (r : ThreeScale.Reconciler) (inst : RHMI)
    (s : State World) e1 e2 key seed e4 token users rest :
  calls (ThreeScale.reconcileOpenshiftUsers E r inst s).2
  = calls s ++ e1 :: e2 :: EvGet KSecret key (inr (ASecret seed)) :: e4
      :: EvGetUsers token (inr users) :: rest →
  Forall (deletesOnly users (mapGet (secret_Data seed) "ADMIN_USER")) rest.
Proof.
  remember (ThreeScale.reconcileOpenshiftUsers E r inst s) as run eqn:Hrun.
  unfold ThreeScale.reconcileOpenshiftUsers in Hrun.
  unfold ConfigManager_ReadRHSSO, ThreeScale.GetAdminToken,
    ThreeScale.GetAdminNameAndPassFromSecret, rhsso_GetKeycloakUsers, tsClient_GetUsers,
    Get in Hrun.
  do 5 (run_head_in Hrun; answer_in Hrun;
        destruct resp as [?|?];
        [subst run; cbn [ret fst snd calls]; rewrite <- ?app_assoc;
         intros Hlog%app_inv_head; discriminate Hlog|]).
  match type of Hrun with
  | _ = ?m ?st =>
      assert (Emits (deletesOnly l0 (mapGet (secret_Data s1) "ADMIN_USER")) m) as Hm;
        [|destruct (Hm st) as (new & Hnew & Hall)]
  end.
  { destruct (ThreeScale.getUserDiff l l0) as [added deleted] eqn:Hdiff.
    assert (∀ u, u ∈ deleted → u ∈ l0) as Hsub.
    { intros u Hu. apply (getUserDiff_deleted l). by rewrite Hdiff. }
    emits. all: try exact I.
    all: try apply syncOpenshiftAdminMembership_deletes.
    eexists. split; [by apply Hsub|]. split; [done|].
    by eapply bool_decide_eq_true. }
  rewrite <- Hrun in Hnew. intros Hlog.
  pose proof (eq_trans (eq_sym Hlog) Hnew) as Heq. cbn [calls] in Heq.
  rewrite <- ?app_assoc in Heq. apply app_inv_head in Heq. cbn [app] in Heq.
  cbn [logObject] in Heq. clear Hrun Hm Hnew Hlog. simplify_eq. exact Hall.
Qed.
End Admin.

(** Where the ids of the users are distinct, calls that are only made for
    users other than the admin are not made with the id of the admin. *)
Lemma distinct_ids (users : list User) (a u : User) :
  NoDup (Id <$> users) → a ∈ users → u ∈ users → Id u = Id a → u = a.
Proof.
  induction users as [|x users IH]; intros Hnd Ha Hu Hid; [by apply elem_of_nil in Ha|].
  cbn [fmap list_fmap] in Hnd. apply NoDup_cons in Hnd as [Hx Hnd].
  apply elem_of_cons in Ha as [->|Ha]; apply elem_of_cons in Hu as [->|Hu].
  - done.
  - exfalso. apply Hx. rewrite <- Hid. by apply list_elem_of_fmap_2.
  - exfalso. apply Hx. rewrite Hid. by apply list_elem_of_fmap_2.
  - by apply IH.
Qed.

Lemma deletesOnly_spares (users : list User) (admin : string) (log : list Event) (a : User)
    tok resp :
  Forall (deletesOnly users admin) log → NoDup (Id <$> users) →
  a ∈ users → Username a = admin → EvDeleteUser (Id a) tok resp ∉ log.
Proof.
  intros Hall Hnd Ha Hname Hin. rewrite Forall_forall in Hall.
  destruct (Hall _ Hin) as (u & Hu & Hid & Hne).
  apply Hne. by rewrite (distinct_ids users a u Hnd Ha Hu Hid).
Qed.

Lemma promotesOnly_spares (users : list User) (admin : string) (log : list Event) (a : User)
    tok resp :
  Forall (promotesOnly users admin) log → NoDup (Id <$> users) →
  a ∈ users → Username a = admin → EvSetUserAsAdmin (Id a) tok resp ∉ log.
Proof.
  intros Hall Hnd Ha Hname Hin. rewrite Forall_forall in Hall.
  destruct (Hall _ Hin) as (u & Hu & Hid & Hne).
  apply Hne. by rewrite (distinct_ids users a u Hnd Ha Hu Hid).
Qed.

(** C10. User synchronisation spares the system admin of 3scale.
    - In a pass of [reconcileOpenshiftUsers] that has read the system-seed
      secret and the users of 3scale (its third and its fifth call), every
      call of [DeleteUser] in the rest of the pass is made with the id of one
      of these users whose user name is not the [ADMIN_USER] of the secret;
      where the ids of the users are distinct, none is made with the id of the
      user whose name is [ADMIN_USER].
    - Every call of [SetUserAsAdmin] that [syncOpenshiftAdminMembership] makes
      is made with the id of one of the users it is given whose user name is
      not the system admin's; where the ids are distinct, none is made with
      the id of the system admin. *)
Theorem C10_admin_spared {World} (E : Env World) :
  (∀ (r : ThreeScale.Reconciler) (inst : RHMI) (s : State World)
     e1 e2 key seed e4 token users rest,
     calls (ThreeScale.reconcileOpenshiftUsers E r inst s).2
     = calls s ++ e1 :: e2 :: EvGet KSecret key (inr (ASecret seed)) :: e4
         :: EvGetUsers token (inr users) :: rest →
     Forall (deletesOnly users (mapGet (secret_Data seed) "ADMIN_USER")) rest
     ∧ (NoDup (Id <$> users) →
        ∀ a tok resp, a ∈ users → Username a = mapGet (secret_Data seed) "ADMIN_USER" →
                      EvDeleteUser (Id a) tok resp ∉ rest))
  ∧ (∀ (group : Group) (users : list User) (admin : string) (isWorkshop : bool)
       (token : string) (s : State World),
       ∃ new,
         calls (ThreeScale.syncOpenshiftAdminMembership E group users admin isWorkshop
                  token s).2 = calls s ++ new
         ∧ Forall (promotesOnly users admin) new
         ∧ (NoDup (Id <$> users) →
            ∀ a tok resp, a ∈ users → Username a = admin →
                          EvSetUserAsAdmin (Id a) tok resp ∉ new)).
Proof.
  split.
  - intros r inst s e1 e2 key seed e4 token users rest Hlog.
    pose proof (reconcileOpenshiftUsers_deletes E r inst s _ _ _ _ _ _ _ _ Hlog) as Hall.
    split; [done|]. intros Hnd a tok resp Ha Hname. by eapply deletesOnly_spares.
  - intros group users admin isWorkshop token s.
    destruct (syncOpenshiftAdminMembership_promotes E group users admin isWorkshop token s)
      as (new & Hnew & Hall).
    exists new. split; [done|]. split; [done|].
    intros Hnd a tok resp Ha Hname. by eapply promotesOnly_spares.
Qed.

Lemma C10_admin_spared_witness :
  Forall (deletesOnly [Demo.tsAdmin; Demo.tsBob; Demo.tsCarol] "admin")
    (drop 5 (calls (ThreeScale.reconcileOpenshiftUsers (Fake.env Demo.calm)
                      (Demo.threeScale Demo.installation) Demo.installation
                      Demo.threeScaleState).2))
  ∧ (NoDup (Id <$> [Demo.tsAdmin; Demo.tsBob; Demo.tsCarol]) →
     ∀ a tok resp, a ∈ [Demo.tsAdmin; Demo.tsBob; Demo.tsCarol] → Username a = "admin" →
       EvDeleteUser (Id a) tok resp
       ∉ drop 5 (calls (ThreeScale.reconcileOpenshiftUsers (Fake.env Demo.calm)
                          (Demo.threeScale Demo.installation) Demo.installation
                          Demo.threeScaleState).2)).
Proof.
  refine (proj1 (C10_admin_spared (Fake.env Demo.calm))
            (Demo.threeScale Demo.installation) Demo.installation Demo.threeScaleState
            (EvReadRHSSO (inr {| rhsso_Namespace := "rhsso"; rhsso_Realm := "openshift";
                                 rhsso_Host := "https://sso.example" |}))
            (EvGet KSecret {| key_Name := "system-seed"; key_Namespace := "rhmi-3scale" |}
               (inr (Demo.secret "system-seed" "rhmi-3scale"
                       [("ADMIN_ACCESS_TOKEN", "token"); ("ADMIN_USER", "admin");
                        ("ADMIN_EMAIL", "admin@example.com")])))
            {| key_Name := "system-seed"; key_Namespace := "rhmi-3scale" |}
            {| secret_meta := mkMeta "system-seed" "rhmi-3scale";
               secret_Data :=
                 Some (list_to_map [("ADMIN_ACCESS_TOKEN", "token"); ("ADMIN_USER", "admin");
                                    ("ADMIN_EMAIL", "admin@example.com")]) |}
            (EvGetKeycloakUsers "rhsso" (inr [Demo.kcAlice; Demo.kcBob]))
            "token" [Demo.tsAdmin; Demo.tsBob; Demo.tsCarol]
            (drop 5 (calls (ThreeScale.reconcileOpenshiftUsers (Fake.env Demo.calm)
                              (Demo.threeScale Demo.installation) Demo.installation
                              Demo.threeScaleState).2)) _).
  vm_compute. reflexivity.
Defined.

(** * What the methods return *)

Section Returns.
Context {World : Type}.
Implicit Types (s : State World) (P : Event → Prop).

Lemma Returns_ret {A} P (Q : A → Prop) (a : A) : Q a → Returns P Q (ret a : M World A).
Proof.
  intros HQ s. exists []. rewrite app_nil_r. split; [done|]. split; [done|].
  intros a' [= <-]. done.
Qed.

Lemma Returns_panic {A} P (Q : A → Prop) msg : Returns P Q (panic msg : M World A).
Proof. intros s. exists []. rewrite app_nil_r. by repeat split. Qed.

Lemma Returns_getConfig P (Q : Config → Prop) :
  (∀ cfg, Q cfg) → Returns P Q (@getConfig World).
Proof.
  intros HQ s. exists []. rewrite app_nil_r. split; [done|]. split; [done|].
  intros a _. apply HQ.
Qed.

Lemma Returns_setConfig P (Q : unit → Prop) f : Q tt → Returns P Q (@setConfig World f).
Proof.
  intros HQ s. exists []. cbn. rewrite app_nil_r. split; [done|]. split; [done|].
  by intros [] _.
Qed.

Lemma Returns_call {A} P (Q : A → Prop) (log : A → Event) (op : World → A * World) :
  (∀ a, P (log a)) → (∀ a, Q a) → Returns P Q (call log op).
Proof.
  intros HP HQ s. rewrite run_call. cbn [fst snd calls].
  eexists. split; [done|]. split; [by constructor|]. intros a _. apply HQ.
Qed.

Lemma Returns_bind {A B} P (Q1 : A → Prop) (Q : B → Prop) (m : M World A)
    (f : A → M World B) :
  Returns P Q1 m → (∀ a, Q1 a → Returns P Q (f a)) → Returns P Q (bind m f).
Proof.
  intros Hm Hf s. unfold bind. destruct (Hm s) as (l1 & H1 & HP1 & HQ1).
  destruct (m s) as [[a|msg] s1]; cbn [fst snd] in *.
  - destruct (Hf a (HQ1 a eq_refl) s1) as (l2 & H2 & HP2 & HQ2). exists (l1 ++ l2).
    rewrite H2, H1, app_assoc. split; [done|]. split; [by apply Forall_app|done].
  - exists l1. by repeat split.
Qed.

Lemma Returns_conseq {A} P (Q Q' : A → Prop) (m : M World A) :
  Returns P Q m → (∀ a, Q a → Q' a) → Returns P Q' m.
Proof.
  intros Hm HQ s. destruct (Hm s) as (new & H1 & H2 & H3).
  exists new. repeat split; [done..|]. intros a Ha. by apply HQ, H3.
Qed.

Lemma Returns_Emits {A} P (m : M World A) : Emits P m → Returns P (λ _, True) m.
Proof. intros Hm s. destruct (Hm s) as (new & H1 & H2). exists new. by repeat split. Qed.

Lemma Returns_emits {A} P (Q : A → Prop) (m : M World A) : Returns P Q m → Emits P m.
Proof. intros Hm s. destruct (Hm s) as (new & H1 & H2 & _). by exists new. Qed.

Lemma Returns_yields {A} P (Q : A → Prop) (m : M World A) s a :
  Returns P Q m → (m s).1 = Ok a → Q a.
Proof. intros Hm Ha. destruct (Hm s) as (new & _ & _ & HQ). by apply HQ. Qed.

(** A loop that may return: what it returns early is what some round returned. *)
Lemma Returns_forRange {A R} P (Q : R → Prop) (l : list A)
    (body : A → M World (option R)) :
  (∀ x, x ∈ l → Returns P (λ o, ∀ r, o = Some r → Q r) (body x)) →
  Returns P (λ o, ∀ r, o = Some r → Q r) (forRange l body).
Proof.
  induction l as [|x l IH]; intros Hb; cbn [forRange].
  - by apply Returns_ret.
  - eapply Returns_bind; [apply Hb; by left|].
    intros [v|] Hv; [by apply Returns_ret|]. apply IH. intros y Hy. apply Hb. by right.
Qed.
End Returns.

Section ClientReturns.
Context {World : Type} (E : Env World) {T : Type} `{K8sObject T}.
Implicit Types (P : Event → Prop).

Lemma Returns_Get P (Q : T * error → Prop) key (obj : T) :
  (∀ resp, P (EvGet (kindOf T) key resp)) →
  (∀ e, Q (obj, Some e)) → (∀ o, Q (o, None)) →
  Returns P Q (Get E key obj).
Proof.
  intros HP He Ho. unfold Get.
  eapply (Returns_bind _ (λ _, True)); [by apply Returns_call|].
  intros [e|o] _; by apply Returns_ret.
Qed.

Lemma Returns_List P (Q : list T * error → Prop) opts :
  (∀ resp, P (EvList (kindOf T) opts resp)) →
  (∀ e, Q ([], Some e)) → (∀ l, Q (l, None)) →
  Returns P Q (List E T opts).
Proof.
  intros HP He Ho. unfold List.
  eapply (Returns_bind _ (λ _, True)); [by apply Returns_call|].
  intros [e|o] _; by apply Returns_ret.
Qed.

Lemma Returns_Delete P (Q : error → Prop) (obj : T) :
  (∀ resp, P (EvDelete (toAny obj) resp)) → (∀ e, Q e) → Returns P Q (Delete E obj).
Proof. intros HP HQ. unfold Delete. by apply Returns_call. Qed.

(** [CreateOrUpdate] creates or updates only what the mutate callback handed
    back without an error. *)
Lemma Returns_CreateOrUpdate P (W : T → Prop) (obj : T) (f : T → M World (T * error)) :
  (∀ key resp, P (EvGet (kindOf T) key resp)) →
  (∀ o, Returns P (λ r, isErr r.2 = false → W r.1) (f o)) →
  (∀ o resp, W o → P (EvCreate (toAny o) resp)) →
  (∀ o resp, W o → P (EvUpdate (toAny o) resp)) →
  Returns P (λ _, True) (CreateOrUpdate E obj f).
Proof.
  intros HG Hf HC HU. unfold CreateOrUpdate, mutate, Create, Update.
  eapply (Returns_bind _ (λ _, True)); [by apply Returns_Get|]. intros [o err] _.
  assert (Returns P (λ r : T * error, isErr r.2 = false → W r.1)
            (let* (obj0, err0) := f o in
             if isErr err0 then ret (obj0, err0)
             else if bool_decide (keyOfMeta (metaOf obj) ≠ keyOfMeta (metaOf obj0))
                  then ret (obj0, Some (ErrOther
                         "MutateFn cannot mutate object name and/or object namespace"))
                  else ret (obj0, None))) as Hmut.
  { eapply Returns_bind; [apply Hf|]. intros [o1 e1] Hw. cbn [fst snd] in Hw.
    destruct (isErr e1) eqn:He1; [apply Returns_ret; cbn; congruence|].
    case_bool_decide; apply Returns_ret; cbn; [done|]. intros _. by apply Hw. }
  destruct (isErr err).
  - destruct (negb (IsNotFound err)); [by apply Returns_ret|].
    eapply Returns_bind; [apply Hmut|]. intros [o1 e1] Hw. cbn [fst snd] in Hw.
    destruct (isErr e1); [by apply Returns_ret|].
    eapply (Returns_bind _ (λ _, True)).
    { eapply (Returns_bind _ (λ _, True)); [apply Returns_call; [|done]|].
      - intros a. by apply HC, Hw.
      - intros a _. by apply Returns_ret. }
    intros [o2 e2] _. destruct (isErr e2); by apply Returns_ret.
  - eapply Returns_bind; [apply Hmut|]. intros [o1 e1] Hw. cbn [fst snd] in Hw.
    destruct (isErr e1); [by apply Returns_ret|].
    destruct (deepEqual o o1); [by apply Returns_ret|].
    eapply (Returns_bind _ (λ _, True)).
    { eapply (Returns_bind _ (λ _, True)); [apply Returns_call; [|done]|].
      - intros a. by apply HU, Hw.
      - intros a _. by apply Returns_ret. }
    intros [o2 e2] _. destruct (isErr e2); by apply Returns_ret.
Qed.
End ClientReturns.

(** Walk through a method: every call it can make, everything it can return. *)
Ltac returns_step cu :=
  lazymatch goal with
  | |- Returns _ _ (ret _) => apply Returns_ret
  | |- Returns _ _ (panic _) => apply Returns_panic
  | |- Returns _ _ (forRange _ _) =>
      first [ apply Returns_forRange
            | eapply Returns_conseq; [apply (Returns_forRange _ (λ _, True))|done] ];
      intros ? ?
  | |- Returns _ ?Q (bind _ _) =>
      first
        [ eapply (Returns_bind _ (λ o, ∀ r, o = Some r → Q r));
          [|let o := fresh "halted" in
            let Ho := fresh "Hhalted" in
            intros o Ho; destruct o; [apply Returns_ret; by apply Ho|clear Ho]]
        | eapply (Returns_bind _ (λ _, True)); [|intros ? _] ]
  | |- Returns _ _ getConfig => apply Returns_getConfig; intros
  | |- Returns _ _ (setConfig _) => apply Returns_setConfig
  | |- Returns _ _ (call _ _) => apply Returns_call; intros
  | |- Returns _ _ (Get _ _ _) => apply Returns_Get; intros
  | |- Returns _ _ (List _ _ _) => apply Returns_List; intros
  | |- Returns _ _ (Delete _ _) => apply Returns_Delete; intros
  | |- Returns _ _ (CreateOrUpdate _ _ _) => cu
  | |- Returns _ _ (match ?x with _ => _ end) => destruct x eqn:?
  | |- Returns _ _ ((fun _ => _) _) => cbv beta
  | |- Returns _ _ _ => progress autounfold with methods
  end.

(** [CreateOrUpdate], when nothing is asked of what it writes. *)
Ltac cu_any :=
  eapply Returns_conseq;
  [eapply (Returns_CreateOrUpdate _ _ (λ _, True)); [intros|intros ?|intros|intros]|intros].

Ltac returns := repeat returns_step cu_any.

(** As [returns], leaving the calls of [CreateOrUpdate] to be looked at. *)
Ltac returns_upto := repeat returns_step ltac:(fail).

(** ** Completed comes with no error *)

Ltac sound_ret := intros; simplify_eq; first [done | by unfold sound].

Section Sound.
Context {World : Type} (E : Env World).
Local Abbreviation Sound := (Returns (λ _, True) sound).

Lemma restoreSystemSecrets_sound r inst : Sound (ThreeScale.restoreSystemSecrets E r inst).
Proof. unfold ThreeScale.restoreSystemSecrets. returns. all: sound_ret. Qed.

Lemma backupSystemSecrets_sound r inst : Sound (ThreeScale.backupSystemSecrets E r inst).
Proof. unfold ThreeScale.backupSystemSecrets. returns. all: sound_ret. Qed.

Lemma reconcileSMTPCredentials_sound r : Sound (ThreeScale.reconcileSMTPCredentials E r).
Proof. unfold ThreeScale.reconcileSMTPCredentials. returns. all: sound_ret. Qed.

Lemma resyncRoutes_sound r : Sound (ThreeScale.resyncRoutes E r).
Proof. unfold ThreeScale.resyncRoutes. returns. all: sound_ret. Qed.

Lemma reconcileComponents_sound r : Sound (ThreeScale.reconcileComponents E r).
Proof.
  unfold ThreeScale.reconcileComponents, ThreeScale.getBlobStorageFileStorageSpec,
    ThreeScale.routesExist, ThreeScale.resyncRoutes.
  returns. all: sound_ret.
Qed.

Lemma reconcileBlobStorage_sound r : Sound (ThreeScale.reconcileBlobStorage E r).
Proof. unfold ThreeScale.reconcileBlobStorage. returns. all: sound_ret. Qed.

Lemma reconcileExternalDatasources_sound r :
  Sound (ThreeScale.reconcileExternalDatasources E r).
Proof. unfold ThreeScale.reconcileExternalDatasources. returns. all: sound_ret. Qed.

Lemma reconcileRHSSOIntegration_sound r : Sound (ThreeScale.reconcileRHSSOIntegration E r).
Proof. unfold ThreeScale.reconcileRHSSOIntegration. returns. all: sound_ret. Qed.

Lemma reconcileOpenshiftUsers_sound r inst :
  Sound (ThreeScale.reconcileOpenshiftUsers E r inst).
Proof. unfold ThreeScale.reconcileOpenshiftUsers. returns. all: sound_ret. Qed.

Lemma reconcileServiceDiscovery_sound r : Sound (ThreeScale.reconcileServiceDiscovery E r).
Proof. unfold ThreeScale.reconcileServiceDiscovery. returns. all: sound_ret. Qed.

Lemma reconcileBlackboxTargets_sound r inst :
  Sound (ThreeScale.reconcileBlackboxTargets E r inst).
Proof. unfold ThreeScale.reconcileBlackboxTargets. returns. all: sound_ret. Qed.

Lemma reconcileRouteEditRole_sound r : Sound (ThreeScale.reconcileRouteEditRole E r).
Proof. unfold ThreeScale.reconcileRouteEditRole. returns. all: sound_ret. Qed.

Lemma reconcileConsoleLink_sound r : Sound (ThreeScale.reconcileConsoleLink E r).
Proof. unfold ThreeScale.reconcileConsoleLink. returns. all: sound_ret. Qed.

Lemma deleteConsoleLink_sound r : Sound (ThreeScale.deleteConsoleLink E r).
Proof. unfold ThreeScale.deleteConsoleLink. returns. all: sound_ret. Qed.

Lemma Grafana_reconcileSecrets_sound r inst : Sound (Grafana.reconcileSecrets E r inst).
Proof.
  unfold Grafana.reconcileSecrets, Grafana.populateSessionProxySecret,
    Grafana.generatePassword.
  returns. all: sound_ret.
Qed.

Lemma Grafana_reconcileComponents_sound r inst :
  Sound (Grafana.reconcileComponents E r inst).
Proof. unfold Grafana.reconcileComponents. returns. all: sound_ret. Qed.

Lemma Grafana_reconcileHost_sound r : Sound (Grafana.reconcileHost E r).
Proof. unfold Grafana.reconcileHost. returns. all: sound_ret. Qed.
End Sound.

(** * More of the reconcilers *)

(** Name what the call at the head of the run in the goal answered. *)
Ltac answer :=
  match goal with
  | |- context [fst ?x] =>
      lazymatch x with
      | (_, _) => fail
      | _ => let r := fresh "resp" in
             let w := fresh "w" in
             destruct x as [r w] eqn:?; cbn [fst snd]
      end
  end.

(** Case on the first test of the run in [H] that looks at a variable. *)
Ltac branch_var_in H :=
  match type of H with
  | context [match ?x with _ => _ end] => is_var x; destruct x
  end.

(** Run the head of a method in [H] as far as it goes without a case. *)
Ltac simp_in H :=
  repeat (progress (rewrite ?run_bind_bind, ?run_bind_ret, ?run_bind_getConfig,
                      ?run_bind_setConfig, ?run_bind_call, ?run_call in H;
                    cbn [config calls world fst snd isErr negb andb orb
                         secret_Data secret_meta cm_Data cm_meta] in H)).

(** Run a method in the equation [H] to each of its ends. *)
Ltac walk_in H :=
  repeat (simp_in H; first [ returned_in H | answer_in H | branch_var_in H | branch_in H ]).

(** Find an event in a log that is written out. *)
Ltac find_in := repeat first [ apply list_elem_of_here | apply list_elem_of_further ].

(** Find an event in a log that is written out, trying the next match when
    what follows fails. *)
Ltac find_next :=
  (apply list_elem_of_here) + (apply list_elem_of_further; find_next).

(** Split the membership [H] in a log that is written out into its cases. *)
Ltac cases_in H :=
  repeat (apply elem_of_cons in H as [H|H]); try (by apply elem_of_nil in H).

(** Close a case whose tests contradict each other. *)
Ltac absurd_case :=
  solve [ exfalso;
          repeat match goal with
                 | H : bool_decide _ = true |- _ => apply bool_decide_eq_true in H
                 | H : bool_decide _ = false |- _ => apply bool_decide_eq_false in H
                 end; done ].

(** X1. The methods of the 3scale reconciler that are steps of a pass (the
    source's own; the subscription step is handed to a collaborator) never
    return an error together with Completed: whenever one of them returns
    Completed, its error is nil. *)
Theorem X1_threescale_steps_sound {World} (E : Env World) (r : ThreeScale.Reconciler)
    (inst : RHMI) :
  Forall (Returns (λ _, True) sound)
    [ ThreeScale.restoreSystemSecrets E r inst;
      ThreeScale.backupSystemSecrets E r inst;
      ThreeScale.reconcileSMTPCredentials E r;
      ThreeScale.reconcileComponents E r;
      ThreeScale.resyncRoutes E r;
      ThreeScale.reconcileBlobStorage E r;
      ThreeScale.reconcileExternalDatasources E r;
      ThreeScale.reconcileRHSSOIntegration E r;
      ThreeScale.reconcileOpenshiftUsers E r inst;
      ThreeScale.reconcileServiceDiscovery E r;
      ThreeScale.reconcileBlackboxTargets E r inst;
      ThreeScale.reconcileRouteEditRole E r;
      ThreeScale.reconcileConsoleLink E r;
      ThreeScale.deleteConsoleLink E r ].
Proof.
  repeat constructor.
  - apply restoreSystemSecrets_sound.
  - apply backupSystemSecrets_sound.
  - apply reconcileSMTPCredentials_sound.
  - apply reconcileComponents_sound.
  - apply resyncRoutes_sound.
  - apply reconcileBlobStorage_sound.
  - apply reconcileExternalDatasources_sound.
  - apply reconcileRHSSOIntegration_sound.
  - apply reconcileOpenshiftUsers_sound.
  - apply reconcileServiceDiscovery_sound.
  - apply reconcileBlackboxTargets_sound.
  - apply reconcileRouteEditRole_sound.
  - apply reconcileConsoleLink_sound.
  - apply deleteConsoleLink_sound.
Qed.

(** X2. The steps of the Grafana reconciler ([reconcileSecrets],
    [reconcileComponents], [reconcileHost]) never return an error together
    with Completed. *)
Theorem X2_grafana_steps_sound {World} (E : Env World) (r : Grafana.Reconciler)
    (inst : RHMI) :
  Forall (Returns (λ _, True) sound)
    [ Grafana.reconcileSecrets E r inst;
      Grafana.reconcileComponents E r inst;
      Grafana.reconcileHost E r ].
Proof.
  repeat constructor.
  - apply Grafana_reconcileSecrets_sound.
  - apply Grafana_reconcileComponents_sound.
  - apply Grafana_reconcileHost_sound.
Qed.

(** ** Steps that never fail *)

Section Retried.
Context {World : Type} (E : Env World).


End Retried.


(** ** Resynchronising the routes *)

Lemma firstRunning_running (pods : list Pod) :
  ThreeScale.firstRunning pods ≠ "" →
  ∃ pod, pod ∈ pods ∧ pod_Phase pod = "Running"
         ∧ Name (pod_meta pod) = ThreeScale.firstRunning pods.
Proof.
  induction pods as [|pod pods IH]; cbn [ThreeScale.firstRunning]; [done|].
  case_bool_decide as Hp.
  - intros _. exists pod. split; [by left|done].
  - intros Hne. destruct (IH Hne) as (p & Hin & Hrun & Hname).
    exists p. split; [by right|done].
Qed.

Lemma firstRunning_none (pods : list Pod) :
  Forall (λ pod, pod_Phase pod ≠ "Running") pods → ThreeScale.firstRunning pods = "".
Proof.
  induction 1 as [|pod pods Hp _ IH]; cbn [ThreeScale.firstRunning]; [done|].
  by rewrite bool_decide_eq_false_2.
Qed.

Section Resync.
Context {World : Type} (E : Env World).

Lemma resyncRoutes_run (r : ThreeScale.Reconciler) (s : State World) :
  let ns := cfg_Namespace (config s) in
  let opts := {| list_Namespace := ns; list_LabelSelector := None;
                 list_MatchingLabels := {[ "deploymentConfig" := "system-sidekiq" ]} |} in
  let listed := (clientList E Pod opts (world s)).1 in
  let pods := match listed with inr l => l | inl _ => [] end in
  let run := ThreeScale.resyncRoutes E r s in
  if bool_decide (ThreeScale.firstRunning pods = "") then
    run.1 = Ok (PhaseInProgress, None)
    ∧ calls run.2 = calls s ++ [EvList KPod opts (logObjects listed)]
  else
    ∃ out, calls run.2
           = calls s ++ [EvList KPod opts (logObjects listed);
                         EvExecuteRemoteCommand ns (ThreeScale.firstRunning pods)
                           "bundle exec rake zync:resync:domains" out]
           ∧ (run.1 = Ok (PhaseInProgress, None) ∨ run.1 = Ok (PhaseFailed, None)).
Proof.
  intros ns opts listed pods run. subst run.
  unfold ThreeScale.resyncRoutes, List, resources_ExecuteRemoteCommand.
  run_head. fold ns. fold opts. fold listed.
  assert (match listed with inl e => ([], Some e) | inr l => (l, None) end
          = (pods, match listed with inl e => Some e | inr _ => None end)) as ->
    by (subst pods; by destruct listed).
  case_bool_decide as Hp.
  - cbn. by rewrite <- ?app_assoc.
  - run_head.
    match goal with
    | |- context [ExecuteRemoteCommand E ?a ?b ?c ?w] =>
        destruct (ExecuteRemoteCommand E a b c w) as [[[out err] e] w'] eqn:Hexec
    end.
    cbn [fst snd]. eexists. split.
    + destruct (isErr e); [|case_bool_decide]; cbn [ret fst snd calls];
        rewrite <- ?app_assoc; reflexivity.
    + destruct (isErr e); [|case_bool_decide]; cbn; auto.
Qed.
End Resync.

(** The pod that [resyncRoutes] picks is the first listed pod in phase
    Running. *)
Lemma firstRunning_filter (pods : list Pod) :
  ThreeScale.firstRunning pods
  = match filter (λ p, pod_Phase p = "Running") pods with
    | [] => ""
    | p :: _ => Name (pod_meta p)
    end.
Proof.
  induction pods as [|pod pods IH]; cbn [ThreeScale.firstRunning]; [done|].
  case_bool_decide as Hp.
  - by rewrite filter_cons_True.
  - by rewrite filter_cons_False.
Qed.

(** X3. [resyncRoutes] never returns an error, never panics and never reports
    Completed. It lists the pods of the product namespace labelled
    deploymentConfig=system-sidekiq and takes the first listed pod in phase
    Running (no pod when the listing failed). When there is none, or when that
    pod has the empty name, the listing is its one call and it answers
    (InProgress, nil). Otherwise its second and last call runs the command
    [bundle exec rake zync:resync:domains] in the product namespace, in that
    pod, and it answers (Failed, nil) when the command returned an error or
    wrote to its standard error, and (InProgress, nil) when it did neither. *)
Theorem X3_resyncRoutes {World} (E : Env World) (r : ThreeScale.Reconciler)
    (s : State World) :
  let ns := cfg_Namespace (config s) in
  let opts := {| list_Namespace := ns; list_LabelSelector := None;
                 list_MatchingLabels := {[ "deploymentConfig" := "system-sidekiq" ]} |} in
  let listed := clientList E Pod opts (world s) in
  let pods := match listed.1 with inr l => l | inl _ => [] end in
  let run := ThreeScale.resyncRoutes E r s in
  let waits :=
    run.1 = Ok (PhaseInProgress, None)
    ∧ calls run.2 = calls s ++ [EvList KPod opts (logObjects listed.1)] in
  match filter (λ p, pod_Phase p = "Running") pods with
  | [] => waits
  | p :: _ =>
      if bool_decide (Name (pod_meta p) = "") then waits else
      let out :=
        (ExecuteRemoteCommand E ns (Name (pod_meta p))
           "bundle exec rake zync:resync:domains" listed.2).1 in
      calls run.2
      = calls s ++ [EvList KPod opts (logObjects listed.1);
                    EvExecuteRemoteCommand ns (Name (pod_meta p))
                      "bundle exec rake zync:resync:domains" out]
      ∧ run.1 = Ok (if isErr out.2 || bool_decide (out.1.2 ≠ "")
                    then PhaseFailed else PhaseInProgress, None)
  end.
Proof.
  intros ns opts listed pods run waits. subst run waits.
  pose proof (firstRunning_filter pods) as Hfirst.
  unfold ThreeScale.resyncRoutes, List, resources_ExecuteRemoteCommand.
  run_head. fold ns. fold opts. fold listed.
  assert (match listed.1 with inl e => ([], Some e) | inr l => (l, None) end
          = (pods, match listed.1 with inl e => Some e | inr _ => None end)) as ->
    by (subst pods; by destruct (listed.1)).
  destruct (filter (λ p, pod_Phase p = "Running") pods) as [|p running];
    rewrite Hfirst.
  - cbn. by rewrite <- ?app_assoc.
  - case_bool_decide as Hname.
    + cbn. by rewrite <- ?app_assoc.
    + run_head.
      destruct (ExecuteRemoteCommand E ns (Name (pod_meta p))
                  "bundle exec rake zync:resync:domains" listed.2)
        as [[[out err] e] w'] eqn:Hexec.
      cbn [fst snd]. destruct (isErr e); [|case_bool_decide];
        cbn [orb ret fst snd calls]; rewrite <- ?app_assoc; by split.
Qed.

(** ** Looking up a route of 3scale *)

Lemma firstRoute_Some (f : Route → bool) (routes : list Route) (route : Route) :
  ThreeScale.firstRoute f routes = Some route →
  ∃ before after, routes = before ++ route :: after ∧ f route = true
                  ∧ Forall (λ x, f x = false) before.
Proof.
  induction routes as [|x routes IH]; cbn [ThreeScale.firstRoute]; [done|].
  destruct (f x) eqn:Hx.
  - intros [= ->]. by exists [], routes.
  - intros (before & after & -> & Hr & Hb)%IH. exists (x :: before), after.
    split; [done|]. split; [done|]. by constructor.
Qed.

Lemma firstRoute_None (f : Route → bool) (routes : list Route) :
  ThreeScale.firstRoute f routes = None → Forall (λ x, f x = false) routes.
Proof.
  induction routes as [|x routes IH]; cbn [ThreeScale.firstRoute]; [done|].
  destruct (f x) eqn:Hx; [done|]. intros Hn. constructor; [done|by apply IH].
Qed.

(** X5. [getThreescaleRoute] lists the routes of the product namespace under
    the label once and never panics. When it returns a route, the error is nil
    and the route is the first of the listing that passes the filter (any
    route when the filter is nil); when it returns (nil, nil) the listing
    succeeded and no route of it passes the filter; when it returns an error
    there is no route, and the error is that of the label parser or of the
    listing. *)
Theorem X5_getThreescaleRoute {World} (E : Env World) (r : ThreeScale.Reconciler)
    (label : string) (filterFn : option (Route → bool)) (s : State World) :
  let passes := match filterFn with Some f => f | None => λ _, true end in
  match (ThreeScale.getThreescaleRoute E r label filterFn s).1 with
  | Ok (Some route, err) =>
      err = None
      ∧ ∃ opts before after,
          calls (ThreeScale.getThreescaleRoute E r label filterFn s).2
          = calls s ++ [EvList KRoute opts (inr (ARoute <$> before ++ route :: after))]
          ∧ list_Namespace opts = cfg_Namespace (config s)
          ∧ passes route = true ∧ Forall (λ x, passes x = false) before
  | Ok (None, None) =>
      ∃ opts routes,
        calls (ThreeScale.getThreescaleRoute E r label filterFn s).2
        = calls s ++ [EvList KRoute opts (inr (ARoute <$> routes))]
        ∧ Forall (λ x, passes x = false) routes
  | Ok (None, Some e) =>
      labels_Parse E ("zync.3scale.net/route-to=" +:+ label) = inl e
      ∨ ∃ opts,
          calls (ThreeScale.getThreescaleRoute E r label filterFn s).2
          = calls s ++ [EvList KRoute opts (inl e)]
  | Panic _ => False
  end.
Proof.
  intros passes. unfold ThreeScale.getThreescaleRoute, List. fold passes.
  destruct (labels_Parse E _) as [e|selector] eqn:Hparse; [by left|].
  run_head.
  match goal with
  | |- context [clientList E Route ?o ?w] =>
      destruct (clientList E Route o w) as [[e|routes] w'] eqn:Hlist
  end; cbn [fst snd isErr logObjects].
  { cbn. right. eexists. by rewrite <- ?app_assoc. }
  case_bool_decide as Hlen.
  { destruct routes; [|done]. cbn. eexists _, []. split; [by rewrite <- ?app_assoc|done]. }
  cbn [ret fst snd calls]. rewrite <- ?app_assoc. cbn [app].
  destruct (ThreeScale.firstRoute passes routes) as [route|] eqn:Hfirst.
  - split; [done|].
    apply firstRoute_Some in Hfirst as (before & after & -> & Hr & Hb).
    eexists _, before, after. split; [reflexivity|]. done.
  - apply firstRoute_None in Hfirst. eexists _, routes. done.
Qed.

(** ** Backing up and restoring the system secrets *)

(** X6. [restoreSystemSecrets] copies [system-seed] and then
    [system-master-apicast] from the namespace of the installation into the
    product namespace. A copy that answers not-found or conflict is passed
    over like one that succeeds; any other error stops the method at once with
    (Failed, error), before the second copy when it is the first that fails. *)
Theorem X6_restoreSystemSecrets {World} (E : Env World) (r : ThreeScale.Reconciler)
    (inst : RHMI) (s : State World) :
  let tolerated (e : error) := negb (isErr e) || IsNotFound e || IsConflict e in
  let copy name := EvCopySecret name (inst_Namespace inst) name (cfg_Namespace (config s)) in
  ∃ e1,
    (tolerated e1 = false
     ∧ calls (ThreeScale.restoreSystemSecrets E r inst s).2
       = calls s ++ [copy "system-seed" e1]
     ∧ (ThreeScale.restoreSystemSecrets E r inst s).1 = Ok (PhaseFailed, e1))
    ∨ (tolerated e1 = true
       ∧ ∃ e2,
           calls (ThreeScale.restoreSystemSecrets E r inst s).2
           = calls s ++ [copy "system-seed" e1; copy "system-master-apicast" e2]
           ∧ (ThreeScale.restoreSystemSecrets E r inst s).1
             = Ok (if tolerated e2 then (PhaseCompleted, None) else (PhaseFailed, e2))).
Proof.
  intros tolerated copy. subst tolerated copy.
  unfold ThreeScale.restoreSystemSecrets, resources_CopySecret. cbn [forRange].
  run_head.
  answer; rename resp into e1.
  exists e1. destruct e1 as [e1|]; cbn [isErr negb orb].
  - destruct (IsNotFound (Some e1)) eqn:Hnf; [|destruct (IsConflict (Some e1)) eqn:Hc];
      cbn [negb andb orb].
    3: { left. split; [done|]. run_head. by rewrite <- ?app_assoc. }
    all: right; split; [done|]; run_head;
      answer; rename resp into e2; exists e2;
      destruct e2 as [e2|]; cbn [isErr negb orb andb];
      [destruct (IsNotFound (Some e2)); [|destruct (IsConflict (Some e2))]|];
      cbn [negb andb orb]; run_head; cbn; rewrite <- ?app_assoc; done.
  - right; split; [done|]; run_head;
      answer; rename resp into e2; exists e2;
      destruct e2 as [e2|]; cbn [isErr negb orb andb];
      [destruct (IsNotFound (Some e2)); [|destruct (IsConflict (Some e2))]|];
      cbn [negb andb orb]; run_head; cbn; rewrite <- ?app_assoc; done.
Qed.

(** X7. [backupSystemSecrets] copies the same two secrets the other way, from
    the product namespace into the namespace of the installation, and any
    error of a copy, not-found and conflict included, stops it at once with
    (Failed, error). *)
Theorem X7_backupSystemSecrets {World} (E : Env World) (r : ThreeScale.Reconciler)
    (inst : RHMI) (s : State World) :
  let copy name := EvCopySecret name (cfg_Namespace (config s)) name (inst_Namespace inst) in
  ∃ e1,
    (isErr e1 = true
     ∧ calls (ThreeScale.backupSystemSecrets E r inst s).2
       = calls s ++ [copy "system-seed" e1]
     ∧ (ThreeScale.backupSystemSecrets E r inst s).1 = Ok (PhaseFailed, e1))
    ∨ (e1 = None
       ∧ ∃ e2,
           calls (ThreeScale.backupSystemSecrets E r inst s).2
           = calls s ++ [copy "system-seed" e1; copy "system-master-apicast" e2]
           ∧ (ThreeScale.backupSystemSecrets E r inst s).1
             = Ok (if isErr e2 then (PhaseFailed, e2) else (PhaseCompleted, None))).
Proof.
  intros copy. subst copy.
  unfold ThreeScale.backupSystemSecrets, resources_CopySecret. cbn [forRange].
  run_head.
  answer; rename resp into e1.
  exists e1. destruct e1 as [e1|]; cbn [isErr].
  - left. split; [done|]. run_head. by rewrite <- ?app_assoc.
  - right. split; [done|]. run_head.
    answer; rename resp into e2. exists e2.
    destruct e2 as [e2|]; cbn [isErr]; run_head; cbn; by rewrite <- ?app_assoc.
Qed.

(** ** The secret of the OAuth client *)

(** X8. [getOauthClientSecret] looks the secret of the OAuth clients up once,
    in the operator namespace, and never panics. It returns a nil error
    exactly when the secret was found and has an entry under the product name,
    and then it returns that entry (also an empty one); when the lookup fails
    or the entry is missing it returns the empty string and an error. *)
Theorem X8_getOauthClientSecret {World} (E : Env World) (r : ThreeScale.Reconciler)
    (s : State World) :
  ∃ resp,
    calls (ThreeScale.getOauthClientSecret E r s).2
    = calls s ++ [EvGet KSecret {| key_Name := GetOauthClientsSecretName E;
                                   key_Namespace := GetOperatorNamespace E |} resp]
    ∧ match (ThreeScale.getOauthClientSecret E r s).1 with
      | Ok (secret, None) =>
          ∃ o, resp = inr (ASecret o)
               ∧ ThreeScale.mapLookup (secret_Data o) (cfg_ProductName (config s)) = Some secret
      | Ok (secret, Some e) =>
          secret = ""
          ∧ ((∃ e', resp = inl e')
             ∨ ∃ o, resp = inr (ASecret o)
                    ∧ ThreeScale.mapLookup (secret_Data o) (cfg_ProductName (config s)) = None)
      | Panic _ => False
      end.
Proof.
  unfold ThreeScale.getOauthClientSecret, Get. run_head. answer.
  exists (logObject resp). destruct resp as [e|o]; cbn [isErr logObject].
  - cbn. split; [by rewrite <- ?app_assoc|]. split; [done|]. left. by eexists.
  - destruct (ThreeScale.mapLookup (secret_Data o) (cfg_ProductName (config s))) as [v|] eqn:Hv; cbn.
    + split; [by rewrite <- ?app_assoc|]. by exists o.
    + split; [by rewrite <- ?app_assoc|]. split; [done|]. right. by exists o.
Qed.

(** ** The API manager of 3scale *)

Section APIManager.
Context {World : Type} (E : Env World).

Lemma atLeastReplicas_spec P (replicas : option Z) :
  Returns P (λ n, ∃ k, n = Some k ∧ 2 ≤ k) (ThreeScale.atLeastReplicas replicas : M World _).
Proof.
  unfold ThreeScale.atLeastReplicas. destruct replicas as [n|]; [|apply Returns_panic].
  case_bool_decide as Hn; apply Returns_ret.
  - by exists ThreeScale.numberOfReplicas.
  - exists n. split; [done|]. unfold ThreeScale.numberOfReplicas in Hn. lia.
Qed.

Lemma reconcileComponents_available (r : ThreeScale.Reconciler) :
  Emits (writesAvailable (ThreeScale.installation r)) (ThreeScale.reconcileComponents E r).
Proof.
  eapply Returns_emits with (Q := λ _, True).
  unfold ThreeScale.reconcileComponents, ThreeScale.getBlobStorageFileStorageSpec,
    ThreeScale.routesExist, ThreeScale.resyncRoutes.
  eapply (Returns_bind _ (λ _, True)); [returns; done|]. intros [fss err] _.
  destruct (isErr err); [by apply Returns_ret|].
  eapply (Returns_bind _ (λ _, True)); [by apply Returns_getConfig|]. intros cfg _.
  eapply (Returns_bind _ (λ _, True)).
  { eapply (Returns_CreateOrUpdate _ _
              (λ a, highlyAvailable (ThreeScale.installation r) (apim_Spec a)));
      [done| |done|done].
    intros o.
    do 9 (eapply Returns_bind; [apply atLeastReplicas_spec|]; intros ? ?).
    apply Returns_ret. intros _. cbn [fst apim_Spec].
    unfold highlyAvailable, replicaCounts. cbn. repeat split; try done.
    repeat constructor; done. }
  intros [[status apim] err'] _. returns; done.
Qed.
End APIManager.

(** X9. Every API manager that [reconcileComponents] of 3scale creates or
    updates has high availability and the pod disruption budget enabled, the
    routing subdomain of the installation as its wildcard domain, and each of
    its nine replica counts set and at least two. *)
Theorem X9_api_manager_available {World} (E : Env World) (r : ThreeScale.Reconciler)
    (s : State World) :
  ∃ new,
    calls (ThreeScale.reconcileComponents E r s).2 = calls s ++ new
    ∧ ∀ a resp,
        EvCreate (AAPIManager a) resp ∈ new ∨ EvUpdate (AAPIManager a) resp ∈ new →
        highlyAvailable (ThreeScale.installation r) (apim_Spec a).
Proof.
  destruct (reconcileComponents_available E r s) as (new & Hnew & Hall).
  exists new. split; [done|]. rewrite Forall_forall in Hall.
  intros a resp [Hin|Hin]; apply (Hall _ Hin).
Qed.

(** ** What the log holds when a method returns *)

Section Ends.
Context {World : Type}.
Implicit Types (s : State World) (P : Event → Prop).

Lemma Ends_ret {A} (Q : list Event → A → Prop) (a : A) :
  Q [] a → Ends Q (ret a : M World A).
Proof. intros HQ s a' [= <-]. exists []. by rewrite app_nil_r. Qed.

Lemma Ends_panic {A} (Q : list Event → A → Prop) msg : Ends Q (panic msg : M World A).
Proof. by intros s a. Qed.

Lemma Ends_bind {A B} P (Q : list Event → B → Prop) (m : M World A) (f : A → M World B) :
  Emits P m →
  (∀ a, (∃ s, (m s).1 = Ok a) → Ends Q (f a)) →
  (∀ n1 n2 b, Forall P n1 → Q n2 b → Q (n1 ++ n2) b) →
  Ends Q (bind m f).
Proof.
  intros Hm Hf Hmono s b. unfold bind. destruct (Hm s) as (n1 & H1 & HP1).
  destruct (m s) as [[a|msg] s1] eqn:Hms; cbn [fst snd] in *; [|done].
  intros Hb. destruct (Hf a (ex_intro _ s (f_equal fst Hms)) s1 b Hb) as (n2 & H2 & HQ).
  exists (n1 ++ n2). rewrite H2, H1, app_assoc. split; [done|]. by apply Hmono.
Qed.

Lemma Ends_call {A} (Q : list Event → A → Prop) (log : A → Event) (op : World → A * World) :
  (∀ a, Q [log a] a) → Ends Q (call log op).
Proof. intros HQ s a. rewrite run_call. cbn. intros [= <-]. eexists. split; [done|]. apply HQ. Qed.

(** The last call of a bind, when what follows makes none. *)
Lemma Ends_bind_call {A B} (Q : list Event → B → Prop) (log : A → Event)
    (op : World → A * World) (f : A → M World B) :
  (∀ a, Ends (λ new b, Q (log a :: new) b) (f a)) →
  Ends Q (bind (call log op) f).
Proof.
  intros Hf s b. rewrite run_bind_call. intros Hb.
  destruct (Hf _ _ _ Hb) as (new & Hnew & HQ). cbn [calls] in Hnew.
  exists (log (op (world s)).1 :: new). split; [|done].
  rewrite Hnew. by rewrite <- app_assoc.
Qed.
End Ends.

Ltac ends_step mono :=
  lazymatch goal with
  | |- Ends _ (ret _) => apply Ends_ret
  | |- Ends _ (panic _) => apply Ends_panic
  | |- Ends _ (bind _ _) =>
      eapply (Ends_bind (λ _, True));
      [solve [eapply Returns_emits with (Q := λ _, True); returns; done]
      |intros ? ?|intros; mono]
  | |- Ends _ (match ?x with _ => _ end) => destruct x eqn:?
  | |- Ends _ ((fun _ => _) _) => cbv beta
  end.

Section Routes.
Context {World : Type} (E : Env World).

Lemma resyncRoutes_not_completed r :
  Returns (λ _, True) (λ res : Result, res.1 ≠ PhaseCompleted) (ThreeScale.resyncRoutes E r).
Proof. unfold ThreeScale.resyncRoutes. returns; done. Qed.

Lemma routesExist_tail (r : ThreeScale.Reconciler) :
  Ends (λ new res, res = (PhaseCompleted, None) → sixRoutes new)
    (let* (exist', err) := ThreeScale.routesExist E r in
     if isErr err then ret (PhaseFailed, err) else
     if exist' then ret (PhaseCompleted, None)
     else ThreeScale.resyncRoutes E r).
Proof.
  intros s res.
  match goal with |- (?m s).1 = _ → _ => remember (m s) as run eqn:Hrun end.
  unfold ThreeScale.routesExist, List in Hrun. run_head_in Hrun. answer_in Hrun.
  destruct resp as [e|routes]; cbn [isErr] in Hrun.
  - subst run. cbn. intros [= <-]. eexists. split; [by rewrite <- ?app_assoc|]. done.
  - run_head_in Hrun. branch_in Hrun.
    + run_head_in Hrun. cbn [isErr] in Hrun. subst run. cbn. intros [= <-]. eexists.
      split; [by rewrite <- ?app_assoc|]. intros _.
      eexists _, routes. split; [by left|]. split; [done|]. by apply bool_decide_eq_true in Heqb.
    + run_head_in Hrun. cbn [isErr] in Hrun. match type of Hrun with
      | _ = ThreeScale.resyncRoutes E r ?s' =>
          destruct (resyncRoutes_not_completed r s') as (new & Hnew & _ & Hres)
      end.
      rewrite <- Hrun in Hnew, Hres.
      intros Hr. specialize (Hres _ Hr). eexists. split.
      * etransitivity; [exact Hnew|]. cbn [calls]. rewrite <- ?app_assoc. reflexivity.
      * intros ->. done.
Qed.

Lemma reconcileComponents_routes (r : ThreeScale.Reconciler) :
  Ends (λ new res, res = (PhaseCompleted, None) → sixRoutes new)
    (ThreeScale.reconcileComponents E r).
Proof.
  assert (∀ n1 n2 (b : Result),
            (b = (PhaseCompleted, None) → sixRoutes n2) →
            b = (PhaseCompleted, None) → sixRoutes (n1 ++ n2)) as Hmono.
  { intros n1 n2 b Hq Hb. destruct (Hq Hb) as (opts & routes & Hin & Hsel & Hlen).
    exists opts, routes. split; [|done]. apply elem_of_app. by right. }
  unfold ThreeScale.reconcileComponents, ThreeScale.getBlobStorageFileStorageSpec.
  repeat first [ apply routesExist_tail | ends_step ltac:(eapply Hmono; eassumption) ].
  all: try done.
  match goal with
  | H : ∃ s, (?m s).1 = Ok (Some ?p) |- _ =>
      destruct H as [s' H];
      assert (Returns (λ _, True) (λ h, ∀ res : Result, h = Some res → res.1 = PhaseFailed) m)
        as Hm by (returns; sound_ret);
      pose proof (Returns_yields _ _ _ _ _ Hm H _ eq_refl) as Hp
  end.
  intros ->. done.
Qed.
End Routes.

(** X10. [reconcileComponents] of 3scale reports Completed only in a pass in
    which it has listed the routes of the product namespace and found at least
    six of them. *)
Theorem X10_completed_needs_routes {World} (E : Env World) (r : ThreeScale.Reconciler)
    (s : State World) :
  (ThreeScale.reconcileComponents E r s).1 = Ok (PhaseCompleted, None) →
  ∃ new, calls (ThreeScale.reconcileComponents E r s).2 = calls s ++ new ∧ sixRoutes new.
Proof.
  intros Hres. destruct (reconcileComponents_routes E r s _ Hres) as (new & Hnew & Hsix).
  exists new. split; [done|]. by apply Hsix.
Qed.

Lemma X10_completed_needs_routes_witness :
  ∃ new,
    calls (ThreeScale.reconcileComponents (Fake.env Demo.calm)
             (Demo.threeScale Demo.installation) Demo.threeScaleState).2
    = calls Demo.threeScaleState ++ new
    ∧ sixRoutes new.
Proof.
  apply (X10_completed_needs_routes (Fake.env Demo.calm) (Demo.threeScale Demo.installation)
           Demo.threeScaleState).
  vm_compute. reflexivity.
Defined.
(** ** The session secret of the Grafana proxy *)

(** X11. [reconcileSecrets] of Grafana never panics, and a pass of it is
    decided by what the cluster answers. It looks the secret
    [grafana-k8s-proxy] of the operator namespace up. When the lookup fails
    with an error other than not found, that is its one call and it returns
    (Failed, that error). Otherwise it reads 43 random bytes and builds the
    secret to write from the stored secret (from the empty one when none was
    found): the owner annotations added, and under [session_secret] the
    base64 encoding of the bytes read, or the empty string when the random
    source failed (that failure is not reported), every other entry kept.
    When the annotations changed the name or the namespace it returns Failed
    without writing; a secret that was not found is created; a stored secret
    that the new one equals is left alone and the step returns (Completed,
    nil); any other stored secret is updated. A refused create or update
    gives (Failed, the error), an accepted one (Completed, nil). *)
Theorem X11_grafana_session_secret {World} (E : Env World) (r : Grafana.Reconciler)
    (inst : RHMI) (s : State World) :
  let key := {| key_Name := "grafana-k8s-proxy";
                key_Namespace := cfg_OperatorNamespace (config s) |} in
  let secret := {| secret_meta := mkMeta "grafana-k8s-proxy"
                                    (cfg_OperatorNamespace (config s));
                   secret_Data := None |} in
  let got := clientGet E Secret key (world s) in
  let rnd := randRead E 43 got.2 in
  let password := match rnd.1 with inr b => base64Encode E b | inl _ => "" end in
  let written (o : Secret) :=
    {| secret_meta := AddIntegreatlyOwnerAnnotations E (secret_meta o) inst;
       secret_Data :=
         Some (<["session_secret" := password]>
                 (match secret_Data o with None => ∅ | Some d => d end)) |} in
  let run := Grafana.reconcileSecrets E r inst s in
  let looked := [EvGet KSecret key (logObject got.1); EvRandRead 43 rnd.1] in
  let renamed :=
    ErrOther "MutateFn cannot mutate object name and/or object namespace" in
  let answered (resp : Err + Secret) : Res Result :=
    match resp with
    | inl e => Ok (PhaseFailed, Some e)
    | inr _ => Ok (PhaseCompleted, None)
    end in
  match got.1 with
  | inl e =>
      if IsNotFound (Some e) then
        if bool_decide (key ≠ keyOfMeta (secret_meta (written secret))) then
          calls run.2 = calls s ++ looked ∧ run.1 = Ok (PhaseFailed, Some renamed)
        else
          let resp := (clientCreate E Secret (written secret) rnd.2).1 in
          calls run.2
          = calls s ++ looked ++ [EvCreate (ASecret (written secret)) (logObject resp)]
          ∧ run.1 = answered resp
      else
        calls run.2 = calls s ++ [EvGet KSecret key (inl e)]
        ∧ run.1 = Ok (PhaseFailed, Some e)
  | inr stored =>
      if bool_decide (key ≠ keyOfMeta (secret_meta (written stored))) then
        calls run.2 = calls s ++ looked ∧ run.1 = Ok (PhaseFailed, Some renamed)
      else if deepEqual stored (written stored) then
        calls run.2 = calls s ++ looked ∧ run.1 = Ok (PhaseCompleted, None)
      else
        let resp := (clientUpdate E Secret (written stored) rnd.2).1 in
        calls run.2
        = calls s ++ looked ++ [EvUpdate (ASecret (written stored)) (logObject resp)]
        ∧ run.1 = answered resp
  end.
Proof.
  intros key secret got rnd password written run looked renamed answered.
  subst run looked answered renamed written password rnd got.
  unfold Grafana.reconcileSecrets, Grafana.populateSessionProxySecret,
    Grafana.generatePassword, rand_Read, CreateOrUpdate, mutate, Get, Create, Update.
  run_head.
  change (keyOfMeta (metaOf {| secret_meta := mkMeta "grafana-k8s-proxy"
                                               (cfg_OperatorNamespace (config s));
                               secret_Data := None |})) with key.
  fold secret.
  destruct (clientGet E Secret key (world s)) as [[e|stored] w1];
    cbn [fst snd logObject isErr negb].
  - destruct (IsNotFound (Some e)) eqn:Hnf; cbn [negb].
    + run_head.
      destruct (randRead E 43 w1) as [[re|b] w2]; cbn [fst snd];
        run_head; cbn [isErr metaOf Secret_object];
        (case_bool_decide; do 3 (run_head; cbn [isErr]);
         [ cbn [ret fst snd calls]; rewrite <- ?app_assoc; by split |]);
        match goal with
        | |- context [clientCreate E Secret ?o ?w] =>
            destruct (clientCreate E Secret o w) as [[ce|created] w3]
        end;
        do 3 (run_head; cbn [isErr]);
        cbn [fst snd isErr logObject toAny Secret_object ret calls];
        rewrite <- ?app_assoc; by split.
    + cbn [ret fst snd calls]. by split.
  - run_head.
    destruct (randRead E 43 w1) as [[re|b] w2]; cbn [fst snd];
      run_head; cbn [isErr metaOf Secret_object];
      (case_bool_decide; do 3 (run_head; cbn [isErr]);
       [ cbn [ret fst snd calls]; rewrite <- ?app_assoc; by split |]);
      (match goal with
       | |- context [deepEqual ?a ?b] => destruct (deepEqual a b)
       end;
       [ cbn [ret fst snd calls]; rewrite <- ?app_assoc; by split |]);
      do 3 (run_head; cbn [isErr]);
      match goal with
      | |- context [clientUpdate E Secret ?o ?w] =>
          destruct (clientUpdate E Secret o w) as [[ce|updated] w3]
      end;
      do 3 (run_head; cbn [isErr]);
      cbn [fst snd isErr logObject toAny Secret_object ret calls];
      rewrite <- ?app_assoc; by split.
Qed.

(** ** Service discovery *)

(** X12. [reconcileServiceDiscovery] asks for a rollout of a deployment only
    in a pass in which it has created or updated the [system] config map and
    the write was accepted: a pass that leaves the config map as it is, or in
    which the write fails, makes no rollout. The config map it writes holds
    the service discovery configuration under [service_discovery.yml]. *)
Theorem X12_rollout_after_write {World} (E : Env World) (r : ThreeScale.Reconciler)
    (s : State World) :
  ∃ new,
    calls (ThreeScale.reconcileServiceDiscovery E r s).2 = calls s ++ new
    ∧ ∀ ns name resp,
        EvInstantiate ns name resp ∈ new →
        ∃ cm stored,
          (EvCreate (AConfigMap cm) (inr stored) ∈ new
           ∨ EvUpdate (AConfigMap cm) (inr stored) ∈ new)
          ∧ ThreeScale.mapLookup (cm_Data cm) "service_discovery.yml" ≠ None.
Proof.
  remember (ThreeScale.reconcileServiceDiscovery E r s) as run eqn:Hrun.
  unfold ThreeScale.reconcileServiceDiscovery, ThreeScale.getOauthClientSecret,
    ThreeScale.RolloutDeployment, ConfigManager_WriteConfig, CreateOrUpdate, mutate, Get,
    Create, Update in Hrun.
  walk_in Hrun.
  all: subst run; cbn [ret panic fst snd calls]; rewrite <- ?app_assoc; cbn [app].
  all: eexists; (split; [reflexivity|]); intros ns name resp' Hin; cases_in Hin;
    try discriminate Hin.
  all: try absurd_case.
  all: do 2 eexists; split; [first [left; solve [find_in] | right; solve [find_in]]|].
  all: cbn [ThreeScale.mapLookup cm_Data]; by rewrite lookup_insert, decide_True.
Qed.

(** ** Users added to 3scale and marked in keycloak *)

(** The users that [getUserDiff] returns for addition are keycloak users that
    no 3scale user matches. *)
Lemma getUserDiff_added (kcUsers : list KeycloakAPIUser) (tsUsers : list User)
    (kc : KeycloakAPIUser) :
  kc ∈ (ThreeScale.getUserDiff kcUsers tsUsers).1 →
  kc ∈ kcUsers
  ∧ Forall (λ ts, ¬ caseInsensitiveEqual (UserName kc) (Username ts)) tsUsers.
Proof.
  unfold ThreeScale.getUserDiff. cbn [fst].
  rewrite (foldl_append_filter _ (λ kc, negb (ThreeScale.tsContainsKc tsUsers kc) = true));
    [|done].
  cbn [app]. intros [Hkeep Hin]%list_elem_of_filter. split; [done|].
  apply tsContainsKc_spec. by apply negb_true_iff.
Qed.

Section Users.
Context {World : Type} (E : Env World).

Lemma reconcileOpenshiftUsers_syncs (r : ThreeScale.Reconciler) (inst : RHMI)
    (s : State World) e1 e2 e3 ns kcUsers token users rest :
  calls (ThreeScale.reconcileOpenshiftUsers E r inst s).2
  = calls s ++ e1 :: e2 :: e3 :: EvGetKeycloakUsers ns (inr kcUsers)
      :: EvGetUsers token (inr users) :: rest →
  Forall (λ e, addsOnly kcUsers users e ∧ marksCreated kcUsers e) rest.
Proof.
  remember (ThreeScale.reconcileOpenshiftUsers E r inst s) as run eqn:Hrun.
  unfold ThreeScale.reconcileOpenshiftUsers in Hrun.
  unfold ConfigManager_ReadRHSSO, ThreeScale.GetAdminToken,
    ThreeScale.GetAdminNameAndPassFromSecret, rhsso_GetKeycloakUsers, tsClient_GetUsers,
    Get in Hrun.
  do 5 (run_head_in Hrun; answer_in Hrun;
        destruct resp as [?|?];
        [subst run; cbn [ret fst snd calls]; rewrite <- ?app_assoc;
         intros Hlog%app_inv_head; discriminate Hlog|]).
  match type of Hrun with
  | _ = ?m ?st =>
      assert (Returns (λ e, addsOnly l l0 e ∧ marksCreated l e) (λ _, True) m) as Hm;
        [|destruct (Hm st) as (new & Hnew & Hall & _)]
  end.
  { destruct (ThreeScale.getUserDiff l l0) as [added deleted] eqn:Hdiff.
    assert (∀ kc, kc ∈ added →
              kc ∈ l ∧ Forall (λ ts, ¬ caseInsensitiveEqual (UserName kc) (Username ts)) l0)
      as Hadded.
    { intros kc Hkc. apply getUserDiff_added. by rewrite Hdiff. }
    returns_upto. all: try done.
    - destruct (Hadded x) as [Hin Hno]; [done|]. split; [|done]. by exists x.
    - match goal with Hx : x ∈ l |- _ => rename Hx into Hin end.
      eapply (Returns_CreateOrUpdate _ _
                (λ k, ∃ kc u attrs,
                   kc ∈ l ∧ kcuser_User k = Some u
                   ∧ UserName u = UserName kc ∧ Email u = Email kc
                   ∧ Attributes u = Some attrs
                   ∧ attrs !! "3scale_user_created" = Some ["true"])); [done| |done|done].
      intros o. apply Returns_ret. intros _. cbn [fst kcuser_User].
      exists x. do 2 eexists. split; [done|]. split; [reflexivity|].
      cbn [UserName Email Attributes]. split; [by destruct (Attributes x)|].
      split; [by destruct (Attributes x)|]. split; [reflexivity|].
      by rewrite lookup_insert, decide_True. }
  rewrite <- Hrun in Hnew. intros Hlog.
  pose proof (eq_trans (eq_sym Hlog) Hnew) as Heq. cbn [calls] in Heq.
  rewrite <- ?app_assoc in Heq. apply app_inv_head in Heq. cbn [app] in Heq.
  clear Hrun Hm Hnew Hlog. simplify_eq. exact Hall.
Qed.
End Users.

(** X13. In a pass of [reconcileOpenshiftUsers] that has read the keycloak
    users and the users of 3scale (its fourth and fifth call), every call of
    [AddUser] is for a keycloak user whose user name matches, up to case, the
    user name of no 3scale user; the user is added under the lower-case form
    of its user name and of its email, with an empty password. *)
Theorem X13_users_added_in_lower_case {World} (E : Env World) (r : ThreeScale.Reconciler)
    (inst : RHMI) (s : State World) e1 e2 e3 ns kcUsers token users rest :
  calls (ThreeScale.reconcileOpenshiftUsers E r inst s).2
  = calls s ++ e1 :: e2 :: e3 :: EvGetKeycloakUsers ns (inr kcUsers)
      :: EvGetUsers token (inr users) :: rest →
  Forall (addsOnly kcUsers users) rest.
Proof.
  intros Hlog. eapply Forall_impl; [by eapply reconcileOpenshiftUsers_syncs|].
  by intros e [? ?].
Qed.

(** X14. In such a pass, every keycloak user resource that
    [reconcileOpenshiftUsers] creates or updates carries one of the keycloak
    users read, with its user name and email, and with the attribute
    [3scale_user_created] set to [true]. *)
Theorem X14_keycloak_users_marked {World} (E : Env World) (r : ThreeScale.Reconciler)
    (inst : RHMI) (s : State World) e1 e2 e3 ns kcUsers token users rest :
  calls (ThreeScale.reconcileOpenshiftUsers E r inst s).2
  = calls s ++ e1 :: e2 :: e3 :: EvGetKeycloakUsers ns (inr kcUsers)
      :: EvGetUsers token (inr users) :: rest →
  Forall (marksCreated kcUsers) rest.
Proof.
  intros Hlog. eapply Forall_impl; [by eapply reconcileOpenshiftUsers_syncs|].
  by intros e [? ?].
Qed.

Lemma X13_users_added_in_lower_case_witness :
  Forall (addsOnly [Demo.kcAlice; Demo.kcBob] [Demo.tsAdmin; Demo.tsBob; Demo.tsCarol])
    (drop 5 (calls (ThreeScale.reconcileOpenshiftUsers (Fake.env Demo.calm)
                      (Demo.threeScale Demo.installation) Demo.installation
                      Demo.threeScaleState).2)).
Proof.
  refine (X13_users_added_in_lower_case (Fake.env Demo.calm)
            (Demo.threeScale Demo.installation) Demo.installation Demo.threeScaleState
            (EvReadRHSSO (inr {| rhsso_Namespace := "rhsso"; rhsso_Realm := "openshift";
                                 rhsso_Host := "https://sso.example" |}))
            (EvGet KSecret {| key_Name := "system-seed"; key_Namespace := "rhmi-3scale" |}
               (inr (Demo.secret "system-seed" "rhmi-3scale"
                       [("ADMIN_ACCESS_TOKEN", "token"); ("ADMIN_USER", "admin");
                        ("ADMIN_EMAIL", "admin@example.com")])))
            (EvGet KSecret {| key_Name := "system-seed"; key_Namespace := "rhmi-3scale" |}
               (inr (Demo.secret "system-seed" "rhmi-3scale"
                       [("ADMIN_ACCESS_TOKEN", "token"); ("ADMIN_USER", "admin");
                        ("ADMIN_EMAIL", "admin@example.com")])))
            "rhsso" [Demo.kcAlice; Demo.kcBob] "token"
            [Demo.tsAdmin; Demo.tsBob; Demo.tsCarol]
            (drop 5 (calls (ThreeScale.reconcileOpenshiftUsers (Fake.env Demo.calm)
                              (Demo.threeScale Demo.installation) Demo.installation
                              Demo.threeScaleState).2)) _).
  vm_compute. reflexivity.
Defined.

Lemma X14_keycloak_users_marked_witness :
  Forall (marksCreated [Demo.kcAlice; Demo.kcBob])
    (drop 5 (calls (ThreeScale.reconcileOpenshiftUsers (Fake.env Demo.calm)
                      (Demo.threeScale Demo.installation) Demo.installation
                      Demo.threeScaleState).2)).
Proof.
  refine (X14_keycloak_users_marked (Fake.env Demo.calm)
            (Demo.threeScale Demo.installation) Demo.installation Demo.threeScaleState
            (EvReadRHSSO (inr {| rhsso_Namespace := "rhsso"; rhsso_Realm := "openshift";
                                 rhsso_Host := "https://sso.example" |}))
            (EvGet KSecret {| key_Name := "system-seed"; key_Namespace := "rhmi-3scale" |}
               (inr (Demo.secret "system-seed" "rhmi-3scale"
                       [("ADMIN_ACCESS_TOKEN", "token"); ("ADMIN_USER", "admin");
                        ("ADMIN_EMAIL", "admin@example.com")])))
            (EvGet KSecret {| key_Name := "system-seed"; key_Namespace := "rhmi-3scale" |}
               (inr (Demo.secret "system-seed" "rhmi-3scale"
                       [("ADMIN_ACCESS_TOKEN", "token"); ("ADMIN_USER", "admin");
                        ("ADMIN_EMAIL", "admin@example.com")])))
            "rhsso" [Demo.kcAlice; Demo.kcBob] "token"
            [Demo.tsAdmin; Demo.tsBob; Demo.tsCarol]
            (drop 5 (calls (ThreeScale.reconcileOpenshiftUsers (Fake.env Demo.calm)
                              (Demo.threeScale Demo.installation) Demo.installation
                              Demo.threeScaleState).2)) _).
  vm_compute. reflexivity.
Defined.

(** ** Admin membership *)

Section Membership.
Context {World : Type} (E : Env World).

Lemma syncOpenshiftAdminMembership_loop (group : Group) (admin : string)
    (isWorkshop : bool) (token : string) (users : list User) (s : State World) :
  let body := fun tsUser =>
      if bool_decide (Username tsUser = admin) then ret None else
      if (ThreeScale.userIsOpenshiftAdmin tsUser group || isWorkshop)
         && bool_decide (UserRole tsUser ≠ adminRole E) then
        let* res := tsClient_SetUserAsAdmin E (Id tsUser) token in
        if httpFailed res StatusOK then ret (Some (httpErr res)) else ret None
      else ret None in
  let run := forRange users body s in
  let cands := toPromote group admin isWorkshop (adminRole E) users in
  (run.1 = Ok None ∧ calls run.2 = calls s ++ (promoted token <$> cands))
  ∨ ∃ pre u rest resp,
      cands = pre ++ u :: rest ∧ httpFailed resp StatusOK = true
      ∧ run.1 = Ok (Some (httpErr resp))
      ∧ calls run.2 = calls s ++ (promoted token <$> pre)
                        ++ [EvSetUserAsAdmin (Id u) token resp].
Proof.
  intros body run cands. subst run cands. revert s.
  induction users as [|u users IH]; intros s.
  { left. cbn. by rewrite app_nil_r. }
  unfold toPromote. cbn [forRange List.filter].
  fold (toPromote group admin isWorkshop (adminRole E) users).
  remember (body u) as bu eqn:Hbu. unfold body in Hbu.
  destruct (bool_decide (Username u = admin)).
  { subst bu. rewrite run_bind_ret. cbn [negb andb]. apply IH. }
  cbn [negb andb].
  destruct ((ThreeScale.userIsOpenshiftAdmin u group || isWorkshop)
            && bool_decide (UserRole u ≠ adminRole E)).
  2: { subst bu. rewrite run_bind_ret. apply IH. }
  subst bu. unfold tsClient_SetUserAsAdmin.
  rewrite run_bind_bind, run_bind_call.
  destruct (SetUserAsAdmin E (Id u) token (world s)) as [resp w]. cbn [fst snd].
  destruct (httpFailed resp StatusOK) eqn:Hresp.
  { right. exists [], u, (toPromote group admin isWorkshop (adminRole E) users), resp.
    rewrite !run_bind_ret. cbn [ret fst snd calls fmap list_fmap app]. done. }
  rewrite !run_bind_ret.
  assert (resp = inr StatusOK) as ->.
  { destruct resp as [?|z]; [done|]. cbn in Hresp.
    apply bool_decide_eq_false in Hresp. f_equal. by apply dec_stable. }
  match goal with |- context [forRange users body ?st] => specialize (IH st) end.
  cbn [calls] in IH.
  destruct IH as [[Hres Hlog]|(pre & v & rest & resp & Hc & Hf & Hres & Hlog)].
  - left. split; [done|]. rewrite Hlog, <- app_assoc. done.
  - right. exists (u :: pre), v, rest, resp.
    rewrite Hc. split; [done|]. split; [done|]. split; [done|].
    rewrite Hlog, <- !app_assoc. done.
Qed.
End Membership.

(** X15. [syncOpenshiftAdminMembership] asks 3scale to make admins of the
    users other than the system admin that are in the admin group (or of all
    of them in workshop mode) and do not have the admin role, in their order,
    and of no one else.  It stops at the first request that fails or is
    answered with a status other than 200, and returns the error of that
    request: nil when 3scale answered with another status without an error.
    Otherwise it returns nil after the last user. *)
Theorem X15_admin_sync_stops_at_first_refusal {World} (E : Env World) (group : Group)
    (users : list User) (admin : string) (isWorkshop : bool) (token : string)
    (s : State World) :
  let run := ThreeScale.syncOpenshiftAdminMembership E group users admin isWorkshop token s in
  let cands := toPromote group admin isWorkshop (adminRole E) users in
  (run.1 = Ok None ∧ calls run.2 = calls s ++ (promoted token <$> cands))
  ∨ ∃ pre u rest resp,
      cands = pre ++ u :: rest ∧ httpFailed resp StatusOK = true
      ∧ run.1 = Ok (httpErr resp)
      ∧ calls run.2 = calls s ++ (promoted token <$> pre)
                        ++ [EvSetUserAsAdmin (Id u) token resp].
Proof.
  intros run cands. subst run cands.
  unfold ThreeScale.syncOpenshiftAdminMembership.
  pose proof (syncOpenshiftAdminMembership_loop E group admin isWorkshop token users s) as H.
  cbv zeta in H.
  match type of H with
  | context [forRange users ?b s] => remember (forRange users b) as loop eqn:Hloop
  end.
  clear Hloop. unfold bind. destruct (loop s) as [res st]. cbn [fst snd] in H.
  destruct H as [[-> Hlog]|(pre & u & rest & resp & Hc & Hf & -> & Hlog)].
  - by left.
  - right. by exists pre, u, rest, resp.
Qed.

(** ** The single sign-on integration *)

(** X16. [reconcileRHSSOIntegration] adds the authentication provider to
    3scale only in a pass in which 3scale answered the lookup of the provider
    [rhsso] with a not-found error, after the keycloak client [3scale] was
    created or updated with the write accepted, or found on the cluster as
    the method wants it.  The client secret and the client id it sends to
    3scale are those of that keycloak client, and the site is that of the
    realm of the single sign-on configuration read in this pass, which has a
    namespace and a realm. *)
Theorem X16_provider_matches_keycloak_client {World} (E : Env World)
    (r : ThreeScale.Reconciler) (s : State World) :
  ∃ new,
    calls (ThreeScale.reconcileRHSSOIntegration E r s).2 = calls s ++ new
    ∧ ∀ params token resp,
        EvAddAuthenticationProvider params token resp ∈ new →
        ∃ cfg kc spec err,
          EvReadRHSSO (inr cfg) ∈ new
          ∧ rhsso_Namespace cfg ≠ "" ∧ rhsso_Realm cfg ≠ ""
          ∧ ((∃ stored, EvCreate (AKeycloakClient kc) (inr stored) ∈ new)
             ∨ (∃ stored, EvUpdate (AKeycloakClient kc) (inr stored) ∈ new)
             ∨ EvGet KKeycloakClient
                 {| key_Name := ThreeScale.clientID; key_Namespace := rhsso_Namespace cfg |}
                 (inr (AKeycloakClient kc)) ∈ new)
          ∧ kcclient_Spec kc = Some spec
          ∧ params !! "client_secret" = Some (kcs_Secret spec)
          ∧ params !! "client_id" = Some (kcs_ClientID spec)
          ∧ params !! "site" = Some (rhsso_Host cfg +:+ "/auth/realms/" +:+ rhsso_Realm cfg)
          ∧ EvGetAuthenticationProviderByName ThreeScale.rhssoIntegrationName token err ∈ new
          ∧ tsIsNotFoundError E err = true.
Proof.
  remember (ThreeScale.reconcileRHSSOIntegration E r s) as run eqn:Hrun.
  unfold ThreeScale.reconcileRHSSOIntegration, ThreeScale.getOauthClientSecret,
    ThreeScale.GetAdminToken, ConfigManager_ReadRHSSO,
    tsClient_GetAuthenticationProviderByName, tsClient_AddAuthenticationProvider,
    CreateOrUpdate, mutate, Get, Create, Update in Hrun.
  walk_in Hrun.
  all: subst run; cbn [ret panic fst snd calls]; rewrite <- ?app_assoc; cbn [app].
  all: eexists; (split; [reflexivity|]); intros params token resp' Hin; cases_in Hin;
    try discriminate Hin.
  all: try absurd_case.
  all: injection Hin as -> -> ->.
  all: apply orb_false_iff in Heqb as [Hns%bool_decide_eq_false Hrealm%bool_decide_eq_false].
  all: eexists r0, _, (ThreeScale.getKeycloakClientSpec E r s1), resp.
  all: split; [solve [find_in]|].
  all: split; [exact Hns|]; split; [exact Hrealm|].
  all: cbn [toAny KeycloakClient_object logObject kindOf keyOfMeta metaOf kcclient_meta
            mkMeta Name Namespace].
  all: split;
    [first [ left; eexists; solve [find_in]
           | right; left; eexists; solve [find_in]
           | right; right; solve [find_in] ]|].
  all: split;
    [first [ reflexivity
           | cbn [deepEqual KeycloakClient_object] in *;
             match goal with
             | H : bool_decide (?k = _) = true |- _ =>
                 apply bool_decide_eq_true in H; by rewrite H
             end ]|].
  all: cbn [list_to_map foldr uncurry fst snd ThreeScale.getKeycloakClientSpec kcs_Secret kcs_ClientID].
  all: rewrite ?lookup_insert.
  all: repeat (rewrite decide_False; [|discriminate]).
  all: repeat split; try (by rewrite decide_True); try solve [find_in]; try done.
Qed.

(** ** The versions in the product status record *)

Section Versions.
Context {World : Type} (E : Env World).
Implicit Types (I : State World → Prop) (Q : PassState World → Prop).

Lemma KeepsConfig_forRange {A R} (l : list A) (body : A → M World (option R)) :
  (∀ x, KeepsConfig (body x)) → KeepsConfig (forRange l body).
Proof.
  intros Hb. induction l as [|x l IH]; cbn [forRange]; [apply KeepsConfig_ret|].
  apply KeepsConfig_bind; [apply Hb|]. intros [v|]; [apply KeepsConfig_ret|apply IH].
Qed.

Lemma CompletesWith_ext I Q (m m' : PassM World Result) :
  (∀ ps, m ps = m' ps) → CompletesWith I Q m' → CompletesWith I Q m.
Proof. intros Heq Hm ps. rewrite Heq. apply Hm. Qed.

Lemma CompletesWith_assoc {A B} I Q (m : PassM World A) (g : A → PassM World B) h :
  CompletesWith I Q (bind m (fun a => bind (g a) h)) →
  CompletesWith I Q (bind (bind m g) h).
Proof. apply CompletesWith_ext. intros ps. apply bind_assoc. Qed.

Lemma CompletesWith_bind {A} I (I' : A → State World → Prop) Q
    (m : PassM World A) (f : A → PassM World Result) :
  (∀ ps a, I (st ps) → (m ps).1 = Ok a → I' a (st (m ps).2)) →
  (∀ a, CompletesWith (I' a) Q (f a)) →
  CompletesWith I Q (bind m f).
Proof.
  intros Hm Hf ps HI. specialize (Hm ps). unfold bind.
  destruct (m ps) as [[a|msg] ps1]; cbn [fst snd] in *; [|done].
  apply Hf. by apply Hm.
Qed.

Lemma CompletesWith_never I Q (m : PassM World Result) :
  (∀ ps, (m ps).1 ≠ Ok (PhaseCompleted, None)) → CompletesWith I Q m.
Proof. intros Hm ps _ Hres. by destruct (Hm ps). Qed.

Lemma step_state {A} name (mk : A → StepReturn) (m : M World A) (ps : PassState World) :
  st (step name mk (lift m) ps).2 = (m (st ps)).2.
Proof.
  unfold step, logStep, lift. by destruct (m (st ps)) as [[a|msg] s1].
Qed.

Lemma step_result {A} name (mk : A → StepReturn) (m : M World A) (ps : PassState World) :
  (step name mk (lift m) ps).1 = (m (st ps)).1.
Proof.
  unfold step, logStep, lift. by destruct (m (st ps)) as [[a|msg] s1].
Qed.

Lemma step_keeps {A} (I : Config → Prop) name (mk : A → StepReturn) (m : M World A) :
  KeepsConfig m →
  ∀ ps (a : A), I (config (st ps)) → (step name mk (lift m) ps).1 = Ok a →
                I (config (st (step name mk (lift m) ps).2)).
Proof. intros Hm ps a HI _. by rewrite step_state, Hm. Qed.
End Versions.

(** Walk through a method and check that it leaves the configuration alone. *)
Ltac keeps_step :=
  lazymatch goal with
  | |- KeepsConfig (ret _) => apply KeepsConfig_ret
  | |- KeepsConfig (panic _) => apply KeepsConfig_panic
  | |- KeepsConfig getConfig => apply KeepsConfig_getConfig
  | |- KeepsConfig (call _ _) => apply KeepsConfig_call
  | |- KeepsConfig (emit _) => by intros ?
  | |- KeepsConfig (bind _ _) => apply KeepsConfig_bind; [|intros ?]
  | |- KeepsConfig (Get _ _ _) => apply KeepsConfig_Get
  | |- KeepsConfig (CreateOrUpdate _ _ _) => apply KeepsConfig_CreateOrUpdate; intros ?
  | |- KeepsConfig (forRange _ _) => apply KeepsConfig_forRange; intros ?
  | |- KeepsConfig (match ?x with _ => _ end) => destruct x
  | |- KeepsConfig ((fun _ => _) _) => cbv beta
  | |- KeepsConfig _ => progress autounfold with methods
  end.

Ltac keeps := repeat keeps_step.

(** A step came back with a pair that makes the pass return at once. *)
Ltac cw_halt :=
  apply CompletesWith_never; intros [? ? ? ?]; cbn;
  let Heq := fresh in intros Heq; simplify_eq; done.

(** A step that returns a phase, followed by the test on it. *)
Ltac cw_phase keep :=
  keep;
  let phase := fresh "phase" in
  let err := fresh "err" in
  let Hh := fresh "Hh" in
  intros [phase err]; cbv beta iota;
  destruct (halts phase err) eqn:Hh; [cw_halt|].

(** Before the versions are set, and after. *)
Ltac cw_any := apply CompletesWith_bind with (I' := λ _ _, True); [done|].

Section ThreeScaleVersions.
Context {World : Type} (E : Env World).

Lemma reconcileServiceDiscovery_versions (r : ThreeScale.Reconciler) (s : State World) :
  versionsSet E (config (ThreeScale.reconcileServiceDiscovery E r s).2).
Proof.
  unfold ThreeScale.reconcileServiceDiscovery, ConfigManager_WriteConfig.
  rewrite run_bind_getConfig.
  case_bool_decide as H1;
    repeat (rewrite ?run_bind_bind, ?run_bind_ret, ?run_bind_getConfig, ?run_bind_setConfig,
              ?run_bind_call; cbn [config calls world fst snd]).
  all: case_bool_decide as H2;
    repeat (rewrite ?run_bind_bind, ?run_bind_ret, ?run_bind_getConfig, ?run_bind_setConfig,
              ?run_bind_call; cbn [config calls world fst snd]).
  all: match goal with
       | |- versionsSet _ ?c =>
           lazymatch c with
           | config (?m ?s1).2 =>
               let Hk := fresh in
               assert (KeepsConfig m) as Hk by keeps;
               replace c with (config s1) by (symmetry; apply Hk)
           end
       end.
  all: cbn [config]; split; cbn; try done; by apply dec_stable.
Qed.

Lemma ThreeScale_Reconcile_versions (r : ThreeScale.Reconciler) (inst : RHMI) :
  CompletesWith (λ _, True)
    (λ ps, ps_Version (product ps) = Version3Scale E
           ∧ ps_OperatorVersion (product ps) = OperatorVersion3Scale E)
    (ThreeScale.Reconcile E r inst).
Proof.
  unfold ThreeScale.Reconcile.
  cw_any. intros cfg.
  do 4 cw_phase cw_any.
  cw_any. intros [e|]; cbn [isErr]; [cw_halt|].
  cw_phase cw_any.
  assert (∀ k : PassM World Result,
            CompletesWith (λ _, True)
              (λ ps, ps_Version (product ps) = Version3Scale E
                     ∧ ps_OperatorVersion (product ps) = OperatorVersion3Scale E) k →
            CompletesWith (λ _, True)
              (λ ps, ps_Version (product ps) = Version3Scale E
                     ∧ ps_OperatorVersion (product ps) = OperatorVersion3Scale E)
              (let* halted :=
                 match inst_DeletionTimestamp (ThreeScale.installation r) with
                 | None =>
                     let* (phase, err) :=
                       step "reconcileSMTPCredentials" (uncurry RetPhase)
                         (lift (ThreeScale.reconcileSMTPCredentials E r)) in
                     if halts phase err then
                       lift (events_HandleError phase "Failed to reconcile smtp credentials" err) ;;;
                       ret (Some (phase, err))
                     else
                     let* (phase, err) :=
                       step "reconcileExternalDatasources" (uncurry RetPhase)
                         (lift (ThreeScale.reconcileExternalDatasources E r)) in
                     if halts phase err then
                       lift (events_HandleError phase "Failed to reconcile external data sources" err) ;;;
                       ret (Some (phase, err))
                     else
                     let* (phase, err) :=
                       step "reconcileBlobStorage" (uncurry RetPhase)
                         (lift (ThreeScale.reconcileBlobStorage E r)) in
                     if halts phase err then
                       lift (events_HandleError phase "Failed to reconcile blob storage" err) ;;;
                       ret (Some (phase, err))
                     else
                     ret None
                 | Some _ => ret None
                 end in
               match halted with
               | Some res => ret res
               | None => k
               end)) as Hblock.
  { intros k Hk.
    destruct (inst_DeletionTimestamp (ThreeScale.installation r)).
    { eapply CompletesWith_ext; [intros ps; reflexivity|]. exact Hk. }
    do 3 (apply CompletesWith_assoc; cw_phase cw_any).
    eapply CompletesWith_ext; [intros ps; reflexivity|]. exact Hk. }
  apply Hblock. clear Hblock.
  do 4 cw_phase cw_any.
  cw_any. intros [clientSecret [e|]]; cbn [isErr]; [cw_halt|].
  cw_any. intros [[route|] [e|]]; cbn [isErr]; try cw_halt.
  cw_any. intros cfg1.
  cw_phase cw_any.
  cw_phase ltac:(apply CompletesWith_bind with (I' := λ _ s, versionsSet E (config s));
                 [intros ps ? _ _; rewrite step_state;
                  apply reconcileServiceDiscovery_versions|]).
  do 4 cw_phase ltac:(apply CompletesWith_bind with (I' := λ _ s, versionsSet E (config s));
                      [apply (step_keeps (versionsSet E));
                       try unfold ThreeScale.backupSystemSecrets;
                       try unfold ThreeScale.reconcileRouteEditRole;
                       try unfold ThreeScale.reconcileConsoleLink;
                       solve [keeps]|]).
  intros [s p l t] HI _. exact HI.
Qed.
End ThreeScaleVersions.

(** X17. A pass of [Reconcile] of 3scale that comes back with (Completed, nil)
    leaves the product status record with the product version and the
    operator version of 3scale that this operator installs, whatever the
    configuration held before the pass: [VerifyProductAndOperatorVersion]
    accepts the record for these two versions. *)
Theorem X17_completed_pass_verifies {World} (E : Env World) (r : ThreeScale.Reconciler)
    (inst : RHMI) (ps : PassState World) :
  (ThreeScale.Reconcile E r inst ps).1 = Ok (PhaseCompleted, None) →
  Grafana.VerifyProductAndOperatorVersion (product (ThreeScale.Reconcile E r inst ps).2)
    (Version3Scale E) (OperatorVersion3Scale E) = true.
Proof.
  intros Hres.
  destruct (ThreeScale_Reconcile_versions E r inst ps I Hres) as [Hv Ho].
  unfold Grafana.VerifyProductAndOperatorVersion. rewrite Hv, Ho.
  by rewrite !bool_decide_eq_false_2 by (by intros ?).
Qed.

Lemma X17_completed_pass_verifies_witness :
  Grafana.VerifyProductAndOperatorVersion
    (product (ThreeScale.Reconcile (Fake.env Demo.calm) (Demo.threeScale Demo.installation)
                Demo.installation (Demo.start Demo.threeScaleWorld Demo.threeScaleConfig)).2)
    "2.8" "0.5.0" = true.
Proof.
  refine (X17_completed_pass_verifies (Fake.env Demo.calm)
            (Demo.threeScale Demo.installation) Demo.installation
            (Demo.start Demo.threeScaleWorld Demo.threeScaleConfig) _).
  vm_compute. reflexivity.
Defined.


Section GrafanaHost.
Context {World : Type} (E : Env World).

Lemma Grafana_reconcileHost_host (r : Grafana.Reconciler) (s : State World) :
  (Grafana.reconcileHost E r s).1 = Ok (PhaseCompleted, None) →
  hostWritten [] (Grafana.reconcileHost E r s).2.
Proof.
  remember (Grafana.reconcileHost E r s) as run eqn:Hrun.
  unfold Grafana.reconcileHost, ConfigManager_WriteConfig, Get in Hrun.
  walk_in Hrun.
  all: subst run; cbn [ret fst snd calls config]; intros Hres; try discriminate Hres.
  destruct resp; [discriminate Heqb|].
  exists (calls s), (cfg_OperatorNamespace (config s)), r0,
    (SetHost ("https://" +:+ route_Host r0) (config s)).
  cbn [calls config]. rewrite <- app_assoc. done.
Qed.

Lemma Grafana_Reconcile_completed (r : Grafana.Reconciler) (inst : RHMI) :
  CompletesWith (λ _, True)
    (λ ps, ps_Version (product ps) = VersionGrafana E
           ∧ ps_Host (product ps) = cfg_Host (config (st ps))
           ∧ ∃ tail, hostWritten tail (st ps)
                     ∧ Forall (λ e, match e with
                                    | EvWriteConfig cfg _ =>
                                        cfg_Host cfg = cfg_Host (config (st ps))
                                    | EvHandleProductComplete _ => True
                                    | _ => False
                                    end) tail)
    (Grafana.Reconcile E r inst).
Proof.
  unfold Grafana.Reconcile.
  cw_any. intros cfg.
  do 5 cw_phase cw_any.
  cw_phase ltac:(apply CompletesWith_bind
                   with (I' := λ a s, a = (PhaseCompleted, None) → hostWritten [] s);
                 [intros ps ? _ Hres Ha; rewrite step_state;
                  apply Grafana_reconcileHost_host;
                  rewrite step_result in Hres; etransitivity; [exact Hres|by f_equal]|]).
  apply not_halts in Hh4 as [-> ->].
  unfold Grafana.reconciled, ConfigManager_WriteConfig.
  intros [s p l t] HI _. cbn [st] in HI.
  destruct (HI eq_refl) as (pre & ns & route & cfg1 & Hlog & Hcfg & Hhost).
  destruct s as [w c k]. cbn [calls config] in Hlog, Hhost. subst k.
  unfold bind, lift, getConfig, setConfig, call, setProduct, events_HandleProductComplete,
    emit, ret.
  cbn [st config world calls fst snd].
  case_bool_decide as Hv.
  - match goal with
    | |- context [WriteConfig ?e ?c ?w] => destruct (WriteConfig e c w) as [resp w1]
    end.
    cbn [st config world calls fst snd product ps_Version ps_Host SetProductVersion
         cfg_ProductVersion cfg_Host].
    split; [done|]. split; [done|].
    exists [EvWriteConfig (SetProductVersion (VersionGrafana E) c) resp;
            EvHandleProductComplete (cfg_ProductName c)].
    split.
    + exists pre, ns, route, cfg1. cbn [calls config cfg_Host SetProductVersion].
      rewrite <- !app_assoc. done.
    + repeat constructor.
  - cbn [st config world calls fst snd product ps_Version ps_Host].
    split; [exact Hv|]. split; [done|].
    exists [EvHandleProductComplete (cfg_ProductName c)].
    split.
    + exists pre, ns, route, cfg1. cbn [calls config].
      rewrite <- !app_assoc. done.
    + repeat constructor.
Qed.
End GrafanaHost.

(** X18. A pass of [Reconcile] of Grafana that comes back with
    (Completed, nil) leaves the product status record with the version of
    Grafana that this operator installs and with the host [https://] followed
    by the host of the route [grafana-route], as this pass has read it.  The
    pass ends with that lookup, the write of the configuration that holds the
    host, a second write of the configuration when the version had to be
    brought up to date, and the record of the completion; the host is the
    same in every configuration written. *)
Theorem X18_grafana_completed_pass {World} (E : Env World) (r : Grafana.Reconciler)
    (inst : RHMI) (ps : PassState World) :
  (Grafana.Reconcile E r inst ps).1 = Ok (PhaseCompleted, None) →
  let final := (Grafana.Reconcile E r inst ps).2 in
  ps_Version (product final) = VersionGrafana E
  ∧ ∃ pre ns route cfg tail,
      calls (st final)
      = pre ++ EvGet KRoute {| key_Name := Grafana.defaultRoutename; key_Namespace := ns |}
                 (inr (ARoute route))
            :: EvWriteConfig cfg None :: tail
      ∧ ps_Host (product final) = "https://" +:+ route_Host route
      ∧ cfg_Host cfg = "https://" +:+ route_Host route
      ∧ Forall (λ e, match e with
                     | EvWriteConfig cfg' _ => cfg_Host cfg' = "https://" +:+ route_Host route
                     | EvHandleProductComplete _ => True
                     | _ => False
                     end) tail.
Proof.
  intros Hres final.
  destruct (Grafana_Reconcile_completed E r inst ps I Hres)
    as (Hv & Hh & tail & (pre & ns & route & cfg & Hlog & Hcfg & Hhost) & Htail).
  split; [exact Hv|].
  exists pre, ns, route, cfg, tail. subst final.
  split; [exact Hlog|]. split; [by rewrite Hh|]. split; [exact Hcfg|].
  eapply Forall_impl; [exact Htail|].
  intros [] He; try done. by rewrite He.
Qed.

Lemma X18_grafana_completed_pass_witness :
  ps_Version (product (Grafana.Reconcile (Fake.env Demo.calm) (Demo.grafana Demo.installation)
                         Demo.installation
                         (Demo.start Demo.grafanaWorld Demo.grafanaConfig)).2)
  = "6.5.1".
Proof.
  refine (proj1 (X18_grafana_completed_pass (Fake.env Demo.calm)
                   (Demo.grafana Demo.installation) Demo.installation
                   (Demo.start Demo.grafanaWorld Demo.grafanaConfig) _)).
  vm_compute. reflexivity.
Defined.

(** ** The admin details of the seed secret *)

Lemma run_bind_panic {World A B} (msg : string) (f : A → M World B) (s : State World) :
  bind (panic msg) f s = (Panic msg, s).
Proof. done. Qed.

(** X19. [SetAdminDetailsOnSecret] looks the secret [system-seed] of the
    product namespace up and never creates it: when the secret is not found,
    or is found without data, the method panics on the assignment to a nil
    map, and any other error of the lookup is returned as it is.  On a
    secret with data it sets [ADMIN_USER] and [ADMIN_EMAIL] and keeps every
    other entry; it writes the secret only when that changes it, and returns
    the error of the write. *)
Theorem X19_SetAdminDetailsOnSecret {World} (E : Env World) (r : ThreeScale.Reconciler)
    (username email : string) (s : State World) :
  let run := SetAdminDetailsOnSecret E r username email s in
  let key := {| key_Name := "system-seed"; key_Namespace := cfg_Namespace (config s) |} in
  ∃ resp rest,
    calls run.2 = calls s ++ EvGet KSecret key resp :: rest
    ∧ match resp with
      | inl e =>
          rest = []
          ∧ run.1 = (if IsNotFound (Some e) then Panic "assignment to entry in nil map"
                     else Ok (Some e))
      | inr (ASecret stored) =>
          match secret_Data stored with
          | None => rest = [] ∧ run.1 = Panic "assignment to entry in nil map"
          | Some data =>
              let wanted :=
                {| secret_meta := secret_meta stored;
                   secret_Data :=
                     Some (<["ADMIN_EMAIL" := email]> (<["ADMIN_USER" := username]> data)) |} in
              (rest = [] ∧ keyOfMeta (secret_meta stored) ≠ key ∧ ∃ e, run.1 = Ok (Some e))
              ∨ (rest = [] ∧ deepEqual stored wanted = true ∧ run.1 = Ok None)
              ∨ (∃ wresp, rest = [EvUpdate (ASecret wanted) wresp]
                          ∧ deepEqual stored wanted = false
                          ∧ run.1 = Ok (match wresp with inl e => Some e | inr _ => None end))
          end
      | inr _ => False
      end.
Proof.
  intros run key. subst run.
  remember (SetAdminDetailsOnSecret E r username email s) as run eqn:Hrun.
  unfold SetAdminDetailsOnSecret, CreateOrUpdate, mutate, Get, Create, Update in Hrun.
  run_head_in Hrun. answer_in Hrun. rename resp into got.
  exists (logObject got).
  destruct got as [e|stored]; cbn [logObject toAny Secret_object];
    repeat (walk_in Hrun; rewrite ?run_bind_bind, ?run_bind_panic in Hrun).
  all: subst run; cbn [ret panic fst snd calls]; rewrite <- ?app_assoc; cbn [app].
  all: eexists; (split; [reflexivity|]).
  all: cbn [logObject toAny Secret_object metaOf secret_meta secret_Data] in *.
  all: try match goal with
           | H : negb (IsNotFound ?x) = _ |- _ => destruct (IsNotFound x); try done
           end.
  all: try match goal with
           | H : secret_Data ?x = _ |- _ => rewrite H
           end.
  all: try done.
  - left. split; [done|]. split; [|by eexists].
    apply bool_decide_eq_true in Heqb. intros Heq. apply Heqb. by rewrite Heq.
  - right. by left.
  - right. right. by eexists.
  - right. right. by eexists.
Qed.

(** ** The connection secrets of the external data sources *)

Lemma key_name (n ns : string) (m : ObjectMeta) :
  bool_decide (keyOfMeta (mkMeta n ns) ≠ keyOfMeta m) = false → Name m = n.
Proof.
  intros H%bool_decide_eq_false. apply dec_stable in H.
  by injection H as <- _.
Qed.

Lemma mapGet_insert (d : gmap string string) (k v : string) :
  mapGet (Some (<[k := v]> d)) k = v.
Proof. cbn [mapGet]. by rewrite lookup_insert, decide_True. Qed.

Lemma mapGet_insert_ne (d : gmap string string) (k k' v : string) :
  k ≠ k' → mapGet (Some (<[k := v]> d)) k' = mapGet (Some d) k'.
Proof. intros Hk. cbn [mapGet]. by rewrite lookup_insert_ne. Qed.

(** The entries of a connection secret that is written out. *)
Ltac connection :=
  cbv zeta; cbn [secret_Data];
  repeat split;
  repeat (rewrite mapGet_insert_ne by discriminate);
  rewrite mapGet_insert; reflexivity.

(** The written secret, its credentials and the request they come from. *)
Ltac connected :=
  eexists;
  ((left) + (right; left) + (right; right));
  (split; [first [reflexivity | eapply key_name; eassumption]|]);
  (split; [unfold backendRedisConnection, systemRedisConnection, postgresConnection;
           connection|]);
  eexists; (split; [find_next|]); find_next.

(** X20. Every secret that [reconcileExternalDatasources] creates or updates
    is one of the three connection secrets of 3scale, [backend-redis],
    [system-redis] and [system-database], and holds the connection details
    of the credentials secret read in the same pass under the reference that
    the request for the cloud resource (the backend redis, the system redis,
    postgres) answered: the storage of the backend redis is its database 0
    and the queues its database 1, the system redis uses its database 1 for
    both of its entries, and the postgres secret holds the URL, the user and
    the password. *)
Theorem X20_connection_secrets {World} (E : Env World) (r : ThreeScale.Reconciler)
    (s : State World) :
  let ns := inst_Namespace (ThreeScale.installation r) in
  ∃ new,
    calls (ThreeScale.reconcileExternalDatasources E r s).2 = calls s ++ new
    ∧ ∀ o resp,
        EvCreate (ASecret o) resp ∈ new ∨ EvUpdate (ASecret o) resp ∈ new →
        ∃ cred,
          (Name (secret_meta o) = "backend-redis"
           ∧ backendRedisConnection cred o
           ∧ ∃ redis,
               EvReconcileRedis (ThreeScaleBackendRedisPrefix E +:+ "rhmi") ns (inr redis) ∈ new
               ∧ EvGet KSecret (refKey (redis_SecretRef redis)) (inr (ASecret cred)) ∈ new)
          ∨ (Name (secret_meta o) = "system-redis"
             ∧ systemRedisConnection cred o
             ∧ ∃ redis,
                 EvReconcileRedis (ThreeScaleSystemRedisPrefix E +:+ "rhmi") ns (inr redis) ∈ new
                 ∧ EvGet KSecret (refKey (redis_SecretRef redis)) (inr (ASecret cred)) ∈ new)
          ∨ (Name (secret_meta o) = "system-database"
             ∧ postgresConnection cred o
             ∧ ∃ pg,
                 EvReconcilePostgres
                   (ThreeScalePostgresPrefix E +:+ inst_Name (ThreeScale.installation r))
                   ns (inr pg) ∈ new
                 ∧ EvGet KSecret (refKey (pg_SecretRef pg)) (inr (ASecret cred)) ∈ new).
Proof.
  intros ns.
  remember (ThreeScale.reconcileExternalDatasources E r s) as run eqn:Hrun.
  unfold ThreeScale.reconcileExternalDatasources, croUtil_ReconcileRedis,
    croUtil_ReconcilePostgres, resources_ReconcileRedisAlerts,
    resources_CreateRedisCpuUsageAlerts, resources_ReconcilePostgresAlerts,
    CreateOrUpdate, mutate, Get, Create, Update in Hrun.
  repeat (walk_in Hrun; rewrite ?run_bind_bind, ?run_bind_panic in Hrun).
  all: subst run; cbn [ret panic fst snd calls]; rewrite <- ?app_assoc; cbn [app].
  all: eexists; (split; [reflexivity|]); intros o' resp' [Hin|Hin]; cases_in Hin;
    try discriminate Hin.
  all: cbn [logObject toAny Secret_object metaOf secret_meta secret_Data kindOf] in *.
  all: injection Hin as -> _.
  all: cbn [secret_meta].
  all: solve [connected].
Qed.

(** ** The credentials of the blob storage *)

Lemma foldl_s3Key (l : list (string * string)) (d : gmap string string) (key v : string) :
  (key, v) ∈ l → NoDup l.*1 →
  (∀ k' v', (k', v') ∈ l → ThreeScale.s3Key k' = ThreeScale.s3Key key → k' = key) →
  foldl (λ d '(k, v), <[ThreeScale.s3Key k := v]> d) d l !! ThreeScale.s3Key key = Some v.
Proof.
  induction l as [|[k0 v0] l IH] using rev_ind; intros Hin Hnd Hal.
  { by apply elem_of_nil in Hin. }
  rewrite foldl_app. cbn [foldl].
  rewrite fmap_app in Hnd. apply NoDup_app in Hnd as (Hnd & Hdis & _).
  apply elem_of_app in Hin as [Hin|Hin].
  - destruct (decide (ThreeScale.s3Key k0 = ThreeScale.s3Key key)) as [Heq|Hne].
    + exfalso. assert (k0 = key) as ->.
      { apply (Hal k0 v0); [|done]. apply elem_of_app. right. by left. }
      apply (Hdis key); [|by left].
      by apply (list_elem_of_fmap_2 fst l (key, v)).
    + rewrite lookup_insert_ne by done. apply IH; [done|done|].
      intros k' v' Hk'. apply (Hal k' v'). apply elem_of_app. by left.
  - apply list_elem_of_singleton in Hin. injection Hin as <- <-.
    by rewrite lookup_insert, decide_True.
Qed.

Lemma entries_s3Key (cred d : gmap string string) (key v : string) :
  cred !! key = Some v → copiedAlone cred key →
  foldl (λ d '(k, v), <[ThreeScale.s3Key k := v]> d) d (map_to_list cred)
    !! ThreeScale.s3Key key = Some v.
Proof.
  intros Hk Hal. apply foldl_s3Key.
  - by apply elem_of_map_to_list.
  - apply NoDup_fst_map_to_list.
  - intros k' v' Hk'%elem_of_map_to_list. apply Hal. by eexists.
Qed.

(** X21. Every secret that [getBlobStorageFileStorageSpec] creates or updates
    is the secret [s3-credentials], written after the lookups of the blob
    storage resource of the installation and of the secret that the resource
    refers to.  It holds every entry of that secret: the key id, the secret
    key, the bucket name and the bucket region under the names that 3scale
    reads ([AWS_ACCESS_KEY_ID], [AWS_SECRET_ACCESS_KEY], [AWS_BUCKET],
    [AWS_REGION]) and any other entry under its own key, as long as no two
    entries are copied under the same key. *)
Theorem X21_s3_credentials {World} (E : Env World) (r : ThreeScale.Reconciler)
    (s : State World) :
  ∃ new,
    calls (ThreeScale.getBlobStorageFileStorageSpec E r s).2 = calls s ++ new
    ∧ ∀ o resp,
        EvCreate (ASecret o) resp ∈ new ∨ EvUpdate (ASecret o) resp ∈ new →
        Name (secret_meta o) = "s3-credentials"
        ∧ ∃ blob cred,
            EvGet KBlobStorage
              {| key_Name := ThreeScaleBlobStoragePrefix E
                             +:+ inst_Name (ThreeScale.installation r);
                 key_Namespace := inst_Namespace (ThreeScale.installation r) |}
              (inr (ABlobStorage blob)) ∈ new
            ∧ EvGet KSecret (refKey (blob_SecretRef blob)) (inr (ASecret cred)) ∈ new
            ∧ ∀ key v,
                ThreeScale.mapLookup (secret_Data cred) key = Some v →
                copiedAlone (mapEntries (secret_Data cred)) key →
                ThreeScale.mapLookup (secret_Data o) (ThreeScale.s3Key key) = Some v.
Proof.
  remember (ThreeScale.getBlobStorageFileStorageSpec E r s) as run eqn:Hrun.
  unfold ThreeScale.getBlobStorageFileStorageSpec, CreateOrUpdate, mutate, Get, Create,
    Update in Hrun.
  repeat (walk_in Hrun; rewrite ?run_bind_bind, ?run_bind_panic in Hrun).
  all: subst run; cbn [ret panic fst snd calls]; rewrite <- ?app_assoc; cbn [app].
  all: eexists; (split; [reflexivity|]); intros o' resp' [Hin|Hin]; cases_in Hin;
    try discriminate Hin.
  all: cbn [logObject toAny Secret_object BlobStorage_object metaOf secret_meta secret_Data
            kindOf] in *.
  all: injection Hin as -> _.
  all: cbn [secret_meta].
  all: (split; [first [reflexivity | eapply key_name; eassumption]|]).
  all: do 2 eexists; (split; [solve [find_in]|]); (split; [solve [find_in]|]).
  all: intros key v Hk Hal; cbn [ThreeScale.mapLookup secret_Data].
  all: try match goal with
           | H : deepEqual ?x ?x = false |- _ =>
               cbn [deepEqual Secret_object] in H;
               rewrite !bool_decide_eq_true_2 in H by done; discriminate H
           end.
  all: assert (mapEntries (secret_Data s0) !! key = Some v) as Hk'
         by (destruct (secret_Data s0); [exact Hk|discriminate Hk]).
  all: try match goal with
           | H : map_to_list _ = [] |- _ =>
               apply map_to_list_empty_iff in H; rewrite H, lookup_empty in Hk';
               discriminate Hk'
           end.
  all: match goal with
       | H : map_to_list _ = ?p :: ?l |- foldl ?f ?d0 ?l !! _ = _ =>
           match d0 with
           | context [<[_ := _]> ?d] =>
               change (foldl f d (p :: l) !! ThreeScale.s3Key key = Some v);
               rewrite <- H; by apply entries_s3Key
           end
       end.
Qed.

(** ** The order of the steps *)

(** X22. In a pass of [Reconcile], of Grafana and of 3scale, the steps that
    have run are the first steps of the step list, each once and in the order
    of the list: no step runs before an earlier step of the list has, and
    none runs twice. *)
Theorem X22_steps_in_list_order {World} (E : Env World) (inst : RHMI)
    (ps : PassState World) :
  (∀ r, ∃ evs,
     steps (Grafana.Reconcile E r inst ps).2 = steps ps ++ evs
     ∧ evs.*1 `prefix_of` Grafana.stepList)
  ∧ (∀ r, ∃ evs,
       steps (ThreeScale.Reconcile E r inst ps).2 = steps ps ++ evs
       ∧ evs.*1 `prefix_of` ThreeScale.stepList r).
Proof.
  split; intros r.
  - eapply PassSpec_order, Grafana_Reconcile_spec.
  - eapply PassSpec_order, ThreeScale_Reconcile_spec.
Qed.

(** ** The constructors *)

Lemma append_not_empty (a b : string) : b ≠ "" → a +:+ b ≠ "".
Proof. intros Hb. destruct a; [exact Hb|discriminate]. Qed.

(** X23. [NewReconciler], of Grafana and of 3scale, never panics.  When the
    configuration cannot be read it returns the error wrapped, makes no call
    and builds no reconciler.  Otherwise the reconciler it returns is that of
    the installation, and its configuration has a product namespace and an
    operator namespace that are not empty: a namespace that was read is
    kept, an empty product namespace becomes the namespace prefix followed by
    the default namespace of the product.  The configuration is written
    exactly when the product namespace was empty, once, and with the product
    namespace alone filled in: the operator namespace and the path of the
    blackbox target are set in memory only. *)
Theorem X23_NewReconciler_namespaces {World} (E : Env World) (inst : RHMI)
    (read : Err + Config) (s : State World) :
  let grafana := GrafanaNew.NewReconciler E inst read s in
  let threeScale := ThreeScaleNew.NewReconciler E inst read s in
  match read with
  | inl e =>
      grafana = (Ok (inl (ErrWrap "could not retrieve threescale config" e)), s)
      ∧ threeScale = (Ok (inl (ErrWrap "could not retrieve threescale config" e)), s)
  | inr cfg =>
      (grafana.1 = Ok (inr {| Grafana.installation := inst |})
       ∧ namespacesSet (inst_NamespacePrefix inst +:+ "customer-monitoring") cfg s grafana.2)
      ∧ (threeScale.1 = Ok (inr {| ThreeScale.installation := inst |})
         ∧ namespacesSet (inst_NamespacePrefix inst +:+ "3scale") cfg s threeScale.2
         ∧ cfg_BlackboxTargetPathForAdminUI (config threeScale.2) = "/p/login/")
  end.
Proof.
  intros grafana threeScale. subst grafana threeScale.
  destruct read as [e|cfg]; [done|].
  unfold GrafanaNew.NewReconciler, ThreeScaleNew.NewReconciler, ConfigManager_WriteConfig,
    namespacesSet.
  repeat (rewrite ?run_bind_bind, ?run_bind_ret, ?run_bind_getConfig, ?run_bind_setConfig,
            ?run_bind_call; cbn [config calls world fst snd]).
  assert (inst_NamespacePrefix inst +:+ "customer-monitoring" ≠ "") as Hg
    by (by apply append_not_empty).
  assert (inst_NamespacePrefix inst +:+ "3scale" ≠ "") as Ht
    by (by apply append_not_empty).
  case_bool_decide as Hns;
    repeat (rewrite ?run_bind_bind, ?run_bind_ret, ?run_bind_getConfig, ?run_bind_setConfig,
              ?run_bind_call;
            cbn [config calls world fst snd SetNamespace cfg_OperatorNamespace
                 cfg_Namespace]).
  all: case_bool_decide as Hop; destruct (inst_OperatorsInProductNamespace inst);
    repeat (rewrite ?run_bind_bind, ?run_bind_ret, ?run_bind_getConfig, ?run_bind_setConfig,
              ?run_bind_call;
            cbn [config calls world fst snd ret SetNamespace SetOperatorNamespace
                 SetBlackboxTargetPathForAdminUI cfg_OperatorNamespace cfg_Namespace
                 cfg_BlackboxTargetPathForAdminUI]).
  all: repeat split; try done; try (by apply append_not_empty).
  all: try (eexists; split; [reflexivity|]; by eexists).
  all: try (exists []; by rewrite app_nil_r).
Qed.

(** ** The blackbox targets *)

(** X24. Every blackbox target that [reconcileBlackboxTargets] creates is one
    of three: the admin UI, under the host and the path of the configuration;
    the developer console, under [https://] and the host of the first listed
    route whose host starts with [3scale.]; and the master console, under
    [https://] and the host of the first listed route.  The method panics
    only on the nil route of a lookup that found none: the panic is the nil
    pointer dereference, and the last call before it is a listing of routes
    that succeeded and holds no route, or no route whose host starts with
    [3scale.]. *)
Theorem X24_blackbox_targets {World} (E : Env World) (r : ThreeScale.Reconciler)
    (inst : RHMI) (s : State World) :
  ∃ new,
    calls (ThreeScale.reconcileBlackboxTargets E r inst s).2 = calls s ++ new
    ∧ Forall (targetOf (config s) new) new
    ∧ ∀ msg,
        (ThreeScale.reconcileBlackboxTargets E r inst s).1 = Panic msg →
        msg = "invalid memory address or nil pointer dereference"
        ∧ ∃ pre opts routes,
            new = pre ++ [EvList KRoute opts (inr (ARoute <$> routes))]
            ∧ (routes = []
               ∨ Forall (λ x, HasPrefix (route_Host x) "3scale." = false) routes).
Proof.
  remember (ThreeScale.reconcileBlackboxTargets E r inst s) as run eqn:Hrun.
  unfold ThreeScale.reconcileBlackboxTargets, ThreeScale.getThreescaleRoute,
    ThreeScale.routeSpecHost, ConfigManager_ReadMonitoring, monitoring_CreateBlackboxTarget,
    List in Hrun.
  repeat (walk_in Hrun; rewrite ?run_bind_bind, ?run_bind_panic in Hrun).
  all: subst run; cbn [ret panic fst snd calls]; rewrite <- ?app_assoc; cbn [app].
  all: cbn [logObjects kindOf toAny Route_object].
  all: repeat match goal with
              | H : ThreeScale.firstRoute _ _ = Some _ |- _ =>
                  apply firstRoute_Some in H as (? & ? & -> & ? & ?)
              | H : ThreeScale.firstRoute _ _ = None |- _ => apply firstRoute_None in H
              | H : bool_decide (List.length ?l = 0%nat) = true |- _ =>
                  apply bool_decide_eq_true in H; destruct l; [|discriminate H]
              | H : Forall (λ _, true = false) ?l |- _ =>
                  destruct l; [clear H|by apply Forall_cons in H as [? _]]
              end.
  all: eexists; (split; [reflexivity|]); split.
  all: try (intros msg Hp;
            first [ discriminate Hp
                  | injection Hp as <-; split; [done|];
                    first [ eexists [_; _], _, _; split; [reflexivity|]
                          | eexists [_; _; _; _], _, _; split; [reflexivity|] ];
                    first [ by left | by right ] ]).
  all: repeat apply Forall_cons_2; try apply Forall_nil_2; try exact I.
  all: cbn [targetOf].
  all: try (by left).
  all: cbn [app].
  all: first
         [ solve [ right; left; (split; [reflexivity|]); (split; [reflexivity|]);
                   eexists _, _, _, _; (split; [find_next|]); done ]
         | solve [ right; right; (split; [reflexivity|]); (split; [reflexivity|]);
                   eexists _, _, _; (split; [find_next|]); reflexivity ] ].
Qed.
